(** * Interactive Vega-Altair with Jupyter Widgets: a shallow embedding

    The notebook [interactive-vega-altair-solution.py] is a sequence of
    cells run in one kernel session.  Each cell is embedded as a
    computation over an explicit session state (module globals, widget
    objects, call log, library-level effects); every function the
    notebook defines is embedded under its own name.

    The plotting library only ever receives a declarative chart
    description, so a chart is a record holding exactly what the
    notebook passed to the builder calls. *)

From stdpp Require Import gmap strings list.
From Stdlib Require Import ZArith QArith DecimalString SpecFloat.

Open Scope string_scope.
Open Scope Z_scope.

(** Exceptions a cell can raise. *)
Inductive exn :=
| SyntaxError
| NameError (name : string)
| KeyError (key : string)
| IndexError
| TypeError (what : string)
| ValueError (what : string)
| OverflowError (what : string)
| TraitError (what : string).

(** ** Binary64 numbers

    A finite binary64 number is an integer multiple of [2^-1074] with
    at most 53 significant bits.  [Fin n] is the number [n * 2^-1074];
    the sign of zero is not kept, which no operation of the notebook
    observes. *)

Module np.

Inductive float64 :=
| NaN
| Inf (negative : bool)
| Fin (n : Z).

(** One, and the overflow threshold [2^1024], in units of [2^-1074]. *)
Definition one : Z := 2 ^ 1074.
Definition huge : Z := 2 ^ 2098.

(** [a / d] rounded to the nearest integer, ties to even. *)
Definition round_half_even (a d : Z) : Z :=
  let q := a / d in
  let r := a mod d in
  if 2 * r <? d then q
  else if d <? 2 * r then q + 1
  else if Z.even q then q else q + 1.

(** How many low bits a quotient loses when it is kept to 53
    significant bits. *)
Definition shift (num den : Z) : Z := Z.max (Z.log2 (num / den) - 52) 0.

(** [num / den], for [0 <= num] and [0 < den], rounded to the nearest
    integer with at most 53 significant bits, ties to even. *)
Definition nearest (num den : Z) : Z :=
  let j := shift num den in
  round_half_even num (den * 2 ^ j) * 2 ^ j.

Definition signed (negative : bool) (n : Z) : float64 :=
  if huge <=? n then Inf negative
  else Fin (if negative then - n else n).

(** Conversion of an integer, as [numpy] does before it divides. *)
Definition of_int (z : Z) : float64 :=
  signed (z <? 0) (nearest (Z.abs z * one) 1).

(** IEEE 754 division, round to nearest even. *)
Definition div (x y : float64) : float64 :=
  match x, y with
  | NaN, _ | _, NaN => NaN
  | Inf _, Inf _ => NaN
  | Inf s, Fin b => Inf (xorb s (b <? 0))
  | Fin a, Inf _ => Fin 0
  | Fin a, Fin b =>
      if b =? 0 then (if a =? 0 then NaN else Inf (a <? 0))
      else signed (xorb (a <? 0) (b <? 0))
             (nearest (Z.abs a * one) (Z.abs b))
  end.

(** The number a 64-bit pattern stands for. *)
Definition of_bits (bits : Z) : float64 :=
  let negative := Z.testbit bits 63 in
  let e := (bits / 2 ^ 52) mod 2 ^ 11 in
  let m := bits mod 2 ^ 52 in
  if e =? 2047 then (if m =? 0 then Inf negative else NaN)
  else
    let n := if e =? 0 then m else (2 ^ 52 + m) * 2 ^ (e - 1) in
    Fin (if negative then - n else n).

Definition isnan (x : float64) : bool :=
  match x with NaN => true | _ => false end.

(** [x <= y]; false when either is NaN. *)
Definition leb (x y : float64) : bool :=
  match x, y with
  | NaN, _ | _, NaN => false
  | Inf true, _ => true
  | _, Inf false => true
  | Fin a, Fin b => a <=? b
  | _, _ => false
  end.

Definition minimum (x y : float64) : float64 := if leb x y then x else y.
Definition maximum (x y : float64) : float64 := if leb x y then y else x.

(** The number an IEEE 754 triple of the Standard Library stands
    for. *)
Definition of_spec (x : spec_float) : float64 :=
  match x with
  | S754_zero _ => Fin 0
  | S754_infinity s => Inf s
  | S754_nan => NaN
  | S754_finite s m e =>
      Fin ((if s then - Z.pos m else Z.pos m) * 2 ^ (e + 1074))
  end.

End np.

#[global] Instance float64_eq_dec : EqDecision np.float64.
Proof. solve_decision. Defined.

(** ** Tabular datasets *)

Module pd.

(** One cell of a table: a [numpy.int64], a string, or a binary64
    number carried as its bit pattern.  A record that lacks a column
    of its table holds a missing value there. *)
Inductive cell :=
| CInt (z : Z)
| CStr (s : string)
| CFloat (bits : Z).

Record DataFrame := {
  columns : list string;
  records : list (gmap string cell)
}.

(** A column, with the type it has in the table: [int64] when every
    cell is an integer, [float64] when every cell is a number or
    missing (integers are converted, a missing cell is NaN), strings,
    or a mix of strings and other cells. *)
Inductive Series :=
| Int64 (zs : list Z)
| Float64 (xs : list np.float64)
| Strings (ss : list string)
| Mixed.

Definition as_int64 (c : option cell) : option Z :=
  match c with
  | Some (CInt z) => Some z
  | _ => None
  end.

Definition as_float64 (c : option cell) : option np.float64 :=
  match c with
  | Some (CInt z) => Some (np.of_int z)
  | Some (CFloat bits) => Some (np.of_bits bits)
  | None => Some np.NaN
  | Some (CStr _) => None
  end.

Definition as_string (c : option cell) : option string :=
  match c with
  | Some (CStr s) => Some s
  | _ => None
  end.

Definition series (cells : list (option cell)) : Series :=
  match mapM as_int64 cells with
  | Some zs => Int64 zs
  | None =>
      match mapM as_float64 cells with
      | Some xs => Float64 xs
      | None =>
          match mapM as_string cells with
          | Some ss => Strings ss
          | None => Mixed
          end
      end
  end.

(** [df[col]]: [KeyError] when the column does not exist. *)
Definition getitem (df : DataFrame) (col : string) : exn + Series :=
  if decide (col ∈ columns df)
  then inr (series ((fun r => r !! col) <$> records df))
  else inl (KeyError col).

(** What [Series.min()] and [Series.max()] hand back: a [numpy.int64],
    a [numpy.float64] or a [str]. *)
Inductive scalar :=
| int64 (z : Z)
| float64 (x : np.float64)
| str (s : string).

Definition notna (xs : list np.float64) : list np.float64 :=
  filter (fun x => np.isnan x = false) xs.

Definition least (a b : string) : string :=
  if String.leb a b then a else b.

Definition greatest (a b : string) : string :=
  if String.leb a b then b else a.

(** [Series.min()] and [Series.max()].  Missing values are skipped;
    an empty series, or one with missing values only, gives NaN.
    Strings do not compare with numbers. *)
Definition min (column : Series) : exn + scalar :=
  match column with
  | Int64 [] => inr (float64 np.NaN)
  | Int64 (z :: zs) => inr (int64 (foldr Z.min z zs))
  | Float64 xs =>
      match notna xs with
      | [] => inr (float64 np.NaN)
      | y :: ys => inr (float64 (foldr np.minimum y ys))
      end
  | Strings [] => inr (float64 np.NaN)
  | Strings (s :: ss) => inr (str (foldr least s ss))
  | Mixed => inl (TypeError "'<=' not supported between instances")
  end.

Definition max (column : Series) : exn + scalar :=
  match column with
  | Int64 [] => inr (float64 np.NaN)
  | Int64 (z :: zs) => inr (int64 (foldr Z.max z zs))
  | Float64 xs =>
      match notna xs with
      | [] => inr (float64 np.NaN)
      | y :: ys => inr (float64 (foldr np.maximum y ys))
      end
  | Strings [] => inr (float64 np.NaN)
  | Strings (s :: ss) => inr (str (foldr greatest s ss))
  | Mixed => inl (TypeError "'>=' not supported between instances")
  end.

End pd.

(** ** Python built-ins used by the notebook *)

Module Py.

(** [str(i)] on an integer: decimal rendering, with a leading minus
    sign for negative numbers. *)
Definition str (z : Z) : string := NilZero.string_of_int (Z.to_int z).

(** [sep.join(l)]. *)
Fixpoint join (sep : string) (l : list string) : string :=
  match l with
  | [] => ""
  | [x] => x
  | x :: rest => x +:+ sep +:+ join sep rest
  end.

(** [range(n)]. *)
Definition range (n : nat) : list Z := Z.of_nat <$> seq 0 n.

(** [x / b] for a scalar [x] and an integer literal [b].  [numpy]
    converts both operands of an [int64] division to binary64 and
    divides there; a string has no division. *)
Definition truediv (x : pd.scalar) (b : Z) : exn + np.float64 :=
  match x with
  | pd.int64 z => inr (np.div (np.of_int z) (np.of_int b))
  | pd.float64 f => inr (np.div f (np.of_int b))
  | pd.str _ => inl (TypeError "unsupported operand type(s) for /")
  end.

End Py.

Module math.

Definition floor (x : np.float64) : exn + Z :=
  match x with
  | np.NaN => inl (ValueError "cannot convert float NaN to integer")
  | np.Inf _ =>
      inl (OverflowError "cannot convert float infinity to integer")
  | np.Fin n => inr (n / np.one)
  end.

Definition ceil (x : np.float64) : exn + Z :=
  match x with
  | np.NaN => inl (ValueError "cannot convert float NaN to integer")
  | np.Inf _ =>
      inl (OverflowError "cannot convert float infinity to integer")
  | np.Fin n => inr (- (- n / np.one))
  end.

End math.

(** Agreement of the conversion and of the division by 1000 with the
    Standard Library's IEEE 754 operations, on one integer. *)
Definition agrees_with_SFdiv (z : Z) : bool :=
  bool_decide
    (np.of_int z = np.of_spec (binary_normalize 53 1024 z 0 false))
  && bool_decide
       (np.div (np.of_int z) (np.of_int 1000)
        = np.of_spec
            (SFdiv 53 1024 (binary_normalize 53 1024 z 0 false)
               (binary_normalize 53 1024 1000 0 false))).

(** ** Declarative chart descriptions *)

Module alt.

Record Title := { text : string; subtitle : option string }.

Record Scale := { scheme : option string; zero : option bool }.

Inductive SelectionType := interval.

(** A selection parameter.  [pname n] is the library-generated name
    [param_n]. *)
Record Param := {
  pname : nat;
  select : SelectionType;
  encodings : list string
}.

(** Filter predicates built from [datum]. *)
Inductive BinOp := OpGe | OpLe | OpAnd.

Inductive Expr :=
| GetItem (field : string)                    (* datum[field] *)
| Const (z : Z)
| BinaryExpression (op : BinOp) (lhs rhs : Expr).

Inductive Transform :=
| FilterExpr (e : Expr)
| FilterParam (p : Param).

Inductive Mark :=
| bar
| point
| rule (color : string) (opacity : Q).

(** What the notebook passes for an encoding channel. *)
Inductive Channel :=
| shorthand (s : string)                       (* x='sepalLength' *)
| shorthands (l : list string)                 (* tooltip=[...] *)
| Color (s : string) (scale : Scale)
| X (s : string) (scale : Scale)
| condition (p : Param) (if_true if_false : Z)
    (* alt.condition(p, alt.value(a), alt.value(b)) *)
| SizeValue (v : Z).

Record ChartSpec := {
  data : option pd.DataFrame;
  title : option Title;
  mark : option Mark;
  encoding : gmap string Channel;
  transform : list Transform;
  params : list Param
}.

Record LayerSpec := {
  layers : list ChartSpec;
  ldata : option pd.DataFrame
}.

(** Builder calls; each returns a modified copy. *)
Definition Chart (d : option pd.DataFrame) (t : option Title) : ChartSpec :=
  {| data := d; title := t; mark := None; encoding := ∅;
     transform := []; params := [] |}.

Definition with_mark (m : Mark) (c : ChartSpec) : ChartSpec :=
  {| data := data c; title := title c; mark := Some m;
     encoding := encoding c; transform := transform c;
     params := params c |}.

Definition mark_bar : ChartSpec -> ChartSpec := with_mark bar.
Definition mark_point : ChartSpec -> ChartSpec := with_mark point.
Definition mark_rule (color : string) (opacity : Q)
  : ChartSpec -> ChartSpec := with_mark (rule color opacity).

Definition encode (kw : list (string * Channel)) (c : ChartSpec)
  : ChartSpec :=
  {| data := data c; title := title c; mark := mark c;
     encoding := list_to_map kw ∪ encoding c;
     transform := transform c; params := params c |}.

Definition transform_filter (t : Transform) (c : ChartSpec) : ChartSpec :=
  {| data := data c; title := title c; mark := mark c;
     encoding := encoding c; transform := transform c ++ [t];
     params := params c |}.

Definition add_params (ps : list Param) (c : ChartSpec) : ChartSpec :=
  {| data := data c; title := title c; mark := mark c;
     encoding := encoding c; transform := transform c;
     params := params c ++ ps |}.

Definition layer (cs : list ChartSpec) (d : option pd.DataFrame)
  : LayerSpec := {| layers := cs; ldata := d |}.

(** *** Meaning of a description

    What the plotting library does with a filter predicate, on rows
    whose referenced fields are integers.  Anything else evaluates to
    [None]. *)
Inductive Val := VNum (z : Z) | VBool (b : bool).

Fixpoint eval (e : Expr) (r : gmap string pd.cell) : option Val :=
  match e with
  | GetItem f =>
      match r !! f with
      | Some (pd.CInt z) => Some (VNum z)
      | _ => None
      end
  | Const z => Some (VNum z)
  | BinaryExpression op a b =>
      match op, eval a r, eval b r with
      | OpGe, Some (VNum x), Some (VNum y) => Some (VBool (bool_decide (x >= y)))
      | OpLe, Some (VNum x), Some (VNum y) => Some (VBool (bool_decide (x <= y)))
      | OpAnd, Some (VBool x), Some (VBool y) => Some (VBool (x && y))
      | _, _, _ => None
      end
  end.

(** The state of the interactive selections is owned by the plotting
    library: for each parameter, which rows are currently selected. *)
Definition Selections := Param -> gmap string pd.cell -> bool.

Definition keeps (sel : Selections) (t : Transform)
  (r : gmap string pd.cell) : bool :=
  match t with
  | FilterExpr e =>
      match eval e r with
      | Some (VBool true) => true
      | _ => false
      end
  | FilterParam p => sel p r
  end.

(** Rows that reach the marks: the data rows that pass every filter
    transform in order. *)
Definition rows (sel : Selections) (c : ChartSpec)
  : list (gmap string pd.cell) :=
  foldl (fun rs t => filter (fun r => keeps sel t r = true) rs)
    (from_option pd.records [] (data c)) (transform c).

(** The value a channel takes for a row, where it is a constant or a
    conditional constant. *)
Definition channel_value (sel : Selections) (ch : Channel)
  (r : gmap string pd.cell) : option Z :=
  match ch with
  | condition p a b => Some (if sel p r then a else b)
  | SizeValue v => Some v
  | _ => None
  end.

(** The selection parameters a channel refers to. *)
Definition channel_params (ch : Channel) : list Param :=
  match ch with
  | condition p _ _ => [p]
  | _ => []
  end.

End alt.

(** ** Control descriptors *)

Module widgets.

(** The four widget constructors the notebook calls, with the keyword
    arguments it passes. *)
Inductive Control :=
| Text (value description : string)
| IntSlider (value min max step : Z) (description : string)
| IntRangeSlider (value : Z * Z) (min max step : Z) (description : string)
| Dropdown (options : list string) (value : string) (description : string).

Inductive Kind :=
| FreeText
| IntegerMinMaxStep
| IntegerPairMinMaxStep
| SingleChoice.

Definition kind (c : Control) : Kind :=
  match c with
  | Text _ _ => FreeText
  | IntSlider _ _ _ _ _ => IntegerMinMaxStep
  | IntRangeSlider _ _ _ _ _ => IntegerPairMinMaxStep
  | Dropdown _ _ _ => SingleChoice
  end.

(** The declared domain of a control, as a decidable predicate on its
    current value: any text; an integer between min and max on the
    step grid; an ordered pair of such integers; a member of the
    options. *)
Definition on_grid (lo step v : Z) : bool :=
  bool_decide (0 < step) && bool_decide ((v - lo) `mod` step = 0).

Definition in_domain (c : Control) : bool :=
  match c with
  | Text _ _ => true
  | IntSlider v lo hi step _ =>
      bool_decide (lo <= v) && bool_decide (v <= hi) && on_grid lo step v
  | IntRangeSlider (a, b) lo hi step _ =>
      bool_decide (lo <= a) && bool_decide (a <= b) && bool_decide (b <= hi)
      && on_grid lo step a && on_grid lo step b
  | Dropdown opts v _ => bool_decide (v ∈ opts)
  end.

End widgets.

(** ** The kernel session *)

(** The functions the notebook defines, in order of definition.  Two
    names are defined twice ([print10X], [irisScatter]); a later [def]
    rebinds the global name but a binder keeps the function object it
    was given. *)
Inductive Fn :=
| fn_print10X               (* lines 65-67 *)
| fn_print10X_observer      (* lines 83-88 *)
| fn_print10XPair           (* lines 104-106 *)
| fn_times10                (* lines 122-123 *)
| fn_barChart               (* lines 171-180 *)
| fn_barChartRanges         (* lines 212-227 *)
| fn_irisScatter_plain      (* lines 244-252 *)
| fn_irisScatter            (* lines 261-271 *)
| fn_irisBrushScatter.      (* lines 279-294 *)

(** Python values that flow through the notebook.  Widget objects are
    mutable and shared, hence held by reference into the session heap. *)
Inductive pyval :=
| PNone
| PInt (z : Z)
| PStr (s : string)
| PInts (l : list Z)
| PDataFrame (df : pd.DataFrame)
| PChart (c : alt.ChartSpec)
| PLayer (c : alt.LayerSpec)
| PParam (p : alt.Param)
| PRef (addr : nat)
| PFunction (f : Fn)
| PEnabled (registry plugin : string)
| PChange (name : string) (old new : pyval) (owner : nat) (type : string).
    (* the dictionary an observer receives:
       {'name': .., 'old': .., 'new': .., 'owner': .., 'type': ..} *)

(** What lands in an output area. *)
Inductive Out :=
| Printed (v : pyval)        (* print(v) *)
| Displayed (v : pyval)      (* display(v), or a cell's final expression *)
| Traceback (e : exn).       (* an exception shown instead of raised *)

(** Interactions with the plotting library's global configuration and
    with the world outside the kernel.  The notebook produces only the
    first three; the last three are what the frame properties exclude. *)
Inductive Effect :=
| EnableDataTransformer (name : string)
| EnableRenderer (name : string)
| FetchDataset (name : string)
| ReadEnviron (var : string)
| ReadFile (path : string)
| WriteFile (path : string).

(** A binder instance: the callback, its named controls with their
    current values, and the one live output. *)
Record Binder := {
  fn : Fn;
  controls : list (string * widgets.Control);
  shown : list Out
}.

Inductive Obj :=
| OControl (c : widgets.Control) (observers : list Fn)
| OOutput (content : list Out)
| OInteract (b : Binder).

Record Session := {
  catalog : gmap string pd.DataFrame;   (* the sample dataset catalog *)
  globals : gmap string pyval;          (* the notebook's global names *)
  heap : list Obj;                      (* widget objects *)
  param_counter : nat;                  (* altair's parameter name counter *)
  calls : list (Fn * list (string * pyval));
                                        (* every function invocation so far *)
  effects : list Effect                 (* library and OS interactions so far *)
}.

Definition set_globals (g : gmap string pyval) (s : Session) : Session :=
  {| catalog := catalog s; globals := g; heap := heap s;
     param_counter := param_counter s; calls := calls s;
     effects := effects s |}.

Definition set_heap (h : list Obj) (s : Session) : Session :=
  {| catalog := catalog s; globals := globals s; heap := h;
     param_counter := param_counter s; calls := calls s;
     effects := effects s |}.

Definition set_param_counter (n : nat) (s : Session) : Session :=
  {| catalog := catalog s; globals := globals s; heap := heap s;
     param_counter := n; calls := calls s; effects := effects s |}.

Definition set_calls (l : list (Fn * list (string * pyval))) (s : Session)
  : Session :=
  {| catalog := catalog s; globals := globals s; heap := heap s;
     param_counter := param_counter s; calls := l; effects := effects s |}.

Definition set_effects (l : list Effect) (s : Session) : Session :=
  {| catalog := catalog s; globals := globals s; heap := heap s;
     param_counter := param_counter s; calls := calls s; effects := l |}.

(** *** The cell monad: state, exceptions and output

    A raised exception keeps the state reached so far and the output
    produced so far, as in Python. *)
Record Run (A : Type) := {
  result : exn + A;
  final : Session;
  output : list Out
}.
Arguments result {A} _.
Arguments final {A} _.
Arguments output {A} _.

Definition M (A : Type) : Type := Session -> Run A.

#[global] Instance M_ret : MRet M := fun A (a : A) s =>
  {| result := inr a; final := s; output := [] |}.

#[global] Instance M_bind : MBind M := fun A B (k : A -> M B) (m : M A) s =>
  let r := m s in
  match result r with
  | inl e => {| result := inl e; final := final r; output := output r |}
  | inr a =>
      let r' := k a (final r) in
      {| result := result r'; final := final r';
         output := output r ++ output r' |}
  end.

Definition raise {A} (e : exn) : M A := fun s =>
  {| result := inl e; final := s; output := [] |}.

Definition get : M Session := fun s =>
  {| result := inr s; final := s; output := [] |}.

Definition modify (f : Session -> Session) : M unit := fun s =>
  {| result := inr tt; final := f s; output := [] |}.

Definition emit (o : Out) : M unit := fun s =>
  {| result := inr tt; final := s; output := [o] |}.

Definition lift {A} (r : exn + A) : M A :=
  match r with
  | inl e => raise e
  | inr a => mret a
  end.

(** Run [m] and hand back what it wrote instead of writing it. *)
Definition capture {A} (m : M A) : M (A * list Out) := fun s =>
  let r := m s in
  match result r with
  | inl e => {| result := inl e; final := final r; output := output r |}
  | inr a => {| result := inr (a, output r); final := final r; output := [] |}
  end.

(** [for x in xs: body(x)]. *)
Fixpoint for_ {A} (xs : list A) (body : A -> M unit) : M unit :=
  match xs with
  | [] => mret tt
  | x :: rest => body x ;; for_ rest body
  end.

(** *** Statements *)

Definition print (v : pyval) : M unit := emit (Printed v).

(** What showing a value adds to an output area: nothing for [None]. *)
Definition shows (v : pyval) : list Out :=
  match v with
  | PNone => []
  | _ => [Displayed v]
  end.

(** [display(v)]; also what the kernel does with the value of a cell's
    final expression. *)
Definition display (v : pyval) : M unit := fun s =>
  {| result := inr tt; final := s; output := shows v |}.

Definition assign (name : string) (v : pyval) : M unit :=
  modify (fun s => set_globals (<[name := v]> (globals s)) s).

Definition global (name : string) : M pyval :=
  s ← get;
  match globals s !! name with
  | Some v => mret v
  | None => raise (NameError name)
  end.

Definition as_str (v : pyval) : M string :=
  match v with PStr s => mret s | _ => raise (TypeError "str") end.

Definition as_int (v : pyval) : M Z :=
  match v with PInt z => mret z | _ => raise (TypeError "int") end.

Definition as_pair (v : pyval) : M (Z * Z) :=
  match v with
  | PInts [a; b] => mret (a, b)
  | _ => raise (TypeError "pair of int")
  end.

Definition as_df (v : pyval) : M pd.DataFrame :=
  match v with PDataFrame d => mret d | _ => raise (TypeError "DataFrame") end.

(** [d[key]] on a change dictionary. *)
Definition item (d : pyval) (key : string) : M pyval :=
  match d with
  | PChange name old new owner type =>
      if decide (key = "name") then mret (PStr name)
      else if decide (key = "old") then mret old
      else if decide (key = "new") then mret new
      else if decide (key = "owner") then mret (PRef owner)
      else if decide (key = "type") then mret (PStr type)
      else raise (KeyError key)
  | _ => raise (TypeError "subscript")
  end.

(** [l[i]] on a list of integers. *)
Definition index (v : pyval) (i : nat) : M Z :=
  match v with
  | PInts l =>
      match l !! i with
      | Some z => mret z
      | None => raise IndexError
      end
  | _ => raise (TypeError "subscript")
  end.

Definition effect (e : Effect) : M unit :=
  modify (fun s => set_effects (effects s ++ [e]) s).

Definition alloc (o : Obj) : M nat :=
  s ← get;
  modify (set_heap (heap s ++ [o])) ;;
  mret (length (heap s)).

Definition deref (a : nat) : M Obj :=
  s ← get;
  match heap s !! a with
  | Some o => mret o
  | None => raise (TypeError "dangling reference")
  end.

Definition store (a : nat) (o : Obj) : M unit :=
  modify (fun s => set_heap (<[a := o]> (heap s)) s).

(** *** Library calls with effects *)

(** [data.<name>()]: fetch a named dataset from the catalog. *)
Definition fetch (name : string) : M pd.DataFrame :=
  effect (FetchDataset name) ;;
  s ← get;
  match catalog s !! name with
  | Some df => mret df
  | None => raise (ValueError name)
  end.

(** [alt.selection_interval(encodings=...)]: a parameter with a fresh
    generated name. *)
Definition selection_interval (encodings : list string) : M alt.Param :=
  s ← get;
  let n := S (param_counter s) in
  modify (set_param_counter n) ;;
  mret {| alt.pname := n; alt.select := alt.interval;
          alt.encodings := encodings |}.

(** ** The functions the notebook defines *)

(** Lines 65-67. *)
Definition print10X (str1 : string) : M pyval :=
  for_ (Py.range 10) (fun i =>
    print (PStr (Py.join " " [str1; Py.str i]))) ;;
  mret PNone.

(** [with output: body]: what [body] writes is appended to the output
    widget instead of the cell.  The output widget's context manager
    shows an exception raised by [body] in the widget and suppresses
    it. *)
Definition with_output (v : pyval) (body : M unit) : M unit :=
  match v with
  | PRef a =>
      o ← deref a;
      match o with
      | OOutput content => fun s =>
          let r := body s in
          let shown_error :=
            match result r with
            | inl e => [Traceback e]
            | inr _ => []
            end in
          store a (OOutput (content ++ output r ++ shown_error)) (final r)
      | _ => raise (TypeError "context manager")
      end
  | _ => raise (TypeError "context manager")
  end.

(** Lines 83-88: the observer that rebinds the name [print10X]. *)
Definition print10X_observer (change : pyval) : M pyval :=
  inputStr ← item change "new";
  out ← global "output";
  with_output out (
    print change ;;
    for_ (Py.range 10) (fun i =>
      inputStr ← as_str inputStr;
      print (PStr (Py.join " " [inputStr; Py.str i])))) ;;
  mret PNone.

(** Lines 104-106. *)
Definition print10XPair (str1 str2 : string) : M pyval :=
  for_ (Py.range 10) (fun i =>
    print (PStr (Py.join " " [str1; str2; Py.str i]))) ;;
  mret PNone.

(** Lines 122-123. *)
Definition times10 (x : Z) : M pyval :=
  print (PInt (x * 10)) ;;
  mret PNone.

(** Lines 171-180. *)
Definition barChart (xcol : string) : M pyval :=
  df ← global "birdStrikesDF" ≫= as_df;
  mret (PChart (
    alt.encode [("x", alt.shorthand xcol); ("y", alt.shorthand "count()")] (
    alt.mark_bar (
    alt.Chart (Some df)
      (Some {| alt.text := "Bird Strikes Dataset";
               alt.subtitle := None |}))))).

(** Lines 212-227. *)
Definition barChartRanges (xcol : string) (costRange : Z * Z) : M pyval :=
  df ← global "birdStrikesDF" ≫= as_df;
  let t := {| alt.text := "Bird Strikes Dataset";
              alt.subtitle := Some ("With costs $" +:+
                Py.str (fst costRange) +:+ "–" +:+
                Py.str (snd costRange) +:+ "k") |} in
  costCol ← global "costCol" ≫= as_str;
  mret (PChart (
    alt.encode [("x", alt.shorthand xcol); ("y", alt.shorthand "count()")] (
    alt.mark_bar (
    alt.transform_filter
      (alt.FilterExpr
        (alt.BinaryExpression alt.OpAnd
          (alt.BinaryExpression alt.OpGe
             (alt.GetItem costCol) (alt.Const (fst costRange * 1000)))
          (alt.BinaryExpression alt.OpLe
             (alt.GetItem costCol) (alt.Const (snd costRange * 1000))))) (
    alt.Chart (Some df) (Some t)))))).

(** Lines 244-252. *)
Definition irisScatter_plain : M pyval :=
  df ← global "irisDF" ≫= as_df;
  let irisChart := alt.Chart (Some df) None in
  let points :=
    alt.encode [("x", alt.shorthand "sepalLength");
                ("y", alt.shorthand "petalLength")]
      (alt.mark_point irisChart) in
  mret (PChart points).

Definition purples : alt.Scale :=
  {| alt.scheme := Some "purples"; alt.zero := None |}.

Definition iris_tooltip : list string :=
  ["sepalLength"; "petalLength"; "sepalWidth"; "petalWidth"].

(** Lines 261-271. *)
Definition irisScatter : M pyval :=
  df ← global "irisDF" ≫= as_df;
  let irisChart := alt.Chart (Some df) None in
  let points :=
    alt.encode [("x", alt.shorthand "sepalLength");
                ("y", alt.shorthand "petalLength");
                ("color", alt.Color "sepalWidth" purples);
                ("tooltip", alt.shorthands iris_tooltip)]
      (alt.mark_point irisChart) in
  mret (PChart points).

(** Lines 279-294. *)
Definition irisBrushScatter : M pyval :=
  brush ← selection_interval ["x"; "y"];
  df ← global "irisDF" ≫= as_df;
  let irisChart := alt.Chart (Some df) None in
  let points :=
    alt.add_params [brush] (
    alt.encode [("x", alt.shorthand "sepalLength");
                ("y", alt.shorthand "petalLength");
                ("color", alt.Color "sepalWidth" purples);
                ("size", alt.condition brush 50 1);
                ("tooltip", alt.shorthands iris_tooltip)]
      (alt.mark_point irisChart)) in
  mret (PChart points).

(** *** Calling a function object *)

Definition arg (kw : list (string * pyval)) (name : string) : M pyval :=
  match list_find (fun p => p.1 = name) kw with
  | Some (_, (_, v)) => mret v
  | None => raise (TypeError name)
  end.

Definition apply (f : Fn) (kw : list (string * pyval)) : M pyval :=
  match f with
  | fn_print10X =>
      str1 ← arg kw "str1" ≫= as_str;
      print10X str1
  | fn_print10X_observer =>
      change ← arg kw "change";
      print10X_observer change
  | fn_print10XPair =>
      str1 ← arg kw "str1" ≫= as_str;
      str2 ← arg kw "str2" ≫= as_str;
      print10XPair str1 str2
  | fn_times10 =>
      x ← arg kw "x" ≫= as_int;
      times10 x
  | fn_barChart =>
      xcol ← arg kw "xcol" ≫= as_str;
      barChart xcol
  | fn_barChartRanges =>
      xcol ← arg kw "xcol" ≫= as_str;
      costRange ← arg kw "costRange" ≫= as_pair;
      barChartRanges xcol costRange
  | fn_irisScatter_plain => irisScatter_plain
  | fn_irisScatter => irisScatter
  | fn_irisBrushScatter => irisBrushScatter
  end.

(** A call is recorded, then the body runs. *)
Definition call (f : Fn) (kw : list (string * pyval)) : M pyval :=
  modify (fun s => set_calls (calls s ++ [(f, kw)]) s) ;;
  apply f kw.

(** [name()] for a global name bound to a function. *)
Definition call_global (name : string) : M pyval :=
  v ← global name;
  match v with
  | PFunction f => call f []
  | _ => raise (TypeError name)
  end.

(** ** The interaction binder *)

(** The value a control currently holds, as the callback receives it. *)
Definition control_value (c : widgets.Control) : pyval :=
  match c with
  | widgets.Text v _ => PStr v
  | widgets.IntSlider v _ _ _ _ => PInt v
  | widgets.IntRangeSlider (a, b) _ _ _ _ => PInts [a; b]
  | widgets.Dropdown _ v _ => PStr v
  end.

(** The current values of all controls, as named arguments. *)
Definition kwargs (cs : list (string * widgets.Control))
  : list (string * pyval) :=
  (fun p => (p.1, control_value p.2)) <$> cs.

(** Modelled from the spec: re-evaluation of a binder, which belongs to
    the widget library and is not part of the notebook's source.
    "Invoke the callback again with the full current set of values and
    replace the displayed result"; "if the callback raises, the error
    propagates to the surrounding interactive session and rendering
    stops; no retry". *)
Definition refresh (a : nat) : M unit :=
  o ← deref a;
  match o with
  | OInteract b =>
      '(v, written) ← capture (call (fn b) (kwargs (controls b)));
      store a (OInteract {| fn := fn b; controls := controls b;
                            shown := written ++ shows v |})
  | _ => raise (TypeError "not a binder")
  end.

(** Modelled from the spec: the widget library's [interact] decorator,
    which is not part of the notebook's source.  "On first bind, render
    all controls and invoke the callback once with initial values,
    displaying its result." *)
Definition interact (cs : list (string * widgets.Control)) (f : Fn)
  : M unit :=
  a ← alloc (OInteract {| fn := f; controls := cs; shown := [] |});
  display (PRef a) ;;
  refresh a.

(** A control takes a new value only inside its declared domain. *)
Definition user_set (c : widgets.Control) (v : pyval)
  : option widgets.Control :=
  c' ← match c, v with
       | widgets.Text _ d, PStr s => Some (widgets.Text s d)
       | widgets.IntSlider _ lo hi st d, PInt z =>
           Some (widgets.IntSlider z lo hi st d)
       | widgets.IntRangeSlider _ lo hi st d, PInts [a; b] =>
           Some (widgets.IntRangeSlider (a, b) lo hi st d)
       | widgets.Dropdown opts _ d, PStr s =>
           Some (widgets.Dropdown opts s d)
       | _, _ => None
       end;
  if widgets.in_domain c' then Some c' else None.

Fixpoint update_control (name : string) (v : pyval)
  (cs : list (string * widgets.Control))
  : option (list (string * widgets.Control)) :=
  match cs with
  | [] => None
  | (n, c) :: rest =>
      if decide (n = name)
      then c' ← user_set c v; Some ((n, c') :: rest)
      else rest' ← update_control name v rest; Some ((n, c) :: rest')
  end.

(** [w.observe(f, names='value')]. *)
Definition observe (w f : pyval) : M unit :=
  match w, f with
  | PRef a, PFunction g =>
      o ← deref a;
      match o with
      | OControl c obs => store a (OControl c (obs ++ [g]))
      | _ => raise (TypeError "observe")
      end
  | _, _ => raise (TypeError "observe")
  end.

(** A user changes the control [control] of the widget at [addr]. *)
Inductive Event := UserInput (addr : nat) (control : string) (v : pyval).

(** Modelled from the spec: delivery of a control change, which belongs
    to the widget library.  "On every subsequent value change of any
    one control, invoke the callback again with the full current set of
    values and replace the displayed result."  A stand-alone control
    notifies its observers of the change of its [value]. *)
Definition handle (ev : Event) : M unit :=
  let '(UserInput a name v) := ev in
  o ← deref a;
  match o with
  | OInteract b =>
      match update_control name v (controls b) with
      | Some cs =>
          store a (OInteract {| fn := fn b; controls := cs;
                                shown := shown b |}) ;;
          refresh a
      | None => raise (TraitError name)
      end
  | OControl c obs =>
      match (if decide (name = "value") then user_set c v else None) with
      | Some c' =>
          store a (OControl c' obs) ;;
          for_ obs (fun f =>
            call f [("change",
                     PChange "value" (control_value c) (control_value c')
                       a "change")] ;;
            mret tt)
      | None => raise (TraitError name)
      end
  | OOutput _ => raise (TypeError "not a control")
  end.

(** ** The cells of the notebook *)

(** A cell of the form [@interact(<controls>) def <name>(...): ...].
    The control descriptors are evaluated first, the decorator is
    applied to the new function, and the name is bound last. *)
Record BinderDecl := {
  decl_name : string;
  decl_fn : Fn;
  decl_controls : M (list (string * widgets.Control))
}.

Definition bind_cell (d : BinderDecl) : M unit :=
  cs ← decl_controls d;
  interact cs (decl_fn d) ;;
  assign (decl_name d) (PFunction (decl_fn d)).

(** Lines 24-31: imports. *)
Definition cell_imports : M unit := mret tt.

(** Lines 37-40: the expression is broken across lines after a binary
    [+] without parentheses or a continuation, so the cell does not
    compile and nothing in it runs. *)
Definition cell_versions : M unit := raise SyntaxError.

(** Line 46. *)
Definition cell_data_transformer : M unit :=
  effect (EnableDataTransformer "vegafusion") ;;
  display (PEnabled "data_transformers" "vegafusion").

(** Line 49. *)
Definition cell_renderer : M unit :=
  effect (EnableRenderer "png") ;;
  display (PEnabled "renderers" "png").

(** Lines 59-67. *)
Definition decl_print10X : BinderDecl :=
  {| decl_name := "print10X"; decl_fn := fn_print10X;
     decl_controls :=
       mret [("str1", widgets.Text "Hello" "Input string 1:")] |}.

Definition cell_print10X : M unit := bind_cell decl_print10X.

(** Lines 75-90. *)
Definition textWidget_control : widgets.Control :=
  widgets.Text "Hello World!" "Input string:".

Definition cell_observer : M unit :=
  w ← alloc (OControl textWidget_control []);
  assign "textWidget" (PRef w) ;;
  o ← alloc (OOutput []);
  assign "output" (PRef o) ;;
  (global "textWidget" ≫= display) ;;
  (global "output" ≫= display) ;;
  assign "print10X" (PFunction fn_print10X_observer) ;;
  tw ← global "textWidget";
  f ← global "print10X";
  observe tw f.

(** Lines 94-106. *)
Definition decl_print10XPair : BinderDecl :=
  {| decl_name := "print10XPair"; decl_fn := fn_print10XPair;
     decl_controls :=
       mret [("str1", widgets.Text "Hello" "Input string 1:");
             ("str2", widgets.Text "World!" "Input string 2:")] |}.

Definition cell_print10XPair : M unit := bind_cell decl_print10XPair.

(** Lines 113-123. *)
Definition decl_times10 : BinderDecl :=
  {| decl_name := "times10"; decl_fn := fn_times10;
     decl_controls := mret [("x", widgets.IntSlider 7 0 10 1 "x:")] |}.

Definition cell_times10 : M unit := bind_cell decl_times10.

(** Lines 135-136. *)
Definition cell_birdstrikes : M unit :=
  df ← fetch "birdstrikes";
  assign "birdStrikesDF" (PDataFrame df) ;;
  global "birdStrikesDF" ≫= display.

Definition title_only (t : string) : alt.Title :=
  {| alt.text := t; alt.subtitle := None |}.

(** Lines 142-145. *)
Definition cell_bar : M unit :=
  df ← global "birdStrikesDF" ≫= as_df;
  display (PChart (
    alt.encode [("x", alt.shorthand "When__Phase_of_flight");
                ("y", alt.shorthand "count()")] (
    alt.mark_bar (alt.Chart (Some df) None)))).

(** Lines 151-159. *)
Definition cell_bar_titled : M unit :=
  df ← global "birdStrikesDF" ≫= as_df;
  display (PChart (
    alt.encode [("x", alt.shorthand "When__Phase_of_flight");
                ("y", alt.shorthand "count()")] (
    alt.mark_bar (
    alt.Chart (Some df) (Some (title_only "Bird Strikes Dataset")))))).

(** [widgets.Dropdown(options=list(birdStrikesDF.columns),
    value='When__Phase_of_flight', description='Column:')]. *)
Definition column_dropdown : M widgets.Control :=
  df ← global "birdStrikesDF" ≫= as_df;
  mret (widgets.Dropdown (pd.columns df) "When__Phase_of_flight" "Column:").

(** Lines 166-180. *)
Definition decl_barChart : BinderDecl :=
  {| decl_name := "barChart"; decl_fn := fn_barChart;
     decl_controls := xcol ← column_dropdown; mret [("xcol", xcol)] |}.

Definition cell_barChart : M unit := bind_cell decl_barChart.

(** Lines 189-194.  [math.floor] and [math.ceil] raise [ValueError]
    on the NaN an empty column gives. *)
Definition floor_thousands (x : pd.scalar) : M Z :=
  quotient ← lift (Py.truediv x 1000);
  lift (math.floor quotient).

Definition ceil_thousands (x : pd.scalar) : M Z :=
  quotient ← lift (Py.truediv x 1000);
  lift (math.ceil quotient).

Definition cell_costRange : M unit :=
  assign "costCol" (PStr "Cost__Total_$") ;;
  lo ← (df ← global "birdStrikesDF" ≫= as_df;
        costCol ← global "costCol" ≫= as_str;
        column ← lift (pd.getitem df costCol);
        least ← lift (pd.min column);
        floor_thousands least);
  hi ← (df ← global "birdStrikesDF" ≫= as_df;
        costCol ← global "costCol" ≫= as_str;
        column ← lift (pd.getitem df costCol);
        greatest ← lift (pd.max column);
        ceil_thousands greatest);
  assign "costRangeInData" (PInts [lo; hi]) ;;
  global "costRangeInData" ≫= display.

(** What lines 190-193 compute from a table: the first exception of
    the four steps of the lower end, then of the upper end, or the
    two ends. *)
Definition thousands (round : np.float64 -> exn + Z)
    (pick : pd.Series -> exn + pd.scalar) (df : pd.DataFrame) (col : string)
  : exn + Z :=
  match pd.getitem df col with
  | inl e => inl e
  | inr column =>
      match pick column with
      | inl e => inl e
      | inr x =>
          match Py.truediv x 1000 with
          | inl e => inl e
          | inr quotient => round quotient
          end
      end
  end.

Definition cost_range (df : pd.DataFrame) (col : string) : exn + Z * Z :=
  match thousands math.floor pd.min df col with
  | inl e => inl e
  | inr lo =>
      match thousands math.ceil pd.max df col with
      | inl e => inl e
      | inr hi => inr (lo, hi)
      end
  end.

(** [widgets.IntRangeSlider(value=costRangeInData,
    min=costRangeInData[0], max=costRangeInData[1], step=1,
    description='Cost range:')]. *)
Definition costRange_slider : M widgets.Control :=
  value ← global "costRangeInData" ≫= as_pair;
  lo ← (l ← global "costRangeInData"; index l 0);
  hi ← (l ← global "costRangeInData"; index l 1);
  mret (widgets.IntRangeSlider value lo hi 1 "Cost range:").

(** Lines 198-227. *)
Definition decl_barChartRanges : BinderDecl :=
  {| decl_name := "barChartRanges"; decl_fn := fn_barChartRanges;
     decl_controls :=
       xcol ← column_dropdown;
       costRange ← costRange_slider;
       mret [("xcol", xcol); ("costRange", costRange)] |}.

Definition cell_barChartRanges : M unit := bind_cell decl_barChartRanges.

(** Lines 236-237. *)
Definition cell_iris : M unit :=
  df ← fetch "iris";
  assign "irisDF" (PDataFrame df) ;;
  global "irisDF" ≫= display.

(** Lines 244-253. *)
Definition cell_irisScatter_plain : M unit :=
  assign "irisScatter" (PFunction fn_irisScatter_plain) ;;
  call_global "irisScatter" ≫= display.

(** Lines 261-272. *)
Definition cell_irisScatter : M unit :=
  assign "irisScatter" (PFunction fn_irisScatter) ;;
  call_global "irisScatter" ≫= display.

(** Lines 279-295. *)
Definition cell_irisBrushScatter : M unit :=
  assign "irisBrushScatter" (PFunction fn_irisBrushScatter) ;;
  call_global "irisBrushScatter" ≫= display.

(** Lines 301-322. *)
Definition cell_layered : M unit :=
  brush ← selection_interval ["x"; "y"];
  assign "brush" (PParam brush) ;;
  let irisChart := alt.Chart None None in
  assign "irisChart" (PChart irisChart) ;;
  let points :=
    alt.add_params [brush] (
    alt.encode [("x", alt.shorthand "sepalLength");
                ("y", alt.shorthand "petalLength");
                ("color", alt.Color "sepalWidth" purples);
                ("size", alt.condition brush 50 1);
                ("tooltip", alt.shorthands iris_tooltip)]
      (alt.mark_point irisChart)) in
  assign "points" (PChart points) ;;
  let meanLine :=
    alt.transform_filter (alt.FilterParam brush) (
    alt.encode [("x", alt.X "median(sepalLength):Q"
                        {| alt.scheme := None; alt.zero := Some false |});
                ("size", alt.SizeValue 3)] (
    alt.mark_rule "black" (1 # 2)%Q (alt.Chart None None))) in
  assign "meanLine" (PChart meanLine) ;;
  df ← global "irisDF" ≫= as_df;
  display (PLayer (alt.layer [points; meanLine] (Some df))).

(** The code cells in notebook order. *)
Definition notebook : list (M unit) :=
  [ cell_imports; cell_versions; cell_data_transformer; cell_renderer;
    cell_print10X; cell_observer; cell_print10XPair; cell_times10;
    cell_birdstrikes; cell_bar; cell_bar_titled; cell_barChart;
    cell_costRange; cell_barChartRanges; cell_iris;
    cell_irisScatter_plain; cell_irisScatter; cell_irisBrushScatter;
    cell_layered ].

(** The binders of the notebook. *)
Definition notebook_binders : list BinderDecl :=
  [ decl_print10X; decl_print10XPair; decl_times10; decl_barChart;
    decl_barChartRanges ].

(** Every control descriptor the notebook constructs, in order. *)
Definition notebook_controls : M (list widgets.Control) :=
  a ← decl_controls decl_print10X;
  b ← decl_controls decl_print10XPair;
  c ← decl_controls decl_times10;
  d ← decl_controls decl_barChart;
  e ← decl_controls decl_barChartRanges;
  mret ((snd <$> a) ++ [textWidget_control] ++ (snd <$> b) ++ (snd <$> c)
        ++ (snd <$> d) ++ (snd <$> e))%list.

(** The kernel runs the cells one after the other in the same session;
    a cell that raises leaves the session as far as it got and the next
    cell is still run. *)
Definition run_cells (cells : list (M unit)) (s : Session) : Session :=
  foldl (fun s c => final (c s)) s cells.




(** A step of the session: the user runs the [n]-th code cell (again,
    and in any order), or changes a control. *)
Inductive Step := RunCell (n : nat) | Input (ev : Event).

Definition step (st : Step) : M unit :=
  match st with
  | RunCell n => default (mret tt) (notebook !! n)
  | Input ev => handle ev
  end.

Definition run_steps (sts : list Step) (s : Session) : Session :=
  foldl (fun s st => final (step st s)) s sts.

(** Library-level settings among the effects, and effects that touch
    the environment or the file system. *)
Definition is_setting (e : Effect) : bool :=
  match e with
  | EnableDataTransformer _ | EnableRenderer _ => true
  | _ => false
  end.

Definition touches_os (e : Effect) : bool :=
  match e with
  | ReadEnviron _ | ReadFile _ | WriteFile _ => true
  | _ => false
  end.

Definition settings (s : Session) : list Effect :=
  filter (fun e => is_setting e = true) (effects s).

(** A session in which nothing has run yet. *)
Definition fresh (cat : gmap string pd.DataFrame) : Session :=
  {| catalog := cat; globals := ∅; heap := []; param_counter := 0%nat;
     calls := []; effects := [] |}.

(** ** Outcomes and frame conditions *)

Abbreviation Returns a s o := {| result := inr a; final := s; output := o |}.
Abbreviation Raises e s o := {| result := inl e; final := s; output := o |}.

(** [m] keeps the invariant [I] of the session, whether it returns or
    raises. *)
Definition stable (I : Session -> Prop) {A} (m : M A) : Prop :=
  forall s, I s -> I (final (m s)).

(** [m] leaves the component [P] of the session as it found it. *)
Definition preserves {X} (P : Session -> X) {A} (m : M A) : Prop :=
  forall s, P (final (m s)) = P s.

(** The predicate [barChartRanges] passes to [transform_filter] once
    [costCol] is bound as in line 189. *)
Definition cost_filter (lo hi : Z) : alt.Transform :=
  alt.FilterExpr
    (alt.BinaryExpression alt.OpAnd
       (alt.BinaryExpression alt.OpGe
          (alt.GetItem "Cost__Total_$") (alt.Const (lo * 1000)))
       (alt.BinaryExpression alt.OpLe
          (alt.GetItem "Cost__Total_$") (alt.Const (hi * 1000)))).

(** ** A small sample catalog *)

Module Sample.

Definition strike (phase : string) (cost : Z) : gmap string pd.cell :=
  <["When__Phase_of_flight" := pd.CStr phase]>
    (<["Cost__Total_$" := pd.CInt cost]> ∅).

Definition birdstrikes : pd.DataFrame :=
  {| pd.columns := ["When__Phase_of_flight"; "Cost__Total_$"];
     pd.records :=
       [strike "Climb" 0; strike "Approach" 2500; strike "Climb" 12001] |}.

(** One iris row; 5.1 is 0x4014666666666666 in binary64. *)
Definition iris : pd.DataFrame :=
  {| pd.columns := ["sepalLength"];
     pd.records := [ {[ "sepalLength" := pd.CFloat 4617428107952285286 ]} ] |}.

Definition catalog : gmap string pd.DataFrame :=
  <["birdstrikes" := birdstrikes]> (<["iris" := iris]> ∅).

(** The session after every cell of the notebook has run once. *)
Definition session : Session := run_cells notebook (fresh catalog).

(** The same session after the global name [costCol] is deleted, so
    that [barChartRanges] raises [NameError]. *)
Definition no_cost_column : Session :=
  set_globals (delete "costCol" (globals session)) session.



(** A table whose costs are the binary64 numbers 0.5 and 2500.0. *)
Definition float_costs : pd.DataFrame :=
  {| pd.columns := ["When__Phase_of_flight"; "Cost__Total_$"];
     pd.records :=
       [ <["When__Phase_of_flight" := pd.CStr "Climb"]>
           (<["Cost__Total_$" := pd.CFloat 4602678819172646912]> ∅);
         <["When__Phase_of_flight" := pd.CStr "Approach"]>
           (<["Cost__Total_$" := pd.CFloat 4657715973212602368]> ∅) ] |}.

Definition only_table (df : pd.DataFrame) : Session :=
  set_globals (<["birdStrikesDF" := PDataFrame df]> ∅) (fresh catalog).

(** The controls of the cost-range binder holding the range
    [(lo, hi)]. *)
Definition range_controls (lo hi : Z) : list (string * widgets.Control) :=
  [("xcol", widgets.Dropdown (pd.columns birdstrikes)
              "When__Phase_of_flight" "Column:");
   ("costRange", widgets.IntRangeSlider (lo, hi) 0 13 1 "Cost range:")].

(** The cost-range binder as the notebook left it, at address 6. *)
Definition range_binder : Binder :=
  match heap session !! 6%nat with
  | Some (OInteract b) => b
  | _ => {| fn := fn_barChartRanges; controls := []; shown := [] |}
  end.

End Sample.

(** * Properties *)

(** ** How cells run *)

Lemma bind_run {A B} (m : M A) (k : A -> M B) (s : Session) :
  (m ≫= k) s =
  match m s with
  | Raises e s1 o1 => Raises e s1 o1
  | Returns a s1 o1 =>
      {| result := result (k a s1); final := final (k a s1);
         output := o1 ++ output (k a s1) |}
  end.
Proof.
  unfold mbind, M_bind. destruct (m s) as [[e | a] s1 o1]; reflexivity.
Qed.

Lemma bind_returns {A B} (m : M A) (k : A -> M B) s a s1 o1 b s2 o2 :
  m s = Returns a s1 o1 ->
  k a s1 = Returns b s2 o2 ->
  (m ≫= k) s = Returns b s2 (o1 ++ o2).
Proof. intros Hm Hk. rewrite bind_run, Hm, Hk. reflexivity. Qed.

Lemma bind_raises_l {A B} (m : M A) (k : A -> M B) s e s1 o1 :
  m s = Raises e s1 o1 ->
  (m ≫= k) s = Raises e s1 o1.
Proof. intros Hm. rewrite bind_run, Hm. reflexivity. Qed.

Lemma bind_raises_r {A B} (m : M A) (k : A -> M B) s a s1 o1 e s2 o2 :
  m s = Returns a s1 o1 ->
  k a s1 = Raises e s2 o2 ->
  (m ≫= k) s = Raises e s2 (o1 ++ o2).
Proof. intros Hm Hk. rewrite bind_run, Hm, Hk. reflexivity. Qed.

Lemma append_assoc (a b c : string) : (a +:+ b) +:+ c = a +:+ b +:+ c.
Proof.
  induction a as [|x a IH]; [reflexivity |].
  change (String x ((a +:+ b) +:+ c) = String x (a +:+ b +:+ c)).
  by rewrite IH.
Qed.

(** A loop whose body only prints writes one line per element and
    leaves the session alone. *)
Lemma for_print {A} (f : A -> pyval) (xs : list A) (s : Session) :
  for_ xs (fun i => print (f i)) s
  = Returns tt s ((fun i => Printed (f i)) <$> xs).
Proof.
  induction xs as [|x xs IH]; [reflexivity |].
  cbn [for_]. by erewrite bind_returns by (reflexivity || exact IH).
Qed.

Lemma print10X_run (str1 : string) (s : Session) :
  print10X str1 s
  = Returns PNone s
      ((fun i => Printed (PStr (Py.join " " [str1; Py.str i])))
         <$> Py.range 10).
Proof.
  unfold print10X.
  erewrite bind_returns by (apply for_print || reflexivity).
  by rewrite app_nil_r.
Qed.

Lemma print10XPair_run (str1 str2 : string) (s : Session) :
  print10XPair str1 str2 s
  = Returns PNone s
      ((fun i => Printed (PStr (Py.join " " [str1; str2; Py.str i])))
         <$> Py.range 10).
Proof.
  unfold print10XPair.
  erewrite bind_returns by (apply for_print || reflexivity).
  by rewrite app_nil_r.
Qed.

Lemma join_pair (a b c : string) :
  Py.join " " [a +:+ " " +:+ b; c] = Py.join " " [a; b; c].
Proof. cbn [Py.join]. by rewrite !append_assoc. Qed.

(** C10.  For all strings [str1] and [str2], [print10XPair(str1, str2)]
    behaves exactly as [print10X] applied to the one string
    [str1 + " " + str2]: both print the same ten lines, line [i] (for
    [i] from 0 to 9) being the inputs and the decimal rendering of [i]
    separated by single spaces; both return [None] and leave the
    session unchanged. *)
Theorem print10XPair_is_print10X_of_joined (str1 str2 : string) (s : Session) :
  print10XPair str1 str2 s = print10X (str1 +:+ " " +:+ str2) s
  /\ output (print10XPair str1 str2 s)
     = (fun i => Printed (PStr (str1 +:+ " " +:+ str2 +:+ " " +:+ Py.str i)))
         <$> [0; 1; 2; 3; 4; 5; 6; 7; 8; 9]
  /\ length (output (print10XPair str1 str2 s)) = 10%nat
  /\ Py.str <$> [0; 1; 2; 3; 4; 5; 6; 7; 8; 9]
     = ["0"; "1"; "2"; "3"; "4"; "5"; "6"; "7"; "8"; "9"].
Proof.
  rewrite print10XPair_run, print10X_run. repeat split.
  f_equal. apply list_fmap_ext. intros _ i _. by rewrite join_pair.
Qed.

Lemma returns_eq {A} (r : Run A) a s o a' s' o' :
  r = Returns a' s' o' -> a' = a -> s' = s -> o' = o ->
  r = Returns a s o.
Proof. congruence. Qed.

Lemma raises_eq {A} (r : Run A) e s o e' s' o' :
  r = Raises e' s' o' -> e' = e -> s' = s -> o' = o ->
  r = Raises e s o.
Proof. congruence. Qed.

Lemma global_returns (name : string) (v : pyval) (s : Session) :
  globals s !! name = Some v -> global name s = Returns v s [].
Proof.
  intros H. unfold global.
  erewrite bind_returns by (reflexivity || (rewrite H; reflexivity)).
  reflexivity.
Qed.

Lemma global_raises (name : string) (s : Session) :
  globals s !! name = None ->
  global name s = Raises (NameError name) s [].
Proof.
  intros H. unfold global.
  erewrite bind_raises_r by (reflexivity || (rewrite H; reflexivity)).
  reflexivity.
Qed.

Lemma deref_returns (a : nat) (o : Obj) (s : Session) :
  heap s !! a = Some o -> deref a s = Returns o s [].
Proof.
  intros H. unfold deref.
  erewrite bind_returns by (reflexivity || (rewrite H; reflexivity)).
  reflexivity.
Qed.

Lemma fetch_returns (name : string) (df : pd.DataFrame) (s : Session) :
  catalog s !! name = Some df ->
  fetch name s
  = Returns df (set_effects (effects s ++ [FetchDataset name]) s) [].
Proof.
  intros H. unfold fetch.
  eapply returns_eq;
    [ eapply bind_returns; [reflexivity |];
      eapply bind_returns; [reflexivity |];
      cbn [catalog set_effects]; rewrite H; reflexivity
    | reflexivity .. ].
Qed.

Lemma fetch_raises (name : string) (s : Session) :
  catalog s !! name = None ->
  fetch name s
  = Raises (ValueError name)
      (set_effects (effects s ++ [FetchDataset name]) s) [].
Proof.
  intros H. unfold fetch.
  eapply raises_eq;
    [ eapply bind_raises_r; [reflexivity |];
      eapply bind_raises_r; [reflexivity |];
      cbn [catalog set_effects]; rewrite H; reflexivity
    | reflexivity .. ].
Qed.

Create HintDb run discriminated.
#[global] Hint Resolve global_returns deref_returns fetch_returns : run.

(** Symbolic execution of a cell: [run] decides goals of the shape
    [m s = Returns _ _ _] and [m s = Raises _ _ _] along the binds of
    [m], looking names up among the hypotheses. *)
Ltac lookup :=
  cbn [globals heap catalog set_globals set_heap set_calls set_effects
       set_param_counter];
  repeat (rewrite lookup_insert_ne by discriminate);
  first [ eassumption | apply lookup_insert_eq | reflexivity ].

Ltac run :=
  cbn beta;
  lazymatch goal with
  | |- mbind _ _ _ = Returns _ _ _ => eapply bind_returns; [run | run]
  | |- mbind _ _ _ = Raises _ _ _ =>
      first [ eapply bind_raises_l; run
            | eapply bind_raises_r; [run | run] ]
  | |- global _ _ = Returns _ _ _ => apply global_returns; lookup
  | |- global _ _ = Raises _ _ _ => apply global_raises; lookup
  | |- deref _ _ = Returns _ _ _ => apply deref_returns; lookup
  | |- fetch _ _ = Returns _ _ _ => apply fetch_returns; lookup
  | |- fetch _ _ = Raises _ _ _ => apply fetch_raises; lookup
  | |- lift _ _ = _ =>
      match goal with H : ?x = _ |- context [?x] => rewrite H end;
      reflexivity
  | |- _ => first [ reflexivity | solve [eauto with run] ]
  end.

Ltac runs := eapply returns_eq; [run | try reflexivity ..].

(** ** The bar chart callbacks *)

Lemma barChart_run (xcol : string) (df : pd.DataFrame) (s : Session) :
  globals s !! "birdStrikesDF" = Some (PDataFrame df) ->
  barChart xcol s
  = Returns
      (PChart (
         alt.encode [("x", alt.shorthand xcol);
                     ("y", alt.shorthand "count()")] (
         alt.mark_bar (
         alt.Chart (Some df) (Some (title_only "Bird Strikes Dataset"))))))
      s [].
Proof. intros H. unfold barChart. runs. Qed.

(** C1.  For every column name [xcol] of the birdstrikes table,
    [barChart(xcol)] returns a bar chart over that table whose x
    channel is [xcol] and whose y channel is the aggregate [count()];
    it prints nothing and leaves the session unchanged. *)
Theorem barChart_x_is_selected_column
    (s : Session) (df : pd.DataFrame) (xcol : string) :
  globals s !! "birdStrikesDF" = Some (PDataFrame df) ->
  xcol ∈ pd.columns df ->
  exists c : alt.ChartSpec,
    barChart xcol s = Returns (PChart c) s []
    /\ alt.mark c = Some alt.bar
    /\ alt.data c = Some df
    /\ alt.encoding c !! "x" = Some (alt.shorthand xcol)
    /\ alt.encoding c !! "y" = Some (alt.shorthand "count()")
    /\ dom (alt.encoding c) = {["x"; "y"]}.
Proof.
  intros Hdf _. eexists. split; [by apply barChart_run |].
  repeat split.
Qed.

Lemma barChart_x_is_selected_column_witness :
  exists c : alt.ChartSpec,
    barChart "Cost__Total_$" Sample.session
    = Returns (PChart c) Sample.session []
    /\ alt.mark c = Some alt.bar
    /\ alt.data c = Some Sample.birdstrikes
    /\ alt.encoding c !! "x" = Some (alt.shorthand "Cost__Total_$")
    /\ alt.encoding c !! "y" = Some (alt.shorthand "count()")
    /\ dom (alt.encoding c) = {["x"; "y"]}.
Proof.
  apply (barChart_x_is_selected_column Sample.session Sample.birdstrikes).
  - vm_compute. reflexivity.
  - apply (bool_decide_unpack _). vm_compute. reflexivity.
Defined.

Lemma barChartRanges_run
    (xcol : string) (lo hi : Z) (df : pd.DataFrame) (s : Session) :
  globals s !! "birdStrikesDF" = Some (PDataFrame df) ->
  globals s !! "costCol" = Some (PStr "Cost__Total_$") ->
  barChartRanges xcol (lo, hi) s
  = Returns
      (PChart (
         alt.encode [("x", alt.shorthand xcol);
                     ("y", alt.shorthand "count()")] (
         alt.mark_bar (
         alt.transform_filter (cost_filter lo hi) (
         alt.Chart (Some df)
           (Some {| alt.text := "Bird Strikes Dataset";
                    alt.subtitle :=
                      Some ("With costs $" +:+ Py.str lo +:+ "–" +:+
                            Py.str hi +:+ "k") |}))))))
      s [].
Proof. intros Hdf Hcol. unfold barChartRanges. runs. Qed.

(** The cost filter on a row whose cost is an integer. *)
Lemma cost_filter_keeps
    (sel : alt.Selections) (lo hi cost : Z) (r : gmap string pd.cell) :
  r !! "Cost__Total_$" = Some (pd.CInt cost) ->
  alt.keeps sel (cost_filter lo hi) r = true
  <-> lo * 1000 <= cost /\ cost <= hi * 1000.
Proof.
  intros Hr. unfold cost_filter, alt.keeps. cbn [alt.eval]. rewrite Hr.
  cbn. destruct (bool_decide (cost >= lo * 1000)) eqn:Hlo;
    destruct (bool_decide (cost <= hi * 1000)) eqn:Hhi; cbn;
    try apply bool_decide_eq_true_1 in Hlo;
    try apply bool_decide_eq_false_1 in Hlo;
    try apply bool_decide_eq_true_1 in Hhi;
    try apply bool_decide_eq_false_1 in Hhi;
    split; try discriminate; try lia; done.
Qed.

(** C2.  For every pair of integers [(lo, hi)] and every column
    [xcol], [barChartRanges(xcol, (lo, hi))] returns a bar chart of
    [xcol] with one filter transform; the rows that reach the marks are
    the rows of the table that pass it, in their order, and a row whose
    ['Cost__Total_$'] is the integer [cost] passes it exactly when
    [lo * 1000 <= cost] and [cost <= hi * 1000], both bounds included. *)
Theorem barChartRanges_filters_cost_range
    (s : Session) (df : pd.DataFrame) (xcol : string) (lo hi : Z) :
  globals s !! "birdStrikesDF" = Some (PDataFrame df) ->
  globals s !! "costCol" = Some (PStr "Cost__Total_$") ->
  exists (c : alt.ChartSpec) (t : alt.Transform),
    barChartRanges xcol (lo, hi) s = Returns (PChart c) s []
    /\ alt.data c = Some df
    /\ alt.mark c = Some alt.bar
    /\ alt.encoding c !! "x" = Some (alt.shorthand xcol)
    /\ alt.encoding c !! "y" = Some (alt.shorthand "count()")
    /\ alt.transform c = [t]
    /\ (forall sel,
          alt.rows sel c
          = filter (fun r => alt.keeps sel t r = true) (pd.records df))
    /\ (forall sel r cost,
          r !! "Cost__Total_$" = Some (pd.CInt cost) ->
          alt.keeps sel t r = true
          <-> lo * 1000 <= cost /\ cost <= hi * 1000).
Proof.
  intros Hdf Hcol. eexists; exists (cost_filter lo hi).
  split; [by apply barChartRanges_run |].
  split_and!; try done. intros sel r cost. apply cost_filter_keeps.
Qed.

Lemma barChartRanges_filters_cost_range_witness :
  exists (c : alt.ChartSpec) (t : alt.Transform),
    barChartRanges "When__Phase_of_flight" (1, 3) Sample.session
    = Returns (PChart c) Sample.session []
    /\ alt.data c = Some Sample.birdstrikes
    /\ alt.mark c = Some alt.bar
    /\ alt.encoding c !! "x" = Some (alt.shorthand "When__Phase_of_flight")
    /\ alt.encoding c !! "y" = Some (alt.shorthand "count()")
    /\ alt.transform c = [t]
    /\ (forall sel,
          alt.rows sel c
          = filter (fun r => alt.keeps sel t r = true)
              (pd.records Sample.birdstrikes))
    /\ (forall sel r cost,
          r !! "Cost__Total_$" = Some (pd.CInt cost) ->
          alt.keeps sel t r = true
          <-> 1 * 1000 <= cost /\ cost <= 3 * 1000).
Proof.
  apply (barChartRanges_filters_cost_range Sample.session Sample.birdstrikes);
    vm_compute; reflexivity.
Defined.

(** ** The cost range computed from the data *)

(** *** Binary64 arithmetic *)

Lemma round_half_even_cases (a d : Z) :
  0 < d ->
  (np.round_half_even a d = a / d /\ 2 * (a mod d) <= d)
  \/ (np.round_half_even a d = a / d + 1 /\ d <= 2 * (a mod d)).
Proof.
  intros Hd. unfold np.round_half_even.
  destruct (Z.ltb_spec (2 * (a mod d)) d); [left; lia |].
  destruct (Z.ltb_spec d (2 * (a mod d))); [right; lia |].
  destruct (Z.even (a / d)); [left | right]; lia.
Qed.

(** Rounding moves a quotient by at most one half. *)
Lemma round_half_even_error (a d : Z) :
  0 < d -> 2 * Z.abs (np.round_half_even a d * d - a) <= d.
Proof.
  intros Hd. pose proof (Z.div_mod a d ltac:(lia)) as Ha.
  pose proof (Z.mod_pos_bound a d Hd) as Hr.
  destruct (round_half_even_cases a d Hd) as [[-> H] | [-> H]]; lia.
Qed.

Lemma round_half_even_exact (d x : Z) :
  0 < d -> np.round_half_even (d * x) d = x.
Proof.
  intros Hd. unfold np.round_half_even.
  rewrite (Z.mul_comm d x), Z.div_mul, Z.mod_mul by lia.
  destruct (Z.ltb_spec (2 * 0) d); [reflexivity | lia].
Qed.

Lemma round_half_even_mono (a b d : Z) :
  0 < d -> a <= b -> np.round_half_even a d <= np.round_half_even b d.
Proof.
  intros Hd Hab.
  pose proof (Z.div_le_mono a b d Hd Hab) as Hq.
  destruct (Z.eq_dec (a / d) (b / d)) as [Heq | Hne].
  - pose proof (Z.div_mod a d ltac:(lia)) as Ha.
    pose proof (Z.div_mod b d ltac:(lia)) as Hb.
    assert (Hr : a mod d <= b mod d) by (rewrite Heq in Ha; lia).
    unfold np.round_half_even. rewrite Heq.
    destruct (Z.ltb_spec (2 * (a mod d)) d);
      destruct (Z.ltb_spec (2 * (b mod d)) d); try lia;
      destruct (Z.ltb_spec d (2 * (a mod d)));
      destruct (Z.ltb_spec d (2 * (b mod d))); try lia;
      destruct (Z.even (b / d)); lia.
  - destruct (round_half_even_cases a d Hd) as [[-> _] | [-> _]];
      destruct (round_half_even_cases b d Hd) as [[-> _] | [-> _]]; lia.
Qed.

Lemma round_half_even_bounds (a d : Z) :
  0 < d -> a / d <= np.round_half_even a d <= a / d + 1.
Proof.
  intros Hd.
  destruct (round_half_even_cases a d Hd) as [[-> _] | [-> _]]; lia.
Qed.

Lemma nearest_unfold (num den : Z) :
  np.nearest num den
  = np.round_half_even num (den * 2 ^ np.shift num den) * 2 ^ np.shift num den.
Proof. reflexivity. Qed.

Lemma shift_nonneg (num den : Z) : 0 <= np.shift num den.
Proof. unfold np.shift. lia. Qed.

Lemma shift_mono (a b den : Z) :
  0 < den -> 0 <= a <= b -> np.shift a den <= np.shift b den.
Proof.
  intros Hden Hab. unfold np.shift.
  pose proof (Z.div_le_mono a b den Hden ltac:(lia)).
  pose proof (Z.log2_le_mono (a / den) (b / den) ltac:(lia)). lia.
Qed.

(** The quotient lies in the binade the shift was chosen for. *)
Lemma shift_spec (num den : Z) :
  0 < den -> 0 <= num ->
  num / den < 2 ^ (53 + np.shift num den)
  /\ (0 < np.shift num den -> 2 ^ (52 + np.shift num den) <= num / den).
Proof.
  intros Hden Hnum. unfold np.shift.
  pose proof (Z.div_pos num den Hnum Hden) as Hq.
  destruct (Z.eq_dec (num / den) 0) as [-> | Hne].
  - cbn [Z.log2]. split; [| lia].
    replace (Z.max (0 - 52) 0) with 0 by lia. reflexivity.
  - pose proof (Z.log2_spec (num / den) ltac:(lia)) as [Hlo Hhi].
    pose proof (Z.log2_nonneg (num / den)).
    split.
    + eapply Z.lt_le_trans; [exact Hhi |].
      apply Z.pow_le_mono_r; lia.
    + intros Hpos.
      replace (52 + Z.max (Z.log2 (num / den) - 52) 0)
        with (Z.log2 (num / den)) by lia.
      exact Hlo.
Qed.

Lemma div_div_pow (num den j : Z) :
  0 < den -> 0 <= j -> num / (den * 2 ^ j) = num / den / 2 ^ j.
Proof.
  intros Hden Hj. rewrite Z.div_div; [reflexivity | lia |].
  apply Z.pow_pos_nonneg; lia.
Qed.

(** The rounded mantissa has at most 53 bits, and 53 bits exactly when
    the shift is positive. *)
Lemma mantissa_bounds (num den : Z) :
  0 < den -> 0 <= num ->
  let j := np.shift num den in
  let m := np.round_half_even num (den * 2 ^ j) in
  0 <= m <= 2 ^ 53 /\ (0 < j -> 2 ^ 52 <= m).
Proof.
  intros Hden Hnum j m.
  pose proof (shift_nonneg num den) as Hj. fold j in Hj.
  pose proof (shift_spec num den Hden Hnum) as [Hhi Hlo]. fold j in Hhi, Hlo.
  assert (Hp : 0 < 2 ^ j) by (apply Z.pow_pos_nonneg; lia).
  assert (Hd : 0 < den * 2 ^ j) by lia.
  pose proof (round_half_even_bounds num (den * 2 ^ j) Hd) as Hm. fold m in Hm.
  rewrite (div_div_pow num den j Hden Hj) in Hm.
  pose proof (Z.div_pos num den Hnum Hden) as Hq.
  rewrite Z.pow_add_r in Hhi by lia.
  split; [split |].
  - pose proof (Z.div_pos (num / den) (2 ^ j) Hq Hp). lia.
  - assert (num / den / 2 ^ j < 2 ^ 53).
    { apply Z.div_lt_upper_bound; lia. }
    lia.
  - intros Hpos. specialize (Hlo Hpos). rewrite Z.pow_add_r in Hlo by lia.
    assert (2 ^ 52 <= num / den / 2 ^ j).
    { apply Z.div_le_lower_bound; lia. }
    lia.
Qed.

Lemma nearest_nonneg (num den : Z) :
  0 < den -> 0 <= num -> 0 <= np.nearest num den.
Proof.
  intros Hden Hnum. rewrite nearest_unfold.
  pose proof (mantissa_bounds num den Hden Hnum) as [[H _] _].
  pose proof (shift_nonneg num den).
  assert (0 < 2 ^ np.shift num den) by (apply Z.pow_pos_nonneg; lia).
  nia.
Qed.

(** Rounding to 53 bits is monotone. *)
Lemma nearest_mono (a b den : Z) :
  0 < den -> 0 <= a <= b -> np.nearest a den <= np.nearest b den.
Proof.
  intros Hden Hab. rewrite !nearest_unfold.
  pose proof (shift_mono a b den Hden Hab) as Hj.
  pose proof (shift_nonneg a den) as Hja.
  pose proof (mantissa_bounds a den Hden ltac:(lia)) as [[_ Hma] _].
  pose proof (mantissa_bounds b den Hden ltac:(lia)) as [_ Hmb].
  cbv zeta in Hma, Hmb.
  destruct (Z.eq_dec (np.shift a den) (np.shift b den)) as [Heq | Hne].
  - rewrite Heq.
    assert (0 < 2 ^ np.shift b den) by (apply Z.pow_pos_nonneg; lia).
    apply Z.mul_le_mono_nonneg_r; [lia |].
    apply round_half_even_mono; lia.
  - specialize (Hmb ltac:(lia)).
    assert (Hpow : 2 ^ np.shift b den = 2 ^ np.shift a den * 2 ^ (np.shift b den - np.shift a den)).
    { rewrite <- Z.pow_add_r by lia. f_equal. lia. }
    assert (H2 : 2 <= 2 ^ (np.shift b den - np.shift a den)).
    { change 2 with (2 ^ 1) at 1. apply Z.pow_le_mono_r; lia. }
    assert (0 < 2 ^ np.shift a den) by (apply Z.pow_pos_nonneg; lia).
    rewrite Hpow in Hmb |- *.
    set (P := 2 ^ np.shift a den) in *. set (Q := 2 ^ (np.shift b den - np.shift a den)) in *.
    set (ma := np.round_half_even a (den * P)) in *.
    set (mb := np.round_half_even b (den * (P * Q))) in *.
    change (2 ^ 53) with (2 * 2 ^ 52) in Hma.
    set (T := 2 ^ 52) in *. assert (0 < T) by (subst T; lia).
    clearbody P Q ma mb T.
    assert (ma * P <= 2 * T * P) by nia.
    assert (T * P * 2 <= mb * P * 2) by nia.
    assert (0 <= mb * P) by (apply Z.mul_nonneg_nonneg; lia).
    assert (mb * P * 2 <= mb * P * Q)
      by (apply Z.mul_le_mono_nonneg_l; lia).
    lia.
Qed.

(** The error of rounding to 53 bits is at most half a unit in the
    last place. *)
Lemma nearest_error (num den : Z) :
  0 < den -> 0 <= num ->
  2 * Z.abs (np.nearest num den * den - num) <= den * 2 ^ np.shift num den.
Proof.
  intros Hden Hnum. rewrite nearest_unfold.
  pose proof (shift_nonneg num den).
  assert (0 < 2 ^ np.shift num den) by (apply Z.pow_pos_nonneg; lia).
  pose proof (round_half_even_error num (den * 2 ^ np.shift num den) ltac:(lia)).
  lia.
Qed.

Lemma nearest_exact (den x j : Z) :
  0 < den -> j = np.shift (den * (x * 2 ^ j)) den ->
  np.nearest (den * (x * 2 ^ j)) den = x * 2 ^ j.
Proof.
  intros Hden Hj. rewrite nearest_unfold, <- Hj.
  pose proof (shift_nonneg (den * (x * 2 ^ j)) den). rewrite <- Hj in *.
  assert (0 < 2 ^ j) by (apply Z.pow_pos_nonneg; lia).
  replace (den * (x * 2 ^ j)) with (den * 2 ^ j * x) by lia.
  by rewrite round_half_even_exact by lia.
Qed.

(** *** Order *)

Lemma leb_refl (x : np.float64) : np.isnan x = false -> np.leb x x = true.
Proof. destruct x as [|[]|n]; cbn; try done. intros _. lia. Qed.

Lemma leb_trans (x y z : np.float64) :
  np.leb x y = true -> np.leb y z = true -> np.leb x z = true.
Proof.
  destruct x as [|[]|a], y as [|[]|b], z as [|[]|c]; cbn; try done.
  rewrite !Z.leb_le. lia.
Qed.

Lemma leb_total (x y : np.float64) :
  np.isnan x = false -> np.isnan y = false ->
  np.leb x y = true \/ np.leb y x = true.
Proof.
  destruct x as [|[]|a], y as [|[]|b]; cbn; try done; auto.
  intros _ _. rewrite !Z.leb_le. lia.
Qed.

Lemma leb_not_nan (x y : np.float64) :
  np.leb x y = true -> np.isnan x = false /\ np.isnan y = false.
Proof. by destruct x as [|[]|a], y as [|[]|b]. Qed.

Lemma minimum_not_nan (x y : np.float64) :
  np.isnan x = false -> np.isnan y = false ->
  np.isnan (np.minimum x y) = false.
Proof. intros. unfold np.minimum. by destruct (np.leb x y). Qed.

Lemma maximum_not_nan (x y : np.float64) :
  np.isnan x = false -> np.isnan y = false ->
  np.isnan (np.maximum x y) = false.
Proof. intros. unfold np.maximum. by destruct (np.leb x y). Qed.

(** The least of a list of numbers is below the greatest. *)
Lemma minimum_le_maximum (y : np.float64) (ys : list np.float64) :
  Forall (fun x => np.isnan x = false) (y :: ys) ->
  np.leb (foldr np.minimum y ys) (foldr np.maximum y ys) = true.
Proof.
  intros H. apply Forall_cons in H as [Hy Hys].
  assert (np.isnan (foldr np.minimum y ys) = false
          /\ np.isnan (foldr np.maximum y ys) = false
          /\ np.leb (foldr np.minimum y ys) (foldr np.maximum y ys) = true)
    as (_ & _ & ?); [| done].
  induction Hys as [|x xs Hx _ IH]; cbn [foldr].
  - by rewrite leb_refl.
  - destruct IH as (Hmin & Hmax & Hle).
    split; [by apply minimum_not_nan |].
    split; [by apply maximum_not_nan |].
    set (lo := foldr np.minimum y xs) in *.
    set (hi := foldr np.maximum y xs) in *.
    unfold np.minimum at 1, np.maximum at 1.
    destruct (np.leb x lo) eqn:H1; destruct (np.leb x hi) eqn:H2; try done.
    + by apply leb_refl.
    + destruct (leb_total x lo) as [? | ?]; [done | done | congruence | done].
Qed.

Lemma signed_not_nan (s : bool) (n : Z) : np.isnan (np.signed s n) = false.
Proof. unfold np.signed. by destruct (np.huge <=? n). Qed.

Lemma signed_mono (n n' : Z) :
  0 <= n <= n' ->
  np.leb (np.signed false n) (np.signed false n') = true
  /\ np.leb (np.signed true n') (np.signed true n) = true
  /\ np.leb (np.signed true n) (np.signed false n') = true
  /\ np.leb (np.signed true n') (np.signed false n) = true.
Proof.
  intros H. unfold np.signed.
  destruct (Z.leb_spec np.huge n); destruct (Z.leb_spec np.huge n');
    cbn; rewrite ?Z.leb_le; repeat split; lia.
Qed.

Lemma of_int_mono (a b : Z) :
  a <= b -> np.leb (np.of_int a) (np.of_int b) = true.
Proof.
  intros Hab. unfold np.of_int.
  assert (Hone : 0 < np.one) by (unfold np.one; apply Z.pow_pos_nonneg; lia).
  pose proof (nearest_nonneg (Z.abs a * np.one) 1 ltac:(lia) ltac:(nia)) as Ha.
  pose proof (nearest_nonneg (Z.abs b * np.one) 1 ltac:(lia) ltac:(nia)) as Hb.
  destruct (Z.ltb_spec a 0); destruct (Z.ltb_spec b 0); try lia.
  - assert (H1 : np.nearest (Z.abs b * np.one) 1
                 <= np.nearest (Z.abs a * np.one) 1)
      by (apply nearest_mono; nia).
    by destruct (signed_mono _ _ (conj Hb H1)) as (? & ? & ? & ?).
  - destruct (Z.le_ge_cases (np.nearest (Z.abs a * np.one) 1)
                (np.nearest (Z.abs b * np.one) 1)) as [H1 | H1].
    + by destruct (signed_mono _ _ (conj Ha H1)) as (? & ? & ? & ?).
    + by destruct (signed_mono _ _ (conj Hb H1)) as (? & ? & ? & ?).
  - assert (H1 : np.nearest (Z.abs a * np.one) 1
                 <= np.nearest (Z.abs b * np.one) 1)
      by (apply nearest_mono; nia).
    by destruct (signed_mono _ _ (conj Ha H1)) as (? & ? & ? & ?).
Qed.

(** Division by a positive number is monotone. *)
Lemma div_mono (x y : np.float64) (d : Z) :
  0 < d ->
  np.leb x y = true ->
  np.leb (np.div x (np.Fin d)) (np.div y (np.Fin d)) = true.
Proof.
  intros Hd Hxy.
  assert (Hone : 0 < np.one) by (unfold np.one; apply Z.pow_pos_nonneg; lia).
  assert (Hd0 : (d =? 0) = false) by (apply Z.eqb_neq; lia).
  assert (Hdn : (d <? 0) = false) by (apply Z.ltb_ge; lia).
  destruct x as [|[]|a], y as [|[]|b]; cbn in Hxy; try done;
    cbn [np.div]; rewrite ?Hd0, ?Hdn, ?xorb_false_r; cbn [np.leb xorb];
    try done.
  - by destruct (np.signed _ _) eqn:E;
      [pose proof (signed_not_nan (b <? 0) (np.nearest (Z.abs b * np.one) (Z.abs d)));
       rewrite E in *| |].
  - pose proof (signed_not_nan (a <? 0) (np.nearest (Z.abs a * np.one) (Z.abs d))) as E.
    by destruct (np.signed _ _) as [|[]|].
  - apply Z.leb_le in Hxy.
    pose proof (nearest_nonneg (Z.abs a * np.one) (Z.abs d)
                  ltac:(lia) ltac:(nia)) as Ha.
    pose proof (nearest_nonneg (Z.abs b * np.one) (Z.abs d)
                  ltac:(lia) ltac:(nia)) as Hb.
    destruct (Z.ltb_spec a 0); destruct (Z.ltb_spec b 0); try lia.
    + assert (H1 : np.nearest (Z.abs b * np.one) (Z.abs d)
                   <= np.nearest (Z.abs a * np.one) (Z.abs d))
        by (apply nearest_mono; nia).
      by destruct (signed_mono _ _ (conj Hb H1)) as (? & ? & ? & ?).
    + destruct (Z.le_ge_cases (np.nearest (Z.abs a * np.one) (Z.abs d))
                  (np.nearest (Z.abs b * np.one) (Z.abs d))) as [H1 | H1].
      * by destruct (signed_mono _ _ (conj Ha H1)) as (? & ? & ? & ?).
      * by destruct (signed_mono _ _ (conj Hb H1)) as (? & ? & ? & ?).
    + assert (H1 : np.nearest (Z.abs a * np.one) (Z.abs d)
                   <= np.nearest (Z.abs b * np.one) (Z.abs d))
        by (apply nearest_mono; nia).
      by destruct (signed_mono _ _ (conj Ha H1)) as (? & ? & ? & ?).
Qed.

(** *** Small integers *)

Lemma one_pos : 0 < np.one.
Proof. unfold np.one. apply Z.pow_pos_nonneg; lia. Qed.

Lemma huge_one : np.huge = 2 ^ 1024 * np.one.
Proof. unfold np.huge, np.one. rewrite <- Z.pow_add_r by lia. reflexivity. Qed.

(** An integer of at most 53 bits is a binary64 number. *)
Lemma nearest_small (m : Z) :
  0 <= m < 2 ^ 53 -> np.nearest (m * np.one) 1 = m * np.one.
Proof.
  intros Hm. pose proof one_pos as Hone.
  assert (Hj : 0 <= np.shift (m * np.one) 1 <= 1074).
  { split; [apply shift_nonneg |]. unfold np.shift. rewrite Z.div_1_r.
    destruct (Z.eq_dec m 0) as [-> | Hne];
      [rewrite Z.mul_0_l; change (Z.log2 0) with 0; lia |].
    assert (Z.log2 (m * np.one) < 53 + 1074); [| lia].
    apply Z.log2_lt_pow2; [nia |].
    rewrite Z.pow_add_r by lia. fold np.one.
    apply Z.mul_lt_mono_pos_r; lia. }
  set (j := np.shift (m * np.one) 1) in *.
  assert (Hsplit : np.one = 2 ^ (1074 - j) * 2 ^ j).
  { unfold np.one. rewrite <- Z.pow_add_r by lia. f_equal. lia. }
  pose proof (nearest_exact 1 (m * 2 ^ (1074 - j)) j ltac:(lia)) as H.
  replace (1 * (m * 2 ^ (1074 - j) * 2 ^ j)) with (m * np.one) in H
    by (rewrite Hsplit; lia).
  rewrite H by reflexivity. rewrite Hsplit. lia.
Qed.

Lemma of_int_small (z : Z) :
  Z.abs z <= 2 ^ 53 -> np.of_int z = np.Fin (z * np.one).
Proof.
  intros Hz.
  destruct (Z.eq_dec (Z.abs z) (2 ^ 53)) as [Heq | Hne].
  - assert (z = 2 ^ 53 \/ z = - 2 ^ 53) as [-> | ->] by lia;
      vm_compute; reflexivity.
  - unfold np.of_int. rewrite nearest_small by lia.
    pose proof one_pos. unfold np.signed.
    destruct (Z.leb_spec np.huge (Z.abs z * np.one)) as [Hbig | _].
    + rewrite huge_one in Hbig.
      assert (2 ^ 53 < 2 ^ 1024) by (apply Z.pow_lt_mono_r; lia). nia.
    + f_equal. destruct (Z.ltb_spec z 0); lia.
Qed.

(** Dividing a small integer by 1000 in binary64 moves the quotient by
    less than a thousandth, so it lands in the same unit interval. *)
Lemma nearest_thousandth (m : Z) :
  0 <= m <= 2 ^ 53 ->
  let n := np.nearest (m * np.one * np.one) (1000 * np.one) in
  n / np.one = m / 1000
  /\ - (- n / np.one) = - (- m / 1000)
  /\ n < np.huge.
Proof.
  intros Hm n. pose proof one_pos as Hone.
  pose proof (Z.div_mod m 1000 ltac:(lia)) as Hdm.
  pose proof (Z.mod_pos_bound m 1000 ltac:(lia)) as Hk.
  pose proof (Z.div_pos m 1000 ltac:(lia) ltac:(lia)) as HN.
  set (N := m / 1000) in *. set (k := m mod 1000) in *.
  assert (HV : np.one = 1024 * 2 ^ 1064).
  { unfold np.one. change 1024 with (2 ^ 10). rewrite <- Z.pow_add_r by lia.
    reflexivity. }
  assert (HVpos : 0 < 2 ^ 1064) by (apply Z.pow_pos_nonneg; lia).
  assert (Hquot : m * np.one * np.one / (1000 * np.one) = m * np.one / 1000).
  { rewrite Z.div_mul_cancel_r by lia. reflexivity. }
  assert (Hj : 0 <= np.shift (m * np.one * np.one) (1000 * np.one) <= 1065).
  { split; [apply shift_nonneg |]. unfold np.shift. rewrite Hquot.
    destruct (Z.eq_dec (m * np.one / 1000) 0) as [-> | Hne];
      [change (Z.log2 0) with 0; lia |].
    pose proof (Z.div_pos (m * np.one) 1000 ltac:(nia) ltac:(lia)).
    assert (Z.log2 (m * np.one / 1000) < 1118); [| lia].
    apply Z.log2_lt_pow2; [lia |].
    apply Z.div_lt_upper_bound; [lia |].
    change 1118 with (44 + 1074). rewrite Z.pow_add_r by lia. fold np.one.
    assert (2 ^ 53 < 1000 * 2 ^ 44) by (vm_compute; reflexivity). nia. }
  set (j := np.shift (m * np.one * np.one) (1000 * np.one)) in *.
  assert (Hpow : 2 ^ j <= 2 * 2 ^ 1064).
  { change (2 * 2 ^ 1064) with (2 ^ 1065). apply Z.pow_le_mono_r; lia. }
  assert (Hn : (k = 0 /\ n = N * np.one)
               \/ (0 < k /\ N * np.one < n < (N + 1) * np.one)).
  { destruct (Z.eq_dec k 0) as [Hk0 | Hk0]; [left | right]; (split; [lia |]).
    - assert (Hsplit : np.one = 2 ^ (1074 - j) * 2 ^ j).
      { unfold np.one. rewrite <- Z.pow_add_r by lia. f_equal. lia. }
      pose proof (nearest_exact (1000 * np.one) (N * 2 ^ (1074 - j)) j
                    ltac:(lia)) as H.
      replace (1000 * np.one * (N * 2 ^ (1074 - j) * 2 ^ j))
        with (m * np.one * np.one) in H by (rewrite Hsplit at 2; nia).
      subst n. rewrite H by reflexivity. rewrite Hsplit. lia.
    - pose proof (nearest_error (m * np.one * np.one) (1000 * np.one)
                    ltac:(lia) ltac:(nia)) as Herr.
      fold n j in Herr.
      assert (He : 2 * Z.abs (n * 1000 - m * np.one) <= 1000 * 2 ^ j).
      { replace (n * (1000 * np.one) - m * np.one * np.one)
          with ((n * 1000 - m * np.one) * np.one) in Herr by lia.
        rewrite Z.abs_mul, (Z.abs_eq np.one) in Herr by lia. nia. }
      set (V := 2 ^ 1064) in *. set (P := 2 ^ j) in *.
      clearbody V P n. rewrite HV. rewrite HV, Hdm in He.
      assert (V <= k * V) by nia. assert (k * V <= 999 * V) by nia.
      lia. }
  destruct Hn as [[Hk0 ->] | [Hk0 Hn]].
  - rewrite <- Z.mul_opp_l, !Z.div_mul by lia.
    replace (- m) with (- N * 1000) by lia. rewrite Z.div_mul by lia.
    split; [reflexivity |]. split; [lia |].
    rewrite huge_one.
    assert (2 ^ 53 < 2 ^ 1024) by (apply Z.pow_lt_mono_r; lia). nia.
  - split; [| split].
    + symmetry. apply (Z.div_unique_pos n np.one N (n - N * np.one)); lia.
    + assert (E1 : - n / np.one = - (N + 1)).
      { symmetry.
        apply (Z.div_unique_pos (- n) np.one (- (N + 1))
                 ((N + 1) * np.one - n)); lia. }
      assert (E2 : - m / 1000 = - (N + 1)).
      { symmetry.
        apply (Z.div_unique_pos (- m) 1000 (- (N + 1)) (1000 - k)); lia. }
      by rewrite E1, E2.
    + rewrite huge_one.
      assert (2 ^ 53 < 2 ^ 1024) by (apply Z.pow_lt_mono_r; lia). nia.
Qed.

Lemma floor_le_ceil (x y : np.float64) (lo hi : Z) :
  np.leb x y = true ->
  math.floor x = inr lo -> math.ceil y = inr hi -> lo <= hi.
Proof.
  destruct x as [|[]|a], y as [|[]|b]; cbn; try done.
  intros Hab [= <-] [= <-]. apply Z.leb_le in Hab.
  pose proof one_pos as Hone.
  pose proof (Z.div_le_mono a b np.one Hone Hab).
  pose proof (Z.div_mod b np.one ltac:(lia)).
  pose proof (Z.div_mod (- b) np.one ltac:(lia)).
  pose proof (Z.mod_pos_bound b np.one Hone).
  pose proof (Z.mod_pos_bound (- b) np.one Hone).
  nia.
Qed.

Lemma of_int_thousand : np.of_int 1000 = np.Fin (1000 * np.one).
Proof. apply of_int_small. cbn. lia. Qed.

(** Up to [2^53] the floor and the ceiling of the binary64 quotient by
    1000 are those of the exact quotient. *)
Lemma truediv_small (z : Z) :
  Z.abs z <= 2 ^ 53 ->
  exists quotient,
    Py.truediv (pd.int64 z) 1000 = inr quotient
    /\ math.floor quotient = inr (z / 1000)
    /\ math.ceil quotient = inr (- (- z / 1000)).
Proof.
  intros Hz. pose proof one_pos as Hone.
  destruct (nearest_thousandth (Z.abs z) ltac:(lia)) as (Hfloor & Hceil & Hfin).
  cbv zeta in Hfloor, Hceil, Hfin.
  unfold Py.truediv. rewrite of_int_small, of_int_thousand by done.
  eexists. split; [reflexivity |]. unfold np.div.
  replace (1000 * np.one =? 0) with false by (symmetry; apply Z.eqb_neq; lia).
  replace (1000 * np.one <? 0) with false by (symmetry; apply Z.ltb_ge; lia).
  rewrite xorb_false_r, Z.abs_mul, (Z.abs_eq np.one) by lia.
  rewrite (Z.abs_eq (1000 * np.one)) by lia.
  unfold np.signed.
  destruct (Z.leb_spec np.huge
              (np.nearest (Z.abs z * np.one * np.one) (1000 * np.one)));
    [lia |].
  set (n := np.nearest (Z.abs z * np.one * np.one) (1000 * np.one)) in *.
  cbn [math.floor math.ceil].
  destruct (Z.ltb_spec (z * np.one) 0) as [Hneg | Hpos].
  - assert (z < 0) by nia. replace (Z.abs z) with (- z) in * by lia.
    repeat rewrite Z.opp_involutive in Hceil.
    repeat rewrite Z.opp_involutive.
    split; f_equal; lia.
  - assert (0 <= z) by nia. replace (Z.abs z) with z in * by lia.
    split; f_equal; lia.
Qed.

(** *** The column and its range *)

Lemma min_is_lower_bound (z : Z) (zs : list Z) :
  Forall (fun x => foldr Z.min z zs <= x) (z :: zs).
Proof.
  induction zs as [|y zs IH]; cbn [foldr].
  - repeat constructor. lia.
  - inversion IH as [|? ? Hz Hzs]; subst.
    constructor; [lia |]. constructor; [lia |].
    eapply Forall_impl; [exact Hzs |]. cbn. intros x Hx. lia.
Qed.

Lemma max_is_upper_bound (z : Z) (zs : list Z) :
  Forall (fun x => x <= foldr Z.max z zs) (z :: zs).
Proof.
  induction zs as [|y zs IH]; cbn [foldr].
  - repeat constructor. lia.
  - inversion IH as [|? ? Hz Hzs]; subst.
    constructor; [lia |]. constructor; [lia |].
    eapply Forall_impl; [exact Hzs |]. cbn. intros x Hx. lia.
Qed.

Lemma min_is_attained (z : Z) (zs : list Z) : foldr Z.min z zs ∈ z :: zs.
Proof.
  induction zs as [|y zs IH]; cbn [foldr]; [by left |].
  destruct (Z.min_spec y (foldr Z.min z zs)) as [[_ ->] | [_ ->]].
  - right. by left.
  - revert IH. rewrite !elem_of_cons. tauto.
Qed.

Lemma max_is_attained (z : Z) (zs : list Z) : foldr Z.max z zs ∈ z :: zs.
Proof.
  induction zs as [|y zs IH]; cbn [foldr]; [by left |].
  destruct (Z.max_spec y (foldr Z.max z zs)) as [[_ ->] | [_ ->]].
  - revert IH. rewrite !elem_of_cons. tauto.
  - right. by left.
Qed.

(** An [int64] column pairs every record with its integer. *)
Lemma getitem_int64 (df : pd.DataFrame) (col : string) zs :
  pd.getitem df col = inr (pd.Int64 zs) ->
  col ∈ pd.columns df
  /\ Forall2 (fun r z => r !! col = Some (pd.CInt z)) (pd.records df) zs.
Proof.
  unfold pd.getitem. destruct (decide (col ∈ pd.columns df)); [| discriminate].
  unfold pd.series. intros H. split; [done |].
  destruct (mapM pd.as_int64 _) as [zs' |] eqn:Hints.
  - injection H as <-. apply mapM_Some in Hints.
    apply Forall2_fmap_l in Hints.
    eapply Forall2_impl; [exact Hints |]. cbn. intros r z Hr.
    by destruct (r !! col) as [[] |]; simplify_eq/=.
  - by repeat case_match.
Qed.

(** The two ends in thousands, on an [int64] column of at most 53
    bits. *)
Lemma thousands_int64 (df : pd.DataFrame) (col : string) z zs :
  pd.getitem df col = inr (pd.Int64 (z :: zs)) ->
  Forall (fun cost => Z.abs cost <= 2 ^ 53) (z :: zs) ->
  thousands math.floor pd.min df col = inr (foldr Z.min z zs / 1000)
  /\ thousands math.ceil pd.max df col = inr (- (- foldr Z.max z zs / 1000)).
Proof.
  intros Hget Hsmall. rewrite Forall_forall in Hsmall.
  destruct (truediv_small (foldr Z.min z zs))
    as (q1 & Hq1 & Hfloor & _); [apply Hsmall, min_is_attained |].
  destruct (truediv_small (foldr Z.max z zs))
    as (q2 & Hq2 & _ & Hceil); [apply Hsmall, max_is_attained |].
  unfold thousands. rewrite Hget. cbn [pd.min pd.max].
  by rewrite Hq1, Hq2.
Qed.

Lemma cost_range_int64 (df : pd.DataFrame) (col : string) z zs :
  pd.getitem df col = inr (pd.Int64 (z :: zs)) ->
  Forall (fun cost => Z.abs cost <= 2 ^ 53) (z :: zs) ->
  cost_range df col
  = inr (foldr Z.min z zs / 1000, - (- foldr Z.max z zs / 1000)).
Proof.
  intros Hget Hsmall.
  destruct (thousands_int64 df col z zs Hget Hsmall) as [Hlo Hhi].
  unfold cost_range. by rewrite Hlo, Hhi.
Qed.

Lemma notna_not_nan (xs : list np.float64) :
  Forall (fun x => np.isnan x = false) (pd.notna xs).
Proof.
  apply Forall_forall. intros x Hx.
  by apply list_elem_of_filter in Hx as [? _].
Qed.

(** Whatever the column holds, a range that is computed is ordered. *)
Lemma cost_range_ordered (df : pd.DataFrame) (col : string) (lo hi : Z) :
  cost_range df col = inr (lo, hi) -> lo <= hi.
Proof.
  unfold cost_range, thousands.
  destruct (pd.getitem df col) as [e | column]; [discriminate |].
  assert (Hd : forall x y,
    np.leb x y = true ->
    np.leb (np.div x (np.of_int 1000)) (np.div y (np.of_int 1000)) = true).
  { intros x y Hxy. rewrite of_int_thousand. apply div_mono; [| done].
    pose proof one_pos. lia. }
  destruct column as [[|z zs] | xs | [|s ss] |]; cbn [pd.min pd.max];
    try discriminate.
  - cbn [Py.truediv].
    destruct (math.floor _) as [|lo'] eqn:Hlo; [discriminate |].
    destruct (math.ceil _) as [|hi'] eqn:Hhi; [discriminate |].
    intros [= <- <-].
    eapply floor_le_ceil; [| exact Hlo | exact Hhi].
    apply Hd, of_int_mono.
    pose proof (min_is_lower_bound z zs) as Hmin.
    pose proof (max_is_upper_bound z zs) as Hmax.
    apply Forall_cons in Hmin as [Hmin _].
    apply Forall_cons in Hmax as [Hmax _]. lia.
  - pose proof (notna_not_nan xs) as Hxs.
    destruct (pd.notna xs) as [|y ys]; [discriminate |].
    cbn [Py.truediv].
    destruct (math.floor _) as [|lo'] eqn:Hlo; [discriminate |].
    destruct (math.ceil _) as [|hi'] eqn:Hhi; [discriminate |].
    intros [= <- <-].
    eapply floor_le_ceil; [| exact Hlo | exact Hhi].
    by apply Hd, minimum_le_maximum.
Qed.

(** The cell in terms of the range: it binds [costCol], then binds and
    displays the range or raises what the range raises. *)
Lemma cell_costRange_run_gen (s : Session) (df : pd.DataFrame) :
  globals s !! "birdStrikesDF" = Some (PDataFrame df) ->
  cell_costRange s
  = match cost_range df "Cost__Total_$" with
    | inr (lo, hi) =>
        Returns tt
          (set_globals
             (<["costRangeInData" := PInts [lo; hi]]>
                (<["costCol" := PStr "Cost__Total_$"]> (globals s))) s)
          [Displayed (PInts [lo; hi])]
    | inl e =>
        Raises e
          (set_globals (<["costCol" := PStr "Cost__Total_$"]> (globals s)) s)
          []
    end.
Proof.
  intros Hdf. unfold cost_range, thousands, cell_costRange.
  unfold floor_thousands, ceil_thousands.
  destruct (pd.getitem df "Cost__Total_$") as [e | column] eqn:Hget.
  { eapply raises_eq; [run | reflexivity ..]. }
  destruct (pd.min column) as [e | least] eqn:Hmin.
  { eapply raises_eq; [run | reflexivity ..]. }
  destruct (Py.truediv least 1000) as [e | q1] eqn:Hq1.
  { eapply raises_eq; [run | reflexivity ..]. }
  destruct (math.floor q1) as [e | lo] eqn:Hlo.
  { eapply raises_eq; [run | reflexivity ..]. }
  destruct (pd.max column) as [e | greatest] eqn:Hmax.
  { eapply raises_eq; [run | reflexivity ..]. }
  destruct (Py.truediv greatest 1000) as [e | q2] eqn:Hq2.
  { eapply raises_eq; [run | reflexivity ..]. }
  destruct (math.ceil q2) as [e | hi] eqn:Hhi.
  { eapply raises_eq; [run | reflexivity ..]. }
  runs.
Qed.

Lemma cell_costRange_run (s0 : Session) (df : pd.DataFrame) z zs :
  globals s0 !! "birdStrikesDF" = Some (PDataFrame df) ->
  pd.getitem df "Cost__Total_$" = inr (pd.Int64 (z :: zs)) ->
  Forall (fun cost => Z.abs cost <= 2 ^ 53) (z :: zs) ->
  cell_costRange s0
  = Returns tt
      (set_globals
         (<["costRangeInData" :=
              PInts [foldr Z.min z zs / 1000; - (- foldr Z.max z zs / 1000)]]>
            (<["costCol" := PStr "Cost__Total_$"]> (globals s0))) s0)
      [Displayed
         (PInts [foldr Z.min z zs / 1000; - (- foldr Z.max z zs / 1000)])].
Proof.
  intros Hdf Hget Hsmall.
  by rewrite (cell_costRange_run_gen s0 df Hdf),
    (cost_range_int64 df _ z zs Hget Hsmall).
Qed.

(** The cell succeeds exactly when the range is computed. *)
Lemma cell_costRange_succeeds (s0 : Session) (df : pd.DataFrame) :
  globals s0 !! "birdStrikesDF" = Some (PDataFrame df) ->
  result (cell_costRange s0) = inr tt ->
  exists lo hi, cost_range df "Cost__Total_$" = inr (lo, hi).
Proof.
  intros Hdf. rewrite (cell_costRange_run_gen s0 df Hdf).
  destruct (cost_range df "Cost__Total_$") as [e | [lo hi]]; [done | eauto].
Qed.

(** An [int64] column on which the cell succeeds is not empty. *)
Lemma int64_column_nonempty (s0 : Session) (df : pd.DataFrame) column :
  globals s0 !! "birdStrikesDF" = Some (PDataFrame df) ->
  pd.getitem df "Cost__Total_$" = inr (pd.Int64 column) ->
  result (cell_costRange s0) = inr tt ->
  exists z zs, column = z :: zs.
Proof.
  intros Hdf Hget Hok.
  destruct (cell_costRange_succeeds s0 df Hdf Hok) as (lo & hi & Hrange).
  destruct column as [|z zs]; [| by eauto].
  unfold cost_range, thousands in Hrange. by rewrite Hget in Hrange.
Qed.

Lemma filter_all {A} (P : A -> Prop) `{!forall x, Decision (P x)} (l : list A) :
  Forall P l -> filter P l = l.
Proof.
  induction 1 as [|x l Hx _ IH]; [done |].
  rewrite filter_cons_True by done. by rewrite IH.
Qed.

(** Every record of an integer cost column passes the filter built
    from the floor of its minimum and the ceiling of its maximum. *)
Lemma data_range_keeps_all
    (sel : alt.Selections) (rs : list (gmap string pd.cell)) z zs :
  Forall2 (fun r c => r !! "Cost__Total_$" = Some (pd.CInt c)) rs (z :: zs) ->
  Forall (fun r =>
    alt.keeps sel
      (cost_filter (foldr Z.min z zs / 1000) (- (- foldr Z.max z zs / 1000))) r
    = true) rs.
Proof.
  intros Hrs. eapply Forall2_Forall_l; [exact Hrs |].
  pose proof (min_is_lower_bound z zs) as Hmin.
  pose proof (max_is_upper_bound z zs) as Hmax.
  rewrite Forall_forall in Hmin, Hmax. apply Forall_forall.
  intros c Hc r Hr. apply (cost_filter_keeps sel _ _ c r Hr).
  specialize (Hmin c Hc). specialize (Hmax c Hc).
  pose proof (Z.mul_div_le (foldr Z.min z zs) 1000).
  pose proof (Z.mul_div_le (- foldr Z.max z zs) 1000).
  lia.
Qed.

Lemma rows_single_filter sel kw t df title :
  alt.rows sel
    (alt.encode kw (alt.mark_bar (
       alt.transform_filter t (alt.Chart (Some df) title))))
  = filter (fun r => alt.keeps sel t r = true) (pd.records df).
Proof. reflexivity. Qed.

(** C9.  On a table whose cost column holds integers of at most 53
    bits, once the cost-range cell has run successfully the range
    slider starts at [[lo, hi]] with [lo = floor(min/1000)] and
    [hi = ceil(max/1000)] of the cost column, as binary64 computes
    them; then [lo * 1000 <= min] and [max <= hi * 1000], every row of
    the table passes the filter of [barChartRanges(xcol, (lo, hi))],
    and that chart draws exactly the rows the unfiltered
    [barChart(xcol)] draws: all rows of the table. *)
Theorem initial_cost_range_keeps_every_row
    (s0 : Session) (df : pd.DataFrame) (xcol : string) (column : list Z) :
  globals s0 !! "birdStrikesDF" = Some (PDataFrame df) ->
  pd.getitem df "Cost__Total_$" = inr (pd.Int64 column) ->
  Forall (fun cost => Z.abs cost <= 2 ^ 53) column ->
  result (cell_costRange s0) = inr tt ->
  exists (least greatest lo hi : Z) (q1 q2 : np.float64)
         (filtered plain : alt.ChartSpec),
    let s := final (cell_costRange s0) in
    pd.min (pd.Int64 column) = inr (pd.int64 least)
    /\ pd.max (pd.Int64 column) = inr (pd.int64 greatest)
    /\ Py.truediv (pd.int64 least) 1000 = inr q1
    /\ math.floor q1 = inr lo
    /\ Py.truediv (pd.int64 greatest) 1000 = inr q2
    /\ math.ceil q2 = inr hi
    /\ lo * 1000 <= least
    /\ greatest <= hi * 1000
    /\ costRange_slider s
       = Returns (widgets.IntRangeSlider (lo, hi) lo hi 1 "Cost range:") s []
    /\ barChartRanges xcol (lo, hi) s = Returns (PChart filtered) s []
    /\ barChart xcol s = Returns (PChart plain) s []
    /\ (forall sel,
          Forall (fun r => alt.keeps sel (cost_filter lo hi) r = true)
            (pd.records df))
    /\ (forall sel,
          alt.rows sel filtered = pd.records df
          /\ alt.rows sel plain = pd.records df).
Proof.
  intros Hdf Hget Hsmall Hok.
  destruct (int64_column_nonempty s0 df column Hdf Hget Hok)
    as (z & zs & ->).
  rewrite (cell_costRange_run s0 df z zs Hdf Hget Hsmall). cbn [final].
  destruct (getitem_int64 _ _ _ Hget) as [_ Hrs].
  rewrite Forall_forall in Hsmall.
  destruct (truediv_small (foldr Z.min z zs))
    as (q1 & Hq1 & Hfloor & _); [apply Hsmall, min_is_attained |].
  destruct (truediv_small (foldr Z.max z zs))
    as (q2 & Hq2 & _ & Hceil); [apply Hsmall, max_is_attained |].
  exists (foldr Z.min z zs), (foldr Z.max z zs),
    (foldr Z.min z zs / 1000), (- (- foldr Z.max z zs / 1000)), q1, q2.
  do 2 eexists. split_and!; try reflexivity; try assumption.
  - pose proof (Z.mul_div_le (foldr Z.min z zs) 1000). lia.
  - pose proof (Z.mul_div_le (- foldr Z.max z zs) 1000). lia.
  - unfold costRange_slider. runs.
  - eapply barChartRanges_run; lookup.
  - eapply barChart_run; lookup.
  - intros sel. by apply data_range_keeps_all.
  - intros sel. split; [| reflexivity].
    rewrite rows_single_filter.
    apply filter_all. by apply (data_range_keeps_all sel).
Qed.

Lemma initial_cost_range_keeps_every_row_witness :
  exists (least greatest lo hi : Z) (q1 q2 : np.float64)
         (filtered plain : alt.ChartSpec),
    let s := final (cell_costRange Sample.session) in
    pd.min (pd.Int64 [0; 2500; 12001]) = inr (pd.int64 least)
    /\ pd.max (pd.Int64 [0; 2500; 12001]) = inr (pd.int64 greatest)
    /\ Py.truediv (pd.int64 least) 1000 = inr q1
    /\ math.floor q1 = inr lo
    /\ Py.truediv (pd.int64 greatest) 1000 = inr q2
    /\ math.ceil q2 = inr hi
    /\ lo * 1000 <= least
    /\ greatest <= hi * 1000
    /\ costRange_slider s
       = Returns (widgets.IntRangeSlider (lo, hi) lo hi 1 "Cost range:") s []
    /\ barChartRanges "When__Phase_of_flight" (lo, hi) s
       = Returns (PChart filtered) s []
    /\ barChart "When__Phase_of_flight" s = Returns (PChart plain) s []
    /\ (forall sel,
          Forall (fun r => alt.keeps sel (cost_filter lo hi) r = true)
            (pd.records Sample.birdstrikes))
    /\ (forall sel,
          alt.rows sel filtered = pd.records Sample.birdstrikes
          /\ alt.rows sel plain = pd.records Sample.birdstrikes).
Proof.
  apply (initial_cost_range_keeps_every_row Sample.session Sample.birdstrikes
           "When__Phase_of_flight" [0; 2500; 12001]).
  - vm_compute. reflexivity.
  - vm_compute. reflexivity.
  - apply (bool_decide_unpack _). vm_compute. reflexivity.
  - vm_compute. reflexivity.
Defined.

(** On the sample table the costs run from 0 to 12001, so the slider
    starts at [0, 13]. *)
Example sample_cost_range :
  globals (final (cell_costRange Sample.session)) !! "costRangeInData"
  = Some (PInts [0; 13]).
Proof. vm_compute. reflexivity. Qed.

(** The division is the binary64 one: it agrees with the Standard
    Library's IEEE 754 division on the conversions of these integers,
    and beyond 53 bits it is not the exact quotient.  The integer
    9007199254741001 is converted to 9007199254741000, whose quotient
    by 1000 has ceiling 9007199254741. *)
Example truediv_is_binary64 :
  forallb agrees_with_SFdiv
    [0; 1; -1; 999; 1000; 1001; 2500; 12001; -12001; 9007199254740992;
     9007199254740993; 9007199254741001; 17592186044415999;
     -17592186044415999; 9223372036854775807; -9223372036854775808;
     123456789012345678; 4503599627370496; 4503599627370497000]
  = true
  /\ math.ceil (np.div (np.of_int 9007199254741001) (np.of_int 1000))
     = inr 9007199254741
  /\ math.floor (np.div (np.of_int 17592186044415999) (np.of_int 1000))
     = inr 17592186044416.
Proof. vm_compute. by repeat split. Qed.

(** A cost column of binary64 numbers: on the costs 0.5 and 2500.0 the
    cell succeeds with the range [0, 3]. *)
Example float_cost_range :
  cell_costRange (Sample.only_table Sample.float_costs)
  = Returns tt
      (set_globals
         (<["costRangeInData" := PInts [0; 3]]>
            (<["costCol" := PStr "Cost__Total_$"]>
               (globals (Sample.only_table Sample.float_costs))))
         (Sample.only_table Sample.float_costs))
      [Displayed (PInts [0; 3])].
Proof. vm_compute. reflexivity. Qed.

(** ** The brushed scatterplot *)

Lemma irisBrushScatter_run (s : Session) (df : pd.DataFrame) :
  globals s !! "irisDF" = Some (PDataFrame df) ->
  irisBrushScatter s
  = let brush := {| alt.pname := S (param_counter s);
                    alt.select := alt.interval;
                    alt.encodings := ["x"; "y"] |} in
    Returns
      (PChart (
         alt.add_params [brush] (
         alt.encode [("x", alt.shorthand "sepalLength");
                     ("y", alt.shorthand "petalLength");
                     ("color", alt.Color "sepalWidth" purples);
                     ("size", alt.condition brush 50 1);
                     ("tooltip", alt.shorthands iris_tooltip)] (
         alt.mark_point (alt.Chart (Some df) None)))))
      (set_param_counter (S (param_counter s)) s) [].
Proof.
  intros Hdf. unfold irisBrushScatter, selection_interval. runs.
Qed.

(** C6.  The chart [irisBrushScatter()] returns declares one selection
    parameter, an interval over the encodings x and y.  Only the size
    channel refers to it: a point inside the selection has size 50 and
    a point outside has size 1, whatever the selection is.  The x, y,
    color and tooltip channels are the plain fields, no transform
    filters on the selection, and every row of the table is drawn. *)
Theorem irisBrushScatter_conditions_size_only
    (s : Session) (df : pd.DataFrame) :
  globals s !! "irisDF" = Some (PDataFrame df) ->
  exists (c : alt.ChartSpec) (brush : alt.Param) (s' : Session),
    irisBrushScatter s = Returns (PChart c) s' []
    /\ alt.params c = [brush]
    /\ alt.select brush = alt.interval
    /\ alt.encodings brush = ["x"; "y"]
    /\ alt.mark c = Some alt.point
    /\ dom (alt.encoding c) = {["x"; "y"; "color"; "size"; "tooltip"]}
    /\ alt.encoding c !! "size" = Some (alt.condition brush 50 1)
    /\ (forall (sel : alt.Selections) r,
          alt.channel_value sel (alt.condition brush 50 1) r
          = Some (if sel brush r then 50 else 1))
    /\ alt.encoding c !! "x" = Some (alt.shorthand "sepalLength")
    /\ alt.encoding c !! "y" = Some (alt.shorthand "petalLength")
    /\ alt.encoding c !! "color" = Some (alt.Color "sepalWidth" purples)
    /\ alt.encoding c !! "tooltip"
       = Some (alt.shorthands
                 ["sepalLength"; "petalLength"; "sepalWidth"; "petalWidth"])
    /\ (forall k ch,
          alt.encoding c !! k = Some ch ->
          brush ∈ alt.channel_params ch <-> k = "size")
    /\ alt.transform c = []
    /\ (forall sel, alt.rows sel c = pd.records df).
Proof.
  intros Hdf. do 3 eexists.
  split; [by apply irisBrushScatter_run |].
  split_and!; try reflexivity.
  intros k ch.
  set (brush := {| alt.pname := _ |}).
  cbn [alt.encoding alt.add_params alt.encode alt.mark_point alt.with_mark
       alt.Chart list_to_map foldr].
  rewrite (right_id_L ∅ (∪)).
  destruct (decide (k = "size")) as [-> | Hk].
  - rewrite lookup_insert_ne, lookup_insert_ne, lookup_insert_ne by done.
    rewrite lookup_insert_eq. intros [= <-]. cbn. set_solver.
  - intros Hlook. split; [| done]. intros Hin. exfalso.
    repeat (rewrite lookup_insert in Hlook; case_decide;
            [injection Hlook as <-; cbn in Hin; set_solver |]).
    discriminate.
Qed.

Lemma irisBrushScatter_conditions_size_only_witness :
  exists (c : alt.ChartSpec) (brush : alt.Param) (s' : Session),
    irisBrushScatter Sample.session = Returns (PChart c) s' []
    /\ alt.params c = [brush]
    /\ alt.select brush = alt.interval
    /\ alt.encodings brush = ["x"; "y"]
    /\ alt.mark c = Some alt.point
    /\ dom (alt.encoding c) = {["x"; "y"; "color"; "size"; "tooltip"]}
    /\ alt.encoding c !! "size" = Some (alt.condition brush 50 1)
    /\ (forall (sel : alt.Selections) r,
          alt.channel_value sel (alt.condition brush 50 1) r
          = Some (if sel brush r then 50 else 1))
    /\ alt.encoding c !! "x" = Some (alt.shorthand "sepalLength")
    /\ alt.encoding c !! "y" = Some (alt.shorthand "petalLength")
    /\ alt.encoding c !! "color" = Some (alt.Color "sepalWidth" purples)
    /\ alt.encoding c !! "tooltip"
       = Some (alt.shorthands
                 ["sepalLength"; "petalLength"; "sepalWidth"; "petalWidth"])
    /\ (forall k ch,
          alt.encoding c !! k = Some ch ->
          brush ∈ alt.channel_params ch <-> k = "size")
    /\ alt.transform c = []
    /\ (forall sel, alt.rows sel c = pd.records Sample.iris).
Proof.
  apply (irisBrushScatter_conditions_size_only Sample.session Sample.iris).
  vm_compute. reflexivity.
Defined.

(** ** Frame conditions

    Which parts of the session a cell or a control change can touch,
    for an invariant [I] that does not depend on the widget heap, the
    call log or the parameter counter, is kept by the effects in
    [benign] and by the assignments in [guard]. *)

Lemma stable_bind (I : Session -> Prop) {A B} (m : M A) (k : A -> M B) :
  stable I m -> (forall a, stable I (k a)) -> stable I (m ≫= k).
Proof.
  intros Hm Hk s Hs. rewrite bind_run. specialize (Hm s Hs).
  destruct (m s) as [[e | a] s1 o1]; cbn in *; [done | by apply Hk].
Qed.

Lemma stable_pure (I : Session -> Prop) {A} (m : M A) :
  (forall s, final (m s) = s) -> stable I m.
Proof. intros H s Hs. by rewrite H. Qed.

Lemma stable_modify (I : Session -> Prop) (f : Session -> Session) :
  (forall s, I s -> I (f s)) -> stable I (modify f).
Proof. intros H s Hs. by apply H. Qed.

Lemma stable_capture (I : Session -> Prop) {A} (m : M A) :
  stable I m -> stable I (capture m).
Proof.
  intros Hm s Hs. specialize (Hm s Hs). unfold capture.
  destruct (m s) as [[e | a] s1 o1]; done.
Qed.

Lemma stable_for (I : Session -> Prop) {A} (xs : list A) (body : A -> M unit) :
  (forall x, stable I (body x)) -> stable I (for_ xs body).
Proof.
  intros Hbody. induction xs as [|x xs IH]; cbn [for_].
  - by apply stable_pure.
  - apply stable_bind; [apply Hbody | done].
Qed.

Section Frame.

Variable I : Session -> Prop.
Variable benign : Effect -> Prop.
Variable guard : string -> pyval -> Session -> Prop.

Hypothesis I_heap : forall h s, I s -> I (set_heap h s).
Hypothesis I_calls : forall l s, I s -> I (set_calls l s).
Hypothesis I_counter : forall n s, I s -> I (set_param_counter n s).
Hypothesis I_effect :
  forall e s, benign e -> I s -> I (set_effects (effects s ++ [e]) s).
Hypothesis I_assign :
  forall n v s, guard n v s -> I s ->
    I (set_globals (<[n := v]> (globals s)) s).
Hypothesis guard_other :
  forall n v s, n <> "birdStrikesDF" -> n <> "irisDF" -> guard n v s.
Hypothesis benign_fetch : forall n, benign (FetchDataset n).

(** Decompose a computation along its binds and case distinctions. *)
Ltac frame :=
  repeat (intros; lazymatch goal with
  | |- stable _ (mbind _ _) => apply stable_bind
  | |- stable _ (mret _) => by apply stable_pure
  | |- stable _ (raise _) => by apply stable_pure
  | |- stable _ get => by apply stable_pure
  | |- stable _ (emit _) => by apply stable_pure
  | |- stable _ (print _) => by apply stable_pure
  | |- stable _ (display _) => by apply stable_pure
  | |- stable _ (capture _) => apply stable_capture
  | |- stable _ (for_ _ _) => apply stable_for
  | |- stable _ (modify _) =>
      apply stable_modify; intros;
      first [ by apply I_heap | by apply I_calls | by apply I_counter
            | by apply I_effect
            | apply I_assign; [by apply guard_other | done] ]
  | |- stable _ (match ?x with _ => _ end) => destruct x
  | |- stable _ (let '(_, _) := ?x in _) => destruct x
  | |- _ => try solve [eauto]
  end).

Lemma stable_global name : stable I (global name).
Proof. unfold global. frame. Qed.

Lemma stable_as_str v : stable I (as_str v).
Proof. unfold as_str. frame. Qed.

Lemma stable_as_int v : stable I (as_int v).
Proof. unfold as_int. frame. Qed.

Lemma stable_as_pair v : stable I (as_pair v).
Proof. unfold as_pair. frame. Qed.

Lemma stable_as_df v : stable I (as_df v).
Proof. unfold as_df. frame. Qed.

Lemma stable_item d key : stable I (item d key).
Proof. unfold item. frame. Qed.

Lemma stable_index v i : stable I (index v i).
Proof. unfold index. frame. Qed.

Lemma stable_lift {A} (r : exn + A) : stable I (lift r).
Proof. unfold lift. frame. Qed.

Lemma stable_arg kw name : stable I (arg kw name).
Proof. unfold arg. frame. Qed.

Lemma stable_deref a : stable I (deref a).
Proof. unfold deref. frame. Qed.

Lemma stable_alloc o : stable I (alloc o).
Proof. unfold alloc. frame. Qed.

Lemma stable_store a o : stable I (store a o).
Proof. unfold store. frame. Qed.

Lemma stable_effect e : benign e -> stable I (effect e).
Proof. intros He. unfold effect. frame. Qed.

Lemma stable_assign name v :
  name <> "birdStrikesDF" -> name <> "irisDF" -> stable I (assign name v).
Proof. intros H1 H2. unfold assign. frame. Qed.

Lemma stable_selection_interval encodings :
  stable I (selection_interval encodings).
Proof. unfold selection_interval. frame. Qed.

Lemma stable_with_output v body :
  stable I body -> stable I (with_output v body).
Proof.
  intros Hbody. unfold with_output. destruct v; try by apply stable_pure.
  apply stable_bind; [apply stable_deref |]. intros [| content |];
    try by apply stable_pure.
  intros s Hs. apply I_heap. by apply Hbody.
Qed.

Hint Resolve stable_global stable_as_str stable_as_int stable_as_pair
  stable_as_df stable_item stable_index stable_lift stable_arg stable_deref
  stable_alloc stable_store stable_selection_interval : core.

(** *** The functions of the notebook *)

Lemma stable_print10X str1 : stable I (print10X str1).
Proof. unfold print10X. frame. Qed.

Lemma stable_print10XPair str1 str2 : stable I (print10XPair str1 str2).
Proof. unfold print10XPair. frame. Qed.

Lemma stable_times10 x : stable I (times10 x).
Proof. unfold times10. frame. Qed.

Lemma stable_barChart xcol : stable I (barChart xcol).
Proof. unfold barChart. frame. Qed.

Lemma stable_barChartRanges xcol costRange :
  stable I (barChartRanges xcol costRange).
Proof. unfold barChartRanges. frame. Qed.

Lemma stable_irisScatter_plain : stable I irisScatter_plain.
Proof. unfold irisScatter_plain. frame. Qed.

Lemma stable_irisScatter : stable I irisScatter.
Proof. unfold irisScatter. frame. Qed.

Lemma stable_irisBrushScatter : stable I irisBrushScatter.
Proof. unfold irisBrushScatter. frame. Qed.

Lemma stable_print10X_observer change : stable I (print10X_observer change).
Proof.
  unfold print10X_observer. frame. apply stable_with_output. frame.
Qed.

Lemma stable_apply f kw : stable I (apply f kw).
Proof.
  destruct f; cbn [apply]; frame;
    auto using stable_print10X, stable_print10XPair, stable_times10,
      stable_barChart, stable_barChartRanges, stable_irisScatter_plain,
      stable_irisScatter, stable_irisBrushScatter, stable_print10X_observer.
Qed.

Lemma stable_call f kw : stable I (call f kw).
Proof. unfold call. frame. apply stable_apply. Qed.

Lemma stable_call_global name : stable I (call_global name).
Proof. unfold call_global. frame; apply stable_call. Qed.

(** *** The binder *)

Lemma stable_refresh a : stable I (refresh a).
Proof. unfold refresh. frame. apply stable_call. Qed.

Lemma stable_interact cs f : stable I (interact cs f).
Proof. unfold interact. frame. apply stable_refresh. Qed.

Lemma stable_observe w f : stable I (observe w f).
Proof. unfold observe. frame. Qed.

Lemma stable_handle ev : stable I (handle ev).
Proof.
  destruct ev as [a name v]. unfold handle. frame;
    first [apply stable_refresh | apply stable_call].
Qed.

(** *** The cells *)

Hint Resolve stable_interact stable_call_global stable_observe : core.

Lemma stable_bind_cell d :
  decl_name d <> "birdStrikesDF" -> decl_name d <> "irisDF" ->
  stable I (decl_controls d) -> stable I (bind_cell d).
Proof. intros H1 H2 Hc. unfold bind_cell. frame. by apply stable_assign. Qed.

Lemma stable_column_dropdown : stable I column_dropdown.
Proof. unfold column_dropdown. frame. Qed.

Lemma stable_costRange_slider : stable I costRange_slider.
Proof. unfold costRange_slider. frame. Qed.

Lemma stable_fetch name : stable I (fetch name).
Proof. unfold fetch. frame. by apply stable_effect. Qed.

Hint Resolve stable_column_dropdown stable_costRange_slider
  stable_fetch : core.

Ltac frame_decl :=
  apply stable_bind_cell;
  [ discriminate | discriminate
  | unfold decl_print10X, decl_print10XPair, decl_times10, decl_barChart,
      decl_barChartRanges; cbn [decl_controls]; frame ].

Lemma stable_cell_imports : stable I cell_imports.
Proof. unfold cell_imports. frame. Qed.

Lemma stable_cell_versions : stable I cell_versions.
Proof. unfold cell_versions. frame. Qed.

Lemma stable_cell_print10X : stable I cell_print10X.
Proof. frame_decl. Qed.

Lemma stable_cell_observer : stable I cell_observer.
Proof. unfold cell_observer. frame; by apply stable_assign. Qed.

Lemma stable_cell_print10XPair : stable I cell_print10XPair.
Proof. frame_decl. Qed.

Lemma stable_cell_times10 : stable I cell_times10.
Proof. frame_decl. Qed.

Lemma stable_cell_bar : stable I cell_bar.
Proof. unfold cell_bar. frame. Qed.

Lemma stable_cell_bar_titled : stable I cell_bar_titled.
Proof. unfold cell_bar_titled. frame. Qed.

Lemma stable_cell_barChart : stable I cell_barChart.
Proof. frame_decl. Qed.

Lemma stable_cell_costRange : stable I cell_costRange.
Proof.
  unfold cell_costRange, floor_thousands, ceil_thousands.
  frame; by apply stable_assign.
Qed.

Lemma stable_cell_barChartRanges : stable I cell_barChartRanges.
Proof. frame_decl. Qed.

Lemma stable_cell_irisScatter_plain : stable I cell_irisScatter_plain.
Proof. unfold cell_irisScatter_plain. frame; by apply stable_assign. Qed.

Lemma stable_cell_irisScatter : stable I cell_irisScatter.
Proof. unfold cell_irisScatter. frame; by apply stable_assign. Qed.

Lemma stable_cell_irisBrushScatter : stable I cell_irisBrushScatter.
Proof. unfold cell_irisBrushScatter. frame; by apply stable_assign. Qed.

Lemma stable_cell_layered : stable I cell_layered.
Proof. unfold cell_layered. frame; by apply stable_assign. Qed.

Lemma stable_cell_data_transformer :
  benign (EnableDataTransformer "vegafusion") ->
  stable I cell_data_transformer.
Proof. intros H. unfold cell_data_transformer. frame. by apply stable_effect. Qed.

Lemma stable_cell_renderer :
  benign (EnableRenderer "png") -> stable I cell_renderer.
Proof. intros H. unfold cell_renderer. frame. by apply stable_effect. Qed.

Lemma stable_cell_birdstrikes :
  (forall df s, catalog s !! "birdstrikes" = Some df ->
     guard "birdStrikesDF" (PDataFrame df) s) ->
  stable I cell_birdstrikes.
Proof.
  intros Hguard s Hs. unfold cell_birdstrikes.
  destruct (catalog s !! "birdstrikes") as [df |] eqn:Hcat.
  - match goal with |- I (final ?r) =>
      assert (exists o, r
        = Returns tt
            (set_globals (<["birdStrikesDF" := PDataFrame df]> (globals s))
               (set_effects (effects s ++ [FetchDataset "birdstrikes"]) s)) o)
        as [o ->] by (eexists; runs)
    end.
    cbn [final].
    apply (I_assign _ _ (set_effects (effects s ++ [FetchDataset "birdstrikes"]) s));
      [by apply Hguard | by apply I_effect].
  - erewrite bind_raises_l by (by apply fetch_raises).
    cbn [final]. by apply I_effect.
Qed.

Lemma stable_cell_iris :
  (forall df s, catalog s !! "iris" = Some df ->
     guard "irisDF" (PDataFrame df) s) ->
  stable I cell_iris.
Proof.
  intros Hguard s Hs. unfold cell_iris.
  destruct (catalog s !! "iris") as [df |] eqn:Hcat.
  - match goal with |- I (final ?r) =>
      assert (exists o, r
        = Returns tt
            (set_globals (<["irisDF" := PDataFrame df]> (globals s))
               (set_effects (effects s ++ [FetchDataset "iris"]) s)) o)
        as [o ->] by (eexists; runs)
    end.
    cbn [final].
    apply (I_assign _ _ (set_effects (effects s ++ [FetchDataset "iris"]) s));
      [by apply Hguard | by apply I_effect].
  - erewrite bind_raises_l by (by apply fetch_raises).
    cbn [final]. by apply I_effect.
Qed.

Lemma stable_run_cells cells s :
  Forall (stable I) cells -> I s -> I (run_cells cells s).
Proof.
  intros Hcells. revert s.
  induction Hcells as [|c cells Hc _ IH]; intros s Hs; [done |].
  cbn [run_cells foldl]. apply IH. by apply Hc.
Qed.

(** The cells that follow the two settings cells. *)
Hypothesis guard_birdstrikes :
  forall df s, catalog s !! "birdstrikes" = Some df ->
    guard "birdStrikesDF" (PDataFrame df) s.
Hypothesis guard_iris :
  forall df s, catalog s !! "iris" = Some df ->
    guard "irisDF" (PDataFrame df) s.

Lemma stable_after_settings : Forall (stable I) (drop 4 notebook).
Proof.
  cbn [drop notebook].
  apply Forall_cons_2; [exact stable_cell_print10X |].
  apply Forall_cons_2; [exact stable_cell_observer |].
  apply Forall_cons_2; [exact stable_cell_print10XPair |].
  apply Forall_cons_2; [exact stable_cell_times10 |].
  apply Forall_cons_2; [exact (stable_cell_birdstrikes guard_birdstrikes) |].
  apply Forall_cons_2; [exact stable_cell_bar |].
  apply Forall_cons_2; [exact stable_cell_bar_titled |].
  apply Forall_cons_2; [exact stable_cell_barChart |].
  apply Forall_cons_2; [exact stable_cell_costRange |].
  apply Forall_cons_2; [exact stable_cell_barChartRanges |].
  apply Forall_cons_2; [exact (stable_cell_iris guard_iris) |].
  apply Forall_cons_2; [exact stable_cell_irisScatter_plain |].
  apply Forall_cons_2; [exact stable_cell_irisScatter |].
  apply Forall_cons_2; [exact stable_cell_irisBrushScatter |].
  apply Forall_cons_2; [exact stable_cell_layered |].
  apply Forall_nil_2.
Qed.

(** All cells, and so every step of a session. *)
Hypothesis benign_data_transformer :
  benign (EnableDataTransformer "vegafusion").
Hypothesis benign_renderer : benign (EnableRenderer "png").

Lemma stable_notebook : Forall (stable I) notebook.
Proof.
  change notebook with (take 4 notebook ++ drop 4 notebook)%list.
  apply Forall_app_2; [| exact stable_after_settings].
  cbn [take notebook].
  apply Forall_cons_2; [exact stable_cell_imports |].
  apply Forall_cons_2; [exact stable_cell_versions |].
  apply Forall_cons_2;
    [exact (stable_cell_data_transformer benign_data_transformer) |].
  apply Forall_cons_2; [exact (stable_cell_renderer benign_renderer) |].
  apply Forall_nil_2.
Qed.

Lemma stable_step st : stable I (step st).
Proof.
  destruct st as [n | ev]; cbn [step]; [| apply stable_handle].
  destruct (notebook !! n) as [c |] eqn:Hc; cbn [default].
  - exact (proj1 (Forall_lookup _ _) stable_notebook n c Hc).
  - by apply stable_pure.
Qed.

Lemma stable_run_steps sts s : I s -> I (run_steps sts s).
Proof.
  revert s. induction sts as [|st sts IH]; intros s Hs; [done |].
  cbn [run_steps foldl]. apply IH. by apply stable_step.
Qed.

End Frame.

(** ** The datasets are only read *)

Lemma call_reads_only (f : Fn) (kw : list (string * pyval)) (s : Session) :
  globals (final (call f kw s)) = globals s
  /\ catalog (final (call f kw s)) = catalog s
  /\ effects (final (call f kw s)) = effects s.
Proof.
  apply (stable_call
           (fun s' => globals s' = globals s /\ catalog s' = catalog s
                      /\ effects s' = effects s)); done.
Qed.

(** C7.  Once both tables are loaded from the catalog, whatever cells
    the user runs and whatever controls the user changes afterwards,
    [birdStrikesDF] and [irisDF] still hold the tables of the catalog,
    the catalog is the same, and no file has been written.  Calling
    any function the notebook defines (among them [barChart],
    [barChartRanges], [irisScatter], [irisBrushScatter]) leaves every
    global name, the catalog and the record of library and file-system
    effects exactly as they were. *)
Theorem datasets_are_only_read
    (s : Session) (b i : pd.DataFrame) (steps : list Step) :
  catalog s !! "birdstrikes" = Some b ->
  catalog s !! "iris" = Some i ->
  globals s !! "birdStrikesDF" = Some (PDataFrame b) ->
  globals s !! "irisDF" = Some (PDataFrame i) ->
  (forall p, WriteFile p ∉ effects s) ->
  (globals (run_steps steps s) !! "birdStrikesDF" = Some (PDataFrame b)
   /\ globals (run_steps steps s) !! "irisDF" = Some (PDataFrame i)
   /\ catalog (run_steps steps s) = catalog s
   /\ forall p, WriteFile p ∉ effects (run_steps steps s))
  /\ (forall f kw s0,
        globals (final (call f kw s0)) = globals s0
        /\ catalog (final (call f kw s0)) = catalog s0
        /\ effects (final (call f kw s0)) = effects s0).
Proof.
  intros Hb Hi Hgb Hgi Hw. split; [| apply call_reads_only].
  apply (stable_run_steps
    (fun s' =>
       globals s' !! "birdStrikesDF" = Some (PDataFrame b)
       /\ globals s' !! "irisDF" = Some (PDataFrame i)
       /\ catalog s' = catalog s
       /\ forall p, WriteFile p ∉ effects s')
    (fun e => forall p, e <> WriteFile p)
    (fun n v s' =>
       catalog s' = catalog s ->
       (n = "birdStrikesDF" -> v = PDataFrame b)
       /\ (n = "irisDF" -> v = PDataFrame i))); try done.
  - intros e s' He (? & ? & ? & Hs'). split_and!; try done.
    intros p. cbn [effects set_effects].
    rewrite elem_of_app, list_elem_of_singleton.
    intros [Hin | Heq]; [by apply (Hs' p) | by apply (He p)].
  - intros n v s' Hguard (Hs1 & Hs2 & Hs3 & Hs4).
    destruct (Hguard Hs3) as [Hn1 Hn2].
    cbn [globals catalog effects set_globals]. split_and!; try done.
    + destruct (decide (n = "birdStrikesDF")) as [-> | Hne].
      * rewrite lookup_insert_eq. by rewrite Hn1.
      * by rewrite lookup_insert_ne.
    + destruct (decide (n = "irisDF")) as [-> | Hne].
      * rewrite lookup_insert_eq. by rewrite Hn2.
      * by rewrite lookup_insert_ne.
  - intros df s' Hdf Hcat. rewrite Hcat, Hb in Hdf. injection Hdf as <-.
    split; [done | discriminate].
  - intros df s' Hdf Hcat. rewrite Hcat, Hi in Hdf. injection Hdf as <-.
    split; [discriminate | done].
Qed.

Lemma sample_effects :
  effects Sample.session
  = [EnableDataTransformer "vegafusion"; EnableRenderer "png";
     FetchDataset "birdstrikes"; FetchDataset "iris"].
Proof. vm_compute. reflexivity. Qed.

Lemma datasets_are_only_read_witness :
  let steps :=
    [RunCell 13; Input (UserInput 6 "costRange" (PInts [1; 3])); RunCell 8;
     Input (UserInput 1 "value" (PStr "abc"))] in
  (globals (run_steps steps Sample.session) !! "birdStrikesDF"
   = Some (PDataFrame Sample.birdstrikes)
   /\ globals (run_steps steps Sample.session) !! "irisDF"
      = Some (PDataFrame Sample.iris)
   /\ catalog (run_steps steps Sample.session) = catalog Sample.session
   /\ forall p, WriteFile p ∉ effects (run_steps steps Sample.session))
  /\ (forall f kw s0,
        globals (final (call f kw s0)) = globals s0
        /\ catalog (final (call f kw s0)) = catalog s0
        /\ effects (final (call f kw s0)) = effects s0).
Proof.
  apply (datasets_are_only_read Sample.session Sample.birdstrikes Sample.iris);
    try (vm_compute; reflexivity).
  intros p. rewrite sample_effects.
  repeat (rewrite elem_of_cons). rewrite elem_of_nil.
  intros [H | [H | [H | [H | H]]]]; (discriminate H || exact H).
Defined.

(** ** Library-level settings *)

Lemma settings_cells_run (cat : gmap string pd.DataFrame) :
  run_cells (take 4 notebook) (fresh cat)
  = set_effects
      [EnableDataTransformer "vegafusion"; EnableRenderer "png"] (fresh cat).
Proof. reflexivity. Qed.

Lemma run_cells_app (cs1 cs2 : list (M unit)) (s : Session) :
  run_cells (cs1 ++ cs2) s = run_cells cs2 (run_cells cs1 s).
Proof. unfold run_cells. apply foldl_app. Qed.

(** C8.  Running the notebook in a fresh session activates exactly two
    library-level settings, the ['vegafusion'] data transformer and the
    ['png'] renderer, in that order.  Whatever cells are run again and
    whatever controls are changed afterwards, every setting ever
    activated is one of these two, and no effect of the session reads
    an environment variable or reads or writes a file. *)
Theorem notebook_activates_two_settings
    (cat : gmap string pd.DataFrame) (steps : list Step) :
  settings (run_cells notebook (fresh cat))
  = [EnableDataTransformer "vegafusion"; EnableRenderer "png"]
  /\ Forall
       (fun e =>
          (is_setting e = true ->
           e = EnableDataTransformer "vegafusion" \/ e = EnableRenderer "png")
          /\ touches_os e = false)
       (effects (run_steps steps (run_cells notebook (fresh cat)))).
Proof.
  change notebook with (take 4 notebook ++ drop 4 notebook)%list at 1 2.
  rewrite !run_cells_app, settings_cells_run.
  set (two := [EnableDataTransformer "vegafusion"; EnableRenderer "png"]).
  split.
  - apply (stable_run_cells (fun s => settings s = two)); [| done].
    apply (stable_after_settings _
             (fun e => is_setting e = false) (fun _ _ _ => True)); try done.
    intros e s He Hs. unfold settings in *. cbn [effects set_effects].
    rewrite filter_app, Hs, filter_cons_False, filter_nil, app_nil_r;
      [done | by rewrite He].
  - set (ok := fun e : Effect =>
          (is_setting e = true ->
           e = EnableDataTransformer "vegafusion" \/ e = EnableRenderer "png")
          /\ touches_os e = false).
    apply (stable_run_steps (fun s => Forall ok (effects s))
             ok (fun _ _ _ => True)); try done.
    + intros e s He Hs. cbn [effects set_effects].
      apply Forall_app_2; [done | by apply Forall_singleton].
    + split; [by left | done].
    + split; [by right | done].
    + apply (stable_run_cells (fun s => Forall ok (effects s))).
      * apply (stable_after_settings _ ok (fun _ _ _ => True)); try done.
        intros e s He Hs. cbn [effects set_effects].
        apply Forall_app_2; [done | by apply Forall_singleton].
      * cbn [effects set_effects]. unfold two.
        repeat apply Forall_cons_2; try apply Forall_nil_2;
          (split; [auto | done]).
Qed.

(** ** The interaction binder *)

Lemma call_run (f : Fn) (kw : list (string * pyval)) (s : Session) :
  call f kw s = apply f kw (set_calls (calls s ++ [(f, kw)]) s).
Proof.
  unfold call. rewrite bind_run. cbn.
  by destruct (apply f kw _) as [r s1 o].
Qed.

(** A call adds exactly one entry to the call log, whether the body
    returns or raises. *)
Lemma call_logs_once (f : Fn) (kw : list (string * pyval)) (s : Session) :
  calls (final (call f kw s)) = (calls s ++ [(f, kw)])%list.
Proof.
  rewrite call_run.
  by apply (stable_apply (fun s' => calls s' = (calls s ++ [(f, kw)])%list)).
Qed.

(** The callbacks handed to [interact] leave the session as it is. *)
Lemma binder_callback_pure (d : BinderDecl) kw (s : Session) :
  d ∈ notebook_binders -> final (apply (decl_fn d) kw s) = s.
Proof.
  intros Hd. symmetry.
  assert (stable (eq s) (apply (decl_fn d) kw)) as H; [| by apply H].
  unfold notebook_binders in Hd.
  repeat (apply elem_of_cons in Hd as [-> | Hd]);
    [.. | by apply elem_of_nil in Hd];
    cbn [decl_fn decl_print10X decl_print10XPair decl_times10 decl_barChart
         decl_barChartRanges apply];
    repeat (lazymatch goal with
            | |- stable _ (mbind _ _) => apply stable_bind; [| intros ?]
            end);
    auto using stable_arg, stable_as_str, stable_as_int, stable_as_pair,
      stable_print10X, stable_print10XPair, stable_times10, stable_barChart,
      stable_barChartRanges.
Qed.

Lemma refresh_run (a : nat) (b : Binder) (s : Session) :
  heap s !! a = Some (OInteract b) ->
  refresh a s
  = match call (fn b) (kwargs (controls b)) s with
    | Raises e s1 o => Raises e s1 o
    | Returns v s1 written =>
        Returns tt
          (set_heap
             (<[a := OInteract {| fn := fn b; controls := controls b;
                                  shown := written ++ shows v |}]> (heap s1))
             s1) []
    end.
Proof.
  intros Ha. unfold refresh. rewrite bind_run, (deref_returns a _ s Ha).
  rewrite bind_run. unfold capture.
  destruct (call (fn b) (kwargs (controls b)) s) as [[e | v] s1 o];
    reflexivity.
Qed.

Lemma interact_run (cs : list (string * widgets.Control)) (f : Fn)
    (s : Session) :
  interact cs f s
  = let a := length (heap s) in
    let fresh_binder := OInteract {| fn := f; controls := cs; shown := [] |} in
    match call f (kwargs cs) (set_heap (heap s ++ [fresh_binder]) s) with
    | Raises e s1 o => Raises e s1 (Displayed (PRef a) :: o)
    | Returns v s1 written =>
        Returns tt
          (set_heap
             (<[a := OInteract {| fn := f; controls := cs;
                                  shown := written ++ shows v |}]> (heap s1))
             s1) [Displayed (PRef a)]
    end.
Proof.
  unfold interact. rewrite bind_run.
  assert (alloc (OInteract {| fn := f; controls := cs; shown := [] |}) s
          = Returns (length (heap s))
              (set_heap (heap s ++ [OInteract {| fn := f; controls := cs;
                                                 shown := [] |}]) s) [])
    as -> by reflexivity.
  rewrite bind_run. cbn [display shows result final output].
  erewrite refresh_run by (cbn [heap set_heap]; by apply list_lookup_middle).
  cbn [fn controls].
  destruct (call f (kwargs cs) _) as [[e | v] s1 o]; reflexivity.
Qed.

Lemma column_dropdown_run (s : Session) (df : pd.DataFrame) :
  globals s !! "birdStrikesDF" = Some (PDataFrame df) ->
  column_dropdown s
  = Returns
      (widgets.Dropdown (pd.columns df) "When__Phase_of_flight" "Column:")
      s [].
Proof. intros H. unfold column_dropdown. runs. Qed.

Lemma costRange_slider_run (s : Session) (lo hi : Z) :
  globals s !! "costRangeInData" = Some (PInts [lo; hi]) ->
  costRange_slider s
  = Returns (widgets.IntRangeSlider (lo, hi) lo hi 1 "Cost range:") s [].
Proof. intros H. unfold costRange_slider. runs. Qed.

(** What each binder of the notebook declares and what its callback
    does on the declared initial values. *)
Lemma binder_initial_run
    (s : Session) (df : pd.DataFrame) (lo hi : Z) (d : BinderDecl) :
  d ∈ notebook_binders ->
  globals s !! "birdStrikesDF" = Some (PDataFrame df) ->
  globals s !! "costCol" = Some (PStr "Cost__Total_$") ->
  globals s !! "costRangeInData" = Some (PInts [lo; hi]) ->
  exists cs v written,
    decl_controls d s = Returns cs s []
    /\ forall s1, globals s1 = globals s ->
         apply (decl_fn d) (kwargs cs) s1 = Returns v s1 written.
Proof.
  intros Hd Hdf Hcol Hrange. unfold notebook_binders in Hd.
  repeat (apply elem_of_cons in Hd as [-> | Hd]);
    [.. | by apply elem_of_nil in Hd];
    cbn [decl_fn decl_controls decl_print10X decl_print10XPair decl_times10
         decl_barChart decl_barChartRanges].
  - exists [("str1", widgets.Text "Hello" "Input string 1:")], PNone,
      ((fun i => Printed (PStr (Py.join " " ["Hello"; Py.str i])))
         <$> Py.range 10).
    split; [reflexivity |]. intros s1 _.
    cbn [kwargs fmap list_fmap fst snd control_value apply].
    eapply returns_eq;
      [ eapply bind_returns; [reflexivity | apply print10X_run]
      | reflexivity .. ].
  - exists [("str1", widgets.Text "Hello" "Input string 1:");
            ("str2", widgets.Text "World!" "Input string 2:")], PNone,
      ((fun i => Printed (PStr (Py.join " " ["Hello"; "World!"; Py.str i])))
         <$> Py.range 10).
    split; [reflexivity |]. intros s1 _.
    cbn [kwargs fmap list_fmap fst snd control_value apply].
    eapply returns_eq;
      [ eapply bind_returns; [reflexivity |];
        eapply bind_returns; [reflexivity | apply print10XPair_run]
      | reflexivity .. ].
  - exists [("x", widgets.IntSlider 7 0 10 1 "x:")], PNone,
      [Printed (PInt 70)].
    split; [reflexivity |]. intros s1 _. reflexivity.
  - exists [("xcol", widgets.Dropdown (pd.columns df)
                       "When__Phase_of_flight" "Column:")],
      (PChart (
         alt.encode [("x", alt.shorthand "When__Phase_of_flight");
                     ("y", alt.shorthand "count()")] (
         alt.mark_bar (
         alt.Chart (Some df) (Some (title_only "Bird Strikes Dataset")))))),
      [].
    split.
    + eapply returns_eq;
        [ eapply bind_returns;
            [by apply column_dropdown_run | reflexivity]
        | reflexivity .. ].
    + intros s1 Hs1. rewrite <- Hs1 in Hdf.
      cbn [kwargs fmap list_fmap fst snd control_value apply].
      eapply returns_eq;
        [ eapply bind_returns; [reflexivity | by apply barChart_run]
        | reflexivity .. ].
  - exists [("xcol", widgets.Dropdown (pd.columns df)
                       "When__Phase_of_flight" "Column:");
            ("costRange", widgets.IntRangeSlider (lo, hi) lo hi 1
                            "Cost range:")],
      (PChart (
         alt.encode [("x", alt.shorthand "When__Phase_of_flight");
                     ("y", alt.shorthand "count()")] (
         alt.mark_bar (
         alt.transform_filter (cost_filter lo hi) (
         alt.Chart (Some df)
           (Some {| alt.text := "Bird Strikes Dataset";
                    alt.subtitle :=
                      Some ("With costs $" +:+ Py.str lo +:+ "–" +:+
                            Py.str hi +:+ "k") |})))))),
      [].
    split.
    + eapply returns_eq;
        [ eapply bind_returns; [by apply column_dropdown_run |];
          eapply bind_returns;
            [by apply costRange_slider_run | reflexivity]
        | reflexivity .. ].
    + intros s1 Hs1. rewrite <- Hs1 in Hdf, Hcol.
      cbn [kwargs fmap list_fmap fst snd control_value apply].
      eapply returns_eq;
        [ eapply bind_returns; [reflexivity |];
          eapply bind_returns;
            [reflexivity | by apply barChartRanges_run]
        | reflexivity .. ].
Qed.

(** First bind of a binder whose callback returns and leaves the
    session alone: one call with the declared values, one new binder
    showing what the call wrote and returned, and the name bound. *)
Lemma bind_cell_run (d : BinderDecl) (s : Session) cs v written :
  decl_controls d s = Returns cs s [] ->
  (forall s1, globals s1 = globals s ->
     apply (decl_fn d) (kwargs cs) s1 = Returns v s1 written) ->
  bind_cell d s
  = Returns tt
      (set_globals (<[decl_name d := PFunction (decl_fn d)]> (globals s))
         (set_heap
            (heap s ++ [OInteract {| fn := decl_fn d; controls := cs;
                                     shown := written ++ shows v |}])
            (set_calls (calls s ++ [(decl_fn d, kwargs cs)]) s)))
      [Displayed (PRef (length (heap s)))].
Proof.
  intros Hcs Happly. unfold bind_cell.
  rewrite bind_run, Hcs, bind_run, interact_run. cbn zeta.
  rewrite call_run, Happly by reflexivity.
  cbn [result final output heap set_heap set_calls assign modify].
  rewrite insert_app_r_alt by done. rewrite Nat.sub_diag.
  reflexivity.
Qed.

(** C3.  In a session where the table, the cost column name and the
    cost range are bound, the first bind of every binder of the
    notebook evaluates its control descriptors, invokes the callback
    exactly once, with the declared initial values of all its
    controls, and creates one binder whose displayed output is what
    the callback writes and returns on those values.  The dropdown
    binder first shows [barChart('When__Phase_of_flight')] and the
    slider binder first shows what [times10(7)] prints, 70. *)
Theorem first_bind_invokes_callback_once
    (s : Session) (df : pd.DataFrame) (lo hi : Z) :
  globals s !! "birdStrikesDF" = Some (PDataFrame df) ->
  globals s !! "costCol" = Some (PStr "Cost__Total_$") ->
  globals s !! "costRangeInData" = Some (PInts [lo; hi]) ->
  (forall d, d ∈ notebook_binders ->
     exists cs v written,
       decl_controls d s = Returns cs s []
       /\ apply (decl_fn d) (kwargs cs) s = Returns v s written
       /\ bind_cell d s
          = Returns tt
              (set_globals
                 (<[decl_name d := PFunction (decl_fn d)]> (globals s))
                 (set_heap
                    (heap s ++ [OInteract {| fn := decl_fn d; controls := cs;
                                             shown := written ++ shows v |}])
                    (set_calls (calls s ++ [(decl_fn d, kwargs cs)]) s)))
              [Displayed (PRef (length (heap s)))])
  /\ (exists c,
        barChart "When__Phase_of_flight" s = Returns (PChart c) s []
        /\ calls (final (bind_cell decl_barChart s))
           = (calls s
              ++ [(fn_barChart, [("xcol", PStr "When__Phase_of_flight")])])%list
        /\ heap (final (bind_cell decl_barChart s)) !! length (heap s)
           = Some (OInteract
                     {| fn := fn_barChart;
                        controls :=
                          [("xcol",
                            widgets.Dropdown (pd.columns df)
                              "When__Phase_of_flight" "Column:")];
                        shown := [Displayed (PChart c)] |}))
  /\ (times10 7 s = Returns PNone s [Printed (PInt 70)]
      /\ calls (final (bind_cell decl_times10 s))
         = (calls s ++ [(fn_times10, [("x", PInt 7)])])%list
      /\ heap (final (bind_cell decl_times10 s)) !! length (heap s)
         = Some (OInteract
                   {| fn := fn_times10;
                      controls := [("x", widgets.IntSlider 7 0 10 1 "x:")];
                      shown := [Printed (PInt 70)] |})).
Proof.
  intros Hdf Hcol Hrange. split; [| split].
  - intros d Hd.
    destruct (binder_initial_run s df lo hi d Hd Hdf Hcol Hrange)
      as (cs & v & written & Hcs & Happly).
    exists cs, v, written. split_and!; [done | by apply Happly |].
    by apply bind_cell_run.
  - eexists. split; [by apply barChart_run |].
    erewrite (bind_cell_run decl_barChart s _ _ []); cycle 1.
    + cbn [decl_controls decl_barChart].
      eapply returns_eq;
        [ eapply bind_returns; [by apply column_dropdown_run | reflexivity]
        | reflexivity .. ].
    + intros s1 Hs1. rewrite <- Hs1 in Hdf.
      cbn [decl_fn decl_barChart kwargs fmap list_fmap fst snd
           control_value apply].
      eapply returns_eq;
        [ eapply bind_returns; [reflexivity | by apply barChart_run]
        | reflexivity .. ].
    + cbn [final calls heap set_globals set_heap set_calls decl_fn
           decl_barChart]. split; [reflexivity |].
      by apply list_lookup_middle.
  - split; [reflexivity |].
    erewrite (bind_cell_run decl_times10 s _ PNone [Printed (PInt 70)]);
      cycle 1.
    + reflexivity.
    + intros s1 _. reflexivity.
    + cbn [final calls heap set_globals set_heap set_calls decl_fn
           decl_times10]. split; [reflexivity |].
      by apply list_lookup_middle.
Qed.

Lemma first_bind_invokes_callback_once_witness :
  let s := Sample.session in
  (forall d, d ∈ notebook_binders ->
     exists cs v written,
       decl_controls d s = Returns cs s []
       /\ apply (decl_fn d) (kwargs cs) s = Returns v s written
       /\ bind_cell d s
          = Returns tt
              (set_globals
                 (<[decl_name d := PFunction (decl_fn d)]> (globals s))
                 (set_heap
                    (heap s ++ [OInteract {| fn := decl_fn d; controls := cs;
                                             shown := written ++ shows v |}])
                    (set_calls (calls s ++ [(decl_fn d, kwargs cs)]) s)))
              [Displayed (PRef (length (heap s)))])
  /\ (exists c,
        barChart "When__Phase_of_flight" s = Returns (PChart c) s []
        /\ calls (final (bind_cell decl_barChart s))
           = (calls s
              ++ [(fn_barChart, [("xcol", PStr "When__Phase_of_flight")])])%list
        /\ heap (final (bind_cell decl_barChart s)) !! length (heap s)
           = Some (OInteract
                     {| fn := fn_barChart;
                        controls :=
                          [("xcol",
                            widgets.Dropdown (pd.columns Sample.birdstrikes)
                              "When__Phase_of_flight" "Column:")];
                        shown := [Displayed (PChart c)] |}))
  /\ (times10 7 s = Returns PNone s [Printed (PInt 70)]
      /\ calls (final (bind_cell decl_times10 s))
         = (calls s ++ [(fn_times10, [("x", PInt 7)])])%list
      /\ heap (final (bind_cell decl_times10 s)) !! length (heap s)
         = Some (OInteract
                   {| fn := fn_times10;
                      controls := [("x", widgets.IntSlider 7 0 10 1 "x:")];
                      shown := [Printed (PInt 70)] |})).
Proof.
  apply (first_bind_invokes_callback_once
           Sample.session Sample.birdstrikes 0 13);
    vm_compute; reflexivity.
Defined.

(** ** Control descriptors *)

Lemma range_slider_in_domain (lo hi : Z) (description : string) :
  lo <= hi ->
  widgets.in_domain (widgets.IntRangeSlider (lo, hi) lo hi 1 description)
  = true.
Proof.
  intros H. unfold widgets.in_domain, widgets.on_grid.
  rewrite !Z.mod_1_r.
  repeat (rewrite bool_decide_eq_true_2 by lia). reflexivity.
Qed.

Lemma dropdown_in_domain (options : list string) (value description : string) :
  value ∈ options ->
  widgets.in_domain (widgets.Dropdown options value description) = true.
Proof. intros H. by apply bool_decide_eq_true_2. Qed.

(** C4.  In the session left by the cost-range cell, on a table that
    has the column ['When__Phase_of_flight'], the notebook constructs
    eight control descriptors.  Each is a text box, an integer slider
    with min, max and step, an integer-pair range slider with min, max
    and step, or a dropdown over a list of options, and all four kinds
    occur.  Each initial value lies in the declared domain: 7 lies
    between 0 and 10, the range slider starts at its own [min, max]
    with [min <= max], and each dropdown starts at a member of its
    options. *)
Theorem control_descriptors_start_in_domain
    (s0 : Session) (df : pd.DataFrame) :
  globals s0 !! "birdStrikesDF" = Some (PDataFrame df) ->
  "When__Phase_of_flight" ∈ pd.columns df ->
  result (cell_costRange s0) = inr tt ->
  exists (lo hi : Z) (cs : list widgets.Control),
    let s := final (cell_costRange s0) in
    notebook_controls s = Returns cs s []
    /\ cs = [ widgets.Text "Hello" "Input string 1:";
              widgets.Text "Hello World!" "Input string:";
              widgets.Text "Hello" "Input string 1:";
              widgets.Text "World!" "Input string 2:";
              widgets.IntSlider 7 0 10 1 "x:";
              widgets.Dropdown (pd.columns df) "When__Phase_of_flight"
                "Column:";
              widgets.Dropdown (pd.columns df) "When__Phase_of_flight"
                "Column:";
              widgets.IntRangeSlider (lo, hi) lo hi 1 "Cost range:" ]
    /\ lo <= hi
    /\ Forall (fun c => widgets.in_domain c = true) cs
    /\ (forall k : widgets.Kind, k ∈ widgets.kind <$> cs).
Proof.
  intros Hdf Hcol Hok.
  destruct (cell_costRange_succeeds s0 df Hdf Hok) as (lo & hi & Hrange).
  pose proof (cost_range_ordered _ _ _ _ Hrange) as Hle.
  rewrite (cell_costRange_run_gen s0 df Hdf), Hrange. cbn [final].
  exists lo, hi. eexists. split; [| split; [reflexivity | split; [exact Hle | split]]].
  - unfold notebook_controls.
    cbn [decl_controls decl_print10X decl_print10XPair decl_times10
         decl_barChart decl_barChartRanges].
    eapply returns_eq;
      [ eapply bind_returns; [reflexivity |];
        eapply bind_returns; [reflexivity |];
        eapply bind_returns; [reflexivity |];
        eapply bind_returns;
          [ eapply bind_returns;
              [apply column_dropdown_run; lookup | reflexivity ] |];
        eapply bind_returns;
          [ eapply bind_returns; [apply column_dropdown_run; lookup |];
            eapply bind_returns;
              [apply costRange_slider_run; lookup | reflexivity ] |];
        reflexivity
      | reflexivity .. ].
  - repeat apply Forall_cons_2; try apply Forall_nil_2; try reflexivity.
    + by apply dropdown_in_domain.
    + by apply dropdown_in_domain.
    + by apply range_slider_in_domain.
  - intros []; cbn; set_solver.
Qed.

Lemma control_descriptors_start_in_domain_witness :
  exists (lo hi : Z) (cs : list widgets.Control),
    let s := final (cell_costRange Sample.session) in
    notebook_controls s = Returns cs s []
    /\ cs = [ widgets.Text "Hello" "Input string 1:";
              widgets.Text "Hello World!" "Input string:";
              widgets.Text "Hello" "Input string 1:";
              widgets.Text "World!" "Input string 2:";
              widgets.IntSlider 7 0 10 1 "x:";
              widgets.Dropdown (pd.columns Sample.birdstrikes)
                "When__Phase_of_flight" "Column:";
              widgets.Dropdown (pd.columns Sample.birdstrikes)
                "When__Phase_of_flight" "Column:";
              widgets.IntRangeSlider (lo, hi) lo hi 1 "Cost range:" ]
    /\ lo <= hi
    /\ Forall (fun c => widgets.in_domain c = true) cs
    /\ (forall k : widgets.Kind, k ∈ widgets.kind <$> cs).
Proof.
  apply (control_descriptors_start_in_domain Sample.session Sample.birdstrikes).
  - vm_compute. reflexivity.
  - apply (bool_decide_unpack _). vm_compute. reflexivity.
  - vm_compute. reflexivity.
Defined.

(** ** A callback that raises *)

Lemma call_raises_logs_once f kw s e s1 o :
  call f kw s = Raises e s1 o -> calls s1 = (calls s ++ [(f, kw)])%list.
Proof. intros H. by rewrite <- (call_logs_once f kw s), H. Qed.

Lemma binder_call_raises_pure (d : BinderDecl) kw s e s1 o :
  d ∈ notebook_binders ->
  call (decl_fn d) kw s = Raises e s1 o ->
  s1 = set_calls (calls s ++ [(decl_fn d, kw)]) s.
Proof.
  intros Hd H. rewrite call_run in H.
  pose proof (binder_callback_pure d kw
                (set_calls (calls s ++ [(decl_fn d, kw)]) s) Hd) as Hpure.
  by rewrite H in Hpure.
Qed.

Lemma bind_cell_raises (d : BinderDecl) (s : Session) cs e s1 o :
  decl_controls d s = Returns cs s [] ->
  call (decl_fn d) (kwargs cs)
    (set_heap (heap s ++ [OInteract {| fn := decl_fn d; controls := cs;
                                       shown := [] |}]) s)
  = Raises e s1 o ->
  bind_cell d s = Raises e s1 (Displayed (PRef (length (heap s))) :: o).
Proof.
  intros Hcs Hcall. unfold bind_cell.
  rewrite bind_run, Hcs, bind_run, interact_run. cbn zeta.
  by rewrite Hcall.
Qed.

Lemma handle_raises (a : nat) (b : Binder) name v cs (s : Session) e s1 o :
  heap s !! a = Some (OInteract b) ->
  update_control name v (controls b) = Some cs ->
  call (fn b) (kwargs cs)
    (set_heap (<[a := OInteract {| fn := fn b; controls := cs;
                                   shown := shown b |}]> (heap s)) s)
  = Raises e s1 o ->
  handle (UserInput a name v) s = Raises e s1 o.
Proof.
  intros Ha Hcs Hcall. unfold handle.
  rewrite bind_run, (deref_returns a _ s Ha). rewrite Hcs, bind_run.
  cbn [store modify result final output].
  erewrite refresh_run; cycle 1.
  { cbn [heap set_heap]. apply list_lookup_insert_eq.
    by apply lookup_lt_Some in Ha. }
  cbn [fn controls]. by rewrite Hcall.
Qed.

(** C5.  When the callback of a binder raises, on first bind or after
    a control change, the same exception comes out of the cell or of
    the event, with the session and the output exactly as the callback
    left them: nothing catches it or turns it into another error.  The
    callback was invoked once and is not invoked again, and for the
    binders of the notebook the binder keeps what it showed before:
    nothing new is displayed and, on first bind, the function name
    stays unbound.  The same holds for an observer registered on a
    stand-alone control: its exception comes out of the event
    unchanged after a single invocation. *)
Theorem callback_exception_propagates :
  (forall (d : BinderDecl) (s : Session) cs e s1 o,
     d ∈ notebook_binders ->
     decl_controls d s = Returns cs s [] ->
     call (decl_fn d) (kwargs cs)
       (set_heap (heap s ++ [OInteract {| fn := decl_fn d; controls := cs;
                                          shown := [] |}]) s)
     = Raises e s1 o ->
     bind_cell d s = Raises e s1 (Displayed (PRef (length (heap s))) :: o)
     /\ calls s1 = (calls s ++ [(decl_fn d, kwargs cs)])%list
     /\ globals s1 = globals s
     /\ heap s1 !! length (heap s)
        = Some (OInteract {| fn := decl_fn d; controls := cs;
                             shown := [] |}))
  /\ (forall (d : BinderDecl) (a : nat) (b : Binder) name v cs
             (s : Session) e s1 o,
        d ∈ notebook_binders ->
        fn b = decl_fn d ->
        heap s !! a = Some (OInteract b) ->
        update_control name v (controls b) = Some cs ->
        call (fn b) (kwargs cs)
          (set_heap (<[a := OInteract {| fn := fn b; controls := cs;
                                         shown := shown b |}]> (heap s)) s)
        = Raises e s1 o ->
        handle (UserInput a name v) s = Raises e s1 o
        /\ calls s1 = (calls s ++ [(fn b, kwargs cs)])%list
        /\ globals s1 = globals s
        /\ heap s1 !! a
           = Some (OInteract {| fn := fn b; controls := cs;
                                shown := shown b |}))
  /\ (forall (a : nat) c c' (f : Fn) rest v (s : Session) e s1 o,
        heap s !! a = Some (OControl c (f :: rest)) ->
        user_set c v = Some c' ->
        call f [("change",
                 PChange "value" (control_value c) (control_value c')
                   a "change")]
          (set_heap (<[a := OControl c' (f :: rest)]> (heap s)) s)
        = Raises e s1 o ->
        handle (UserInput a "value" v) s = Raises e s1 o
        /\ calls s1
           = (calls s
              ++ [(f, [("change",
                        PChange "value" (control_value c) (control_value c')
                          a "change")])])%list).
Proof.
  split; [| split].
  - intros d s cs e s1 o Hd Hcs Hcall.
    split; [by apply (bind_cell_raises d s cs) |].
    pose proof (binder_call_raises_pure d _ _ _ _ _ Hd Hcall) as ->.
    cbn [calls globals heap set_calls set_heap]. split_and!; try done.
    by apply list_lookup_middle.
  - intros d a b name v cs s e s1 o Hd Hfn Ha Hcs Hcall.
    split; [by apply (handle_raises a b name v cs) |].
    rewrite Hfn in Hcall.
    pose proof (binder_call_raises_pure d _ _ _ _ _ Hd Hcall) as ->.
    cbn [calls globals heap set_calls set_heap]. rewrite Hfn.
    split_and!; try done.
    apply list_lookup_insert_eq. by apply lookup_lt_Some in Ha.
  - intros a c c' f rest v s e s1 o Ha Hset Hcall.
    split; [| by apply (call_raises_logs_once _ _ _ _ _ _ Hcall)].
    unfold handle.
    rewrite bind_run, (deref_returns a _ s Ha).
    rewrite decide_True by reflexivity. rewrite Hset, bind_run.
    cbn [store modify result final output for_].
    rewrite bind_run, bind_run, Hcall. reflexivity.
Qed.

Lemma callback_exception_propagates_witness :
  let s := Sample.no_cost_column in
  let bound :=
    set_heap
      (heap s ++ [OInteract {| fn := fn_barChartRanges;
                               controls := Sample.range_controls 0 13;
                               shown := [] |}]) s in
  let changed :=
    set_heap
      (<[6%nat := OInteract {| fn := fn Sample.range_binder;
                               controls := Sample.range_controls 1 3;
                               shown := shown Sample.range_binder |}]>
         (heap s)) s in
  bind_cell decl_barChartRanges s
  = Raises (NameError "costCol")
      (set_calls
         (calls bound
          ++ [(fn_barChartRanges, kwargs (Sample.range_controls 0 13))])
         bound)
      [Displayed (PRef (length (heap s)))]
  /\ handle (UserInput 6 "costRange" (PInts [1; 3])) s
     = Raises (NameError "costCol")
         (set_calls
            (calls changed
             ++ [(fn_barChartRanges, kwargs (Sample.range_controls 1 3))])
            changed)
         [].
Proof.
  intros s bound changed. split.
  - refine (proj1 (proj1 callback_exception_propagates
              decl_barChartRanges s (Sample.range_controls 0 13)
              (NameError "costCol") _ [] _ _ _)).
    + do 4 apply list_elem_of_further. apply list_elem_of_here.
    + vm_compute. reflexivity.
    + vm_compute. reflexivity.
  - refine (proj1 (proj1 (proj2 callback_exception_propagates)
              decl_barChartRanges 6%nat Sample.range_binder
              "costRange" (PInts [1; 3]) (Sample.range_controls 1 3)
              s (NameError "costCol") _ [] _ _ _ _ _)).
    + do 4 apply list_elem_of_further. apply list_elem_of_here.
    + vm_compute. reflexivity.
    + vm_compute. reflexivity.
    + vm_compute. reflexivity.
    + vm_compute. reflexivity.
Defined.

(** ** Further consequences *)

(** Registering the observer of lines 75-90 invokes nothing. *)
Lemma cell_observer_invokes_nothing (s : Session) :
  calls (final (cell_observer s)) = calls s.
Proof.
  apply (stable_cell_observer (fun s' => calls s' = calls s)
           (fun _ _ _ => True)); done.
Qed.

(** A control change on a binder whose callback returns and leaves
    the session alone: one more call, with all current values, and the
    binder shows the new result instead of the previous one. *)
Lemma handle_binder_run
    (a : nat) (b : Binder) name v cs (s : Session) w written :
  heap s !! a = Some (OInteract b) ->
  update_control name v (controls b) = Some cs ->
  (forall s1, globals s1 = globals s ->
     apply (fn b) (kwargs cs) s1 = Returns w s1 written) ->
  handle (UserInput a name v) s
  = Returns tt
      (set_heap
         (<[a := OInteract {| fn := fn b; controls := cs;
                              shown := written ++ shows w |}]> (heap s))
         (set_calls (calls s ++ [(fn b, kwargs cs)]) s))
      [].
Proof.
  intros Ha Hcs Happly.
  assert (Hlt : (a < length (heap s))%nat) by by apply lookup_lt_Some in Ha.
  unfold handle. rewrite bind_run, (deref_returns a _ s Ha).
  rewrite Hcs, bind_run. cbn [store modify result final output].
  erewrite refresh_run
    by (cbn [heap set_heap]; by apply list_lookup_insert_eq).
  cbn [fn controls]. rewrite call_run, Happly by reflexivity.
  cbn [result final output heap set_heap set_calls].
  by rewrite list_insert_insert_eq.
Qed.

Lemma user_set_dropdown options old description (x : string) :
  x ∈ options ->
  user_set (widgets.Dropdown options old description) (PStr x)
  = Some (widgets.Dropdown options x description).
Proof.
  intros Hx. unfold user_set. cbn [mbind option_bind widgets.in_domain].
  by rewrite bool_decide_eq_true_2.
Qed.

(** Selecting a column in the dropdown of the bar chart binder invokes
    [barChart] once more and shows a chart whose x channel is the
    selected column in place of the previous one. *)
Lemma dropdown_selection_rerenders
    (s : Session) (a : nat) (df : pd.DataFrame) options old description
    previous (xcol : string) :
  heap s !! a
  = Some (OInteract
            {| fn := fn_barChart;
               controls :=
                 [("xcol", widgets.Dropdown options old description)];
               shown := previous |}) ->
  xcol ∈ options ->
  globals s !! "birdStrikesDF" = Some (PDataFrame df) ->
  exists c,
    barChart xcol s = Returns (PChart c) s []
    /\ alt.encoding c !! "x" = Some (alt.shorthand xcol)
    /\ handle (UserInput a "xcol" (PStr xcol)) s
       = Returns tt
           (set_heap
              (<[a := OInteract
                        {| fn := fn_barChart;
                           controls :=
                             [("xcol",
                               widgets.Dropdown options xcol description)];
                           shown := [Displayed (PChart c)] |}]> (heap s))
              (set_calls (calls s ++ [(fn_barChart, [("xcol", PStr xcol)])])
                 s))
           [].
Proof.
  intros Ha Hin Hdf. eexists. split; [by apply barChart_run |].
  split; [reflexivity |].
  eapply (handle_binder_run a _ "xcol" (PStr xcol)
            [("xcol", widgets.Dropdown options xcol description)] s
            (PChart _) [] Ha).
  - cbn [controls update_control]. rewrite decide_True by reflexivity.
    by rewrite (user_set_dropdown _ _ _ _ Hin).
  - intros s1 Hs1. rewrite <- Hs1 in Hdf.
    cbn [fn kwargs fmap list_fmap fst snd control_value apply].
    eapply returns_eq;
      [ eapply bind_returns; [reflexivity | by apply barChart_run]
      | reflexivity .. ].
Qed.

(** On the sample catalog, one pass over the notebook invokes each
    callback once, with its declared initial values. *)
Example sample_calls :
  calls Sample.session
  = [ (fn_print10X, [("str1", PStr "Hello")]);
      (fn_print10XPair, [("str1", PStr "Hello"); ("str2", PStr "World!")]);
      (fn_times10, [("x", PInt 7)]);
      (fn_barChart, [("xcol", PStr "When__Phase_of_flight")]);
      (fn_barChartRanges,
       [("xcol", PStr "When__Phase_of_flight"); ("costRange", PInts [0; 13])]);
      (fn_irisScatter_plain, []);
      (fn_irisScatter, []);
      (fn_irisBrushScatter, []) ].
Proof. vm_compute. reflexivity. Qed.

(** Typing into the stand-alone text box prints the change and ten
    lines into the output widget. *)
Example sample_observer_output :
  heap (final (handle (UserInput 1 "value" (PStr "abc")) Sample.session))
    !! 2%nat
  = Some (OOutput
            (Printed (PChange "value" (PStr "Hello World!") (PStr "abc")
                        1 "change")
             :: ((fun i => Printed (PStr ("abc " +:+ Py.str i)))
                   <$> Py.range 10))).
Proof. vm_compute. reflexivity. Qed.

(** * Further properties of the notebook's code *)

(** ** The cost range and the cost filter *)

(** A cost that occurs in the column read from the table is the cost
    of one of its records. *)
Lemma column_cost_has_record
    (rs : list (gmap string pd.cell)) (zs : list Z) (c : Z) :
  Forall2 (fun r z => r !! "Cost__Total_$" = Some (pd.CInt z)) rs zs ->
  c ∈ zs ->
  exists r, r ∈ rs /\ r !! "Cost__Total_$" = Some (pd.CInt c).
Proof.
  induction 1 as [|r z rs zs Hr _ IH]; intros Hc; [by apply elem_of_nil in Hc |].
  apply elem_of_cons in Hc as [-> | Hc].
  - exists r. split; [apply list_elem_of_here | done].
  - destruct (IH Hc) as (r' & Hin & Hr'). exists r'.
    split; [by apply list_elem_of_further | done].
Qed.

(** X1.  On a cost column of integers of at most 53 bits, the range
    computed by the cost-range cell is the tightest range of whole
    thousands around the data: it starts at most one thousand below
    the cheapest record and ends at most one thousand above the
    dearest, so raising the lower end by one, or lowering the upper
    end by one, makes the filter drop a record of the table. *)
Theorem cost_range_is_tight
    (s0 : Session) (df : pd.DataFrame) (column : list Z) :
  globals s0 !! "birdStrikesDF" = Some (PDataFrame df) ->
  pd.getitem df "Cost__Total_$" = inr (pd.Int64 column) ->
  Forall (fun cost => Z.abs cost <= 2 ^ 53) column ->
  result (cell_costRange s0) = inr tt ->
  exists (lo hi least greatest : Z) (cheapest dearest : gmap string pd.cell),
    globals (final (cell_costRange s0)) !! "costRangeInData"
    = Some (PInts [lo; hi])
    /\ cheapest ∈ pd.records df
    /\ cheapest !! "Cost__Total_$" = Some (pd.CInt least)
    /\ dearest ∈ pd.records df
    /\ dearest !! "Cost__Total_$" = Some (pd.CInt greatest)
    /\ lo * 1000 <= least < (lo + 1) * 1000
    /\ (hi - 1) * 1000 < greatest <= hi * 1000
    /\ (forall sel, alt.keeps sel (cost_filter (lo + 1) hi) cheapest = false)
    /\ (forall sel, alt.keeps sel (cost_filter lo (hi - 1)) dearest = false).
Proof.
  intros Hdf Hget Hsmall Hok.
  destruct (int64_column_nonempty s0 df column Hdf Hget Hok)
    as (z & zs & ->).
  rewrite (cell_costRange_run s0 df z zs Hdf Hget Hsmall). cbn [final].
  destruct (getitem_int64 _ _ _ Hget) as [_ Hrs].
  destruct (column_cost_has_record _ _ _ Hrs (min_is_attained z zs))
    as (cheapest & Hc1 & Hc2).
  destruct (column_cost_has_record _ _ _ Hrs (max_is_attained z zs))
    as (dearest & Hd1 & Hd2).
  pose proof (Z.div_mod (foldr Z.min z zs) 1000 ltac:(lia)) as Hlo1.
  pose proof (Z.mod_pos_bound (foldr Z.min z zs) 1000 ltac:(lia)) as Hlo2.
  pose proof (Z.div_mod (- foldr Z.max z zs) 1000 ltac:(lia)) as Hhi1.
  pose proof (Z.mod_pos_bound (- foldr Z.max z zs) 1000 ltac:(lia)) as Hhi2.
  eexists _, _, _, _, cheapest, dearest.
  split; [lookup |]. split_and!; try done; try lia.
  - intros sel. apply not_true_is_false.
    rewrite (cost_filter_keeps sel _ _ _ _ Hc2). lia.
  - intros sel. apply not_true_is_false.
    rewrite (cost_filter_keeps sel _ _ _ _ Hd2). lia.
Qed.

Lemma cost_range_is_tight_witness :
  exists (lo hi least greatest : Z) (cheapest dearest : gmap string pd.cell),
    globals (final (cell_costRange Sample.session)) !! "costRangeInData"
    = Some (PInts [lo; hi])
    /\ cheapest ∈ pd.records Sample.birdstrikes
    /\ cheapest !! "Cost__Total_$" = Some (pd.CInt least)
    /\ dearest ∈ pd.records Sample.birdstrikes
    /\ dearest !! "Cost__Total_$" = Some (pd.CInt greatest)
    /\ lo * 1000 <= least < (lo + 1) * 1000
    /\ (hi - 1) * 1000 < greatest <= hi * 1000
    /\ (forall sel, alt.keeps sel (cost_filter (lo + 1) hi) cheapest = false)
    /\ (forall sel, alt.keeps sel (cost_filter lo (hi - 1)) dearest = false).
Proof.
  apply (cost_range_is_tight Sample.session Sample.birdstrikes
           [0; 2500; 12001]).
  - vm_compute. reflexivity.
  - vm_compute. reflexivity.
  - apply (bool_decide_unpack _). vm_compute. reflexivity.
  - vm_compute. reflexivity.
Defined.







(** A record that passes a cost filter has an integer cost. *)
Lemma cost_filter_keeps_integer
    (sel : alt.Selections) (lo hi : Z) (r : gmap string pd.cell) :
  alt.keeps sel (cost_filter lo hi) r = true ->
  exists cost, r !! "Cost__Total_$" = Some (pd.CInt cost).
Proof.
  unfold cost_filter, alt.keeps. cbn [alt.eval].
  destruct (r !! "Cost__Total_$") as [[cost | |] |]; try discriminate.
  by exists cost.
Qed.

(** X3.  Narrowing the cost range only removes rows: for
    [lo <= lo'] and [hi' <= hi], the rows drawn by
    [barChartRanges(xcol, (lo', hi'))] are the rows drawn by
    [barChartRanges(xcol, (lo, hi))] filtered once more, in the same
    order, and both are sublists of the rows of the table. *)
Theorem narrower_range_draws_sublist
    (s : Session) (df : pd.DataFrame) (xcol : string) (lo hi lo' hi' : Z) :
  globals s !! "birdStrikesDF" = Some (PDataFrame df) ->
  globals s !! "costCol" = Some (PStr "Cost__Total_$") ->
  lo <= lo' ->
  hi' <= hi ->
  exists wide narrow : alt.ChartSpec,
    barChartRanges xcol (lo, hi) s = Returns (PChart wide) s []
    /\ barChartRanges xcol (lo', hi') s = Returns (PChart narrow) s []
    /\ forall sel,
         alt.rows sel narrow
         = filter (fun r => alt.keeps sel (cost_filter lo' hi') r = true)
             (alt.rows sel wide)
         /\ alt.rows sel narrow `sublist_of` alt.rows sel wide
         /\ alt.rows sel wide `sublist_of` pd.records df.
Proof.
  intros Hdf Hcol Hlo Hhi. do 2 eexists.
  split; [by apply barChartRanges_run |].
  split; [by apply barChartRanges_run |].
  intros sel. rewrite !rows_single_filter.
  assert (Heq :
    filter (fun r => alt.keeps sel (cost_filter lo' hi') r = true)
      (pd.records df)
    = filter (fun r => alt.keeps sel (cost_filter lo' hi') r = true)
        (filter (fun r => alt.keeps sel (cost_filter lo hi) r = true)
           (pd.records df))).
  { symmetry. apply list_filter_filter_l. intros r Hr.
    destruct (cost_filter_keeps_integer sel _ _ r Hr) as [cost Hcost].
    apply (cost_filter_keeps sel _ _ cost r Hcost) in Hr.
    apply (cost_filter_keeps sel _ _ cost r Hcost). lia. }
  split; [exact Heq |]. split.
  - rewrite Heq. apply sublist_filter.
  - apply sublist_filter.
Qed.

Lemma narrower_range_draws_sublist_witness :
  exists wide narrow : alt.ChartSpec,
    barChartRanges "When__Phase_of_flight" (0, 13) Sample.session
    = Returns (PChart wide) Sample.session []
    /\ barChartRanges "When__Phase_of_flight" (1, 3) Sample.session
       = Returns (PChart narrow) Sample.session []
    /\ forall sel,
         alt.rows sel narrow
         = filter (fun r => alt.keeps sel (cost_filter 1 3) r = true)
             (alt.rows sel wide)
         /\ alt.rows sel narrow `sublist_of` alt.rows sel wide
         /\ alt.rows sel wide `sublist_of` pd.records Sample.birdstrikes.
Proof.
  apply (narrower_range_draws_sublist Sample.session Sample.birdstrikes);
    first [lia | vm_compute; reflexivity].
Defined.

(** X4.  With the ends of the range crossed, [lo > hi], the chart of
    [barChartRanges] draws no row at all, whatever the table holds. *)
Theorem crossed_range_draws_nothing
    (s : Session) (df : pd.DataFrame) (xcol : string) (lo hi : Z) :
  globals s !! "birdStrikesDF" = Some (PDataFrame df) ->
  globals s !! "costCol" = Some (PStr "Cost__Total_$") ->
  hi < lo ->
  exists c : alt.ChartSpec,
    barChartRanges xcol (lo, hi) s = Returns (PChart c) s []
    /\ forall sel, alt.rows sel c = [].
Proof.
  intros Hdf Hcol Hcross. eexists.
  split; [by apply barChartRanges_run |].
  intros sel. rewrite rows_single_filter.
  induction (pd.records df) as [|r rs IH]; [done |].
  rewrite filter_cons_False; [done |].
  intros Hr.
  destruct (cost_filter_keeps_integer sel _ _ r Hr) as [cost Hcost].
  apply (cost_filter_keeps sel _ _ cost r Hcost) in Hr. lia.
Qed.

Lemma crossed_range_draws_nothing_witness :
  exists c : alt.ChartSpec,
    barChartRanges "When__Phase_of_flight" (3, 1) Sample.session
    = Returns (PChart c) Sample.session []
    /\ forall sel, alt.rows sel c = [].
Proof.
  apply (crossed_range_draws_nothing Sample.session Sample.birdstrikes);
    first [lia | vm_compute; reflexivity].
Defined.

(** ** Rebinding a name, and the observer *)

Lemma alloc_returns (o : Obj) (s : Session) :
  alloc o s = Returns (length (heap s)) (set_heap (heap s ++ [o]) s) [].
Proof. reflexivity. Qed.

Lemma assign_returns (name : string) (v : pyval) (s : Session) :
  assign name v s
  = Returns tt (set_globals (<[name := v]> (globals s)) s) [].
Proof. reflexivity. Qed.

Lemma store_returns (a : nat) (o : Obj) (s : Session) :
  store a o s = Returns tt (set_heap (<[a := o]> (heap s)) s) [].
Proof. reflexivity. Qed.

Lemma cell_observer_run (s : Session) :
  cell_observer s
  = Returns tt
      (set_heap
         (heap s ++ [OControl textWidget_control [fn_print10X_observer];
                     OOutput []])
         (set_globals
            (<["print10X" := PFunction fn_print10X_observer]>
               (<["output" := PRef (S (length (heap s)))]>
                  (<["textWidget" := PRef (length (heap s))]> (globals s))))
            s))
      [Displayed (PRef (length (heap s)));
       Displayed (PRef (S (length (heap s))))].
Proof.
  unfold cell_observer.
  eapply returns_eq.
  - eapply bind_returns; [apply alloc_returns |].
    eapply bind_returns; [apply assign_returns |].
    eapply bind_returns; [apply alloc_returns |].
    eapply bind_returns; [apply assign_returns |].
    eapply bind_returns;
      [eapply bind_returns; [apply global_returns; lookup | reflexivity] |].
    eapply bind_returns;
      [eapply bind_returns; [apply global_returns; lookup | reflexivity] |].
    eapply bind_returns; [apply assign_returns |].
    eapply bind_returns; [apply global_returns; lookup |].
    eapply bind_returns; [apply global_returns; lookup |].
    cbn beta. unfold observe.
    eapply bind_returns.
    + apply deref_returns. cbn [heap set_globals set_heap].
      rewrite <- app_assoc. by apply list_lookup_middle.
    + apply store_returns.
  - reflexivity.
  - cbn [heap globals set_globals set_heap].
    rewrite length_app, Nat.add_1_r, <- app_assoc.
    rewrite insert_app_r_alt, Nat.sub_diag by done.
    reflexivity.
  - cbn [app shows]. by rewrite length_app, Nat.add_1_r.
Qed.

(** The ten lines [print10X] prints for a text. *)
Lemma apply_print10X (text : string) (s : Session) :
  apply fn_print10X [("str1", PStr text)] s
  = Returns PNone s
      ((fun i => Printed (PStr (Py.join " " [text; Py.str i])))
         <$> Py.range 10).
Proof.
  cbn [apply].
  eapply returns_eq;
    [ eapply bind_returns; [reflexivity | apply print10X_run]
    | reflexivity .. ].
Qed.

(** X5.  The second [def print10X] (line 83) rebinds the global name
    and nothing else: after the two cells the name [print10X] is the
    observer, which has not been invoked, while the binder created by
    the first cell still holds the first function, so a change of its
    text box shows the ten lines of the first [print10X] for the new
    text.  The binder is the widget library's, as [interact] and
    [handle] model it. *)
Theorem second_def_rebinds_the_name_only (s : Session) (text : string) :
  let s1 := final (cell_print10X s) in
  let s2 := final (cell_observer s1) in
  let lines (t : string) :=
    (fun i => Printed (PStr (Py.join " " [t; Py.str i]))) <$> Py.range 10 in
  result (cell_print10X s) = inr tt
  /\ result (cell_observer s1) = inr tt
  /\ globals s1 !! "print10X" = Some (PFunction fn_print10X)
  /\ globals s2 !! "print10X" = Some (PFunction fn_print10X_observer)
  /\ heap s2
     = (heap s
        ++ [ OInteract
               {| fn := fn_print10X;
                  controls :=
                    [("str1", widgets.Text "Hello" "Input string 1:")];
                  shown := lines "Hello" |};
             OControl textWidget_control [fn_print10X_observer];
             OOutput [] ])%list
  /\ calls s2 = (calls s ++ [(fn_print10X, [("str1", PStr "Hello")])])%list
  /\ result (handle (UserInput (length (heap s)) "str1" (PStr text)) s2)
     = inr tt
  /\ heap (final (handle (UserInput (length (heap s)) "str1" (PStr text)) s2))
       !! length (heap s)
     = Some (OInteract
               {| fn := fn_print10X;
                  controls :=
                    [("str1", widgets.Text text "Input string 1:")];
                  shown := lines text |}).
Proof.
  intros s1 s2 lines.
  assert (Hs1 : cell_print10X s
    = Returns tt
        (set_globals (<["print10X" := PFunction fn_print10X]> (globals s))
           (set_heap
              (heap s
               ++ [OInteract
                     {| fn := fn_print10X;
                        controls :=
                          [("str1", widgets.Text "Hello" "Input string 1:")];
                        shown := lines "Hello" ++ shows PNone |}])
              (set_calls (calls s ++ [(fn_print10X, [("str1", PStr "Hello")])])
                 s)))
        [Displayed (PRef (length (heap s)))]).
  { apply (bind_cell_run decl_print10X s
             [("str1", widgets.Text "Hello" "Input string 1:")] PNone
             (lines "Hello")); [reflexivity |].
    intros s' _. apply apply_print10X. }
  subst s2 s1. rewrite Hs1. cbn [final result].
  rewrite cell_observer_run. cbn [final result].
  cbn [heap globals calls set_globals set_heap set_calls shows].
  rewrite app_nil_r, <- app_assoc, length_app, Nat.add_1_r.
  cbn [app].
  set (binder := {| fn := fn_print10X;
                    controls :=
                      [("str1", widgets.Text "Hello" "Input string 1:")];
                    shown := lines "Hello" |}).
  split_and!; try reflexivity; try lookup.
  - erewrite (handle_binder_run (length (heap s)) binder "str1" (PStr text)
                [("str1", widgets.Text text "Input string 1:")] _ PNone
                (lines text)); [reflexivity | | reflexivity | ].
    + cbn [heap set_heap]. by apply list_lookup_middle.
    + intros s' _. apply apply_print10X.
  - erewrite (handle_binder_run (length (heap s)) binder "str1" (PStr text)
                [("str1", widgets.Text text "Input string 1:")] _ PNone
                (lines text)); cycle 1.
    + cbn [heap set_heap]. by apply list_lookup_middle.
    + reflexivity.
    + intros s' _. apply apply_print10X.
    + cbn [final heap set_heap set_calls fn shows]. rewrite app_nil_r.
      apply list_lookup_insert_eq. rewrite length_app. cbn. lia.
Qed.

(** A loop whose body, at every element, writes one item and leaves
    the session alone. *)
Lemma for_emits {A} (body : A -> M unit) (g : A -> Out) (xs : list A)
    (s : Session) :
  (forall x, body x s = Returns tt s [g x]) ->
  for_ xs body s = Returns tt s (g <$> xs).
Proof.
  intros Hbody. induction xs as [|x xs IH]; [reflexivity |].
  cbn [for_]. by erewrite bind_returns by (apply Hbody || exact IH).
Qed.

(** X6.  The observer of lines 83-88, given the change of a text value
    to [new], writes nothing to the cell: it appends to the output
    widget bound to [output], after what the widget already holds, the
    change followed by the ten lines [new 0] ... [new 9], and returns
    [None].  Nothing else in the session changes. *)
Theorem observer_appends_to_output_widget
    (s : Session) (o : nat) (content : list Out)
    (name : string) (old : pyval) (new : string) (owner : nat)
    (type : string) :
  globals s !! "output" = Some (PRef o) ->
  heap s !! o = Some (OOutput content) ->
  print10X_observer (PChange name old (PStr new) owner type) s
  = Returns PNone
      (set_heap
         (<[o := OOutput
                   (content
                    ++ Printed (PChange name old (PStr new) owner type)
                       :: ((fun i =>
                              Printed (PStr (Py.join " " [new; Py.str i])))
                             <$> Py.range 10))]> (heap s))
         s)
      [].
Proof.
  intros Hout Ho. unfold print10X_observer.
  eapply returns_eq.
  - eapply bind_returns; [reflexivity |].
    eapply bind_returns; [by apply global_returns |].
    eapply bind_returns; [| reflexivity].
    unfold with_output.
    eapply bind_returns; [by apply deref_returns |].
    cbn beta iota.
    erewrite (bind_returns (print _) _ s);
      [| reflexivity
       | apply (for_emits _
                  (fun i => Printed (PStr (Py.join " " [new; Py.str i]))));
         intros i; reflexivity ].
    cbn [result final output]. apply store_returns.
  - reflexivity.
  - cbn [app]. by rewrite app_nil_r.
  - reflexivity.
Qed.

Lemma observer_appends_to_output_widget_witness :
  print10X_observer
    (PChange "value" (PStr "Hello World!") (PStr "abc") 1 "change")
    Sample.session
  = Returns PNone
      (set_heap
         (<[2%nat := OOutput
                   ([]
                    ++ Printed
                         (PChange "value" (PStr "Hello World!") (PStr "abc")
                            1 "change")
                       :: ((fun i =>
                              Printed (PStr (Py.join " " ["abc"; Py.str i])))
                             <$> Py.range 10))]> (heap Sample.session))
         Sample.session)
      [].
Proof.
  apply (observer_appends_to_output_widget Sample.session 2 []);
    vm_compute; reflexivity.
Defined.

(** ** Cells that run too early *)



(** X8.  With the table loaded but the cost-range cell not yet run,
    the range binder cell raises [NameError] for [costRangeInData] and
    leaves the session as it was; with the range bound but [costCol]
    unbound, [barChartRanges] itself raises [NameError] for [costCol]
    and leaves the session as it was. *)
Theorem range_binder_needs_the_cost_range
    (s : Session) (df : pd.DataFrame) (xcol : string) (costRange : Z * Z) :
  globals s !! "birdStrikesDF" = Some (PDataFrame df) ->
  (globals s !! "costRangeInData" = None ->
   cell_barChartRanges s = Raises (NameError "costRangeInData") s [])
  /\ (globals s !! "costCol" = None ->
      barChartRanges xcol costRange s = Raises (NameError "costCol") s []).
Proof.
  intros Hdf. split; intros Hnone.
  - unfold cell_barChartRanges, bind_cell.
    cbn [decl_controls decl_barChartRanges].
    unfold column_dropdown, costRange_slider.
    eapply raises_eq; [run | reflexivity ..].
  - unfold barChartRanges. eapply raises_eq; [run | reflexivity ..].
Qed.

Lemma range_binder_needs_the_cost_range_witness :
  let s := Sample.only_table Sample.birdstrikes in
  cell_barChartRanges s = Raises (NameError "costRangeInData") s []
  /\ barChartRanges "When__Phase_of_flight" (0, 13) s
     = Raises (NameError "costCol") s [].
Proof.
  intros s.
  destruct (range_binder_needs_the_cost_range s Sample.birdstrikes
              "When__Phase_of_flight" (0, 13)) as [H1 H2].
  - vm_compute. reflexivity.
  - split; [apply H1 | apply H2]; vm_compute; reflexivity.
Defined.

(** ** The scatterplots *)

Lemma irisScatter_plain_run (s : Session) (df : pd.DataFrame) :
  globals s !! "irisDF" = Some (PDataFrame df) ->
  irisScatter_plain s
  = Returns
      (PChart (
         alt.encode [("x", alt.shorthand "sepalLength");
                     ("y", alt.shorthand "petalLength")] (
         alt.mark_point (alt.Chart (Some df) None))))
      s [].
Proof. intros Hdf. unfold irisScatter_plain. runs. Qed.

Lemma irisScatter_run (s : Session) (df : pd.DataFrame) :
  globals s !! "irisDF" = Some (PDataFrame df) ->
  irisScatter s
  = Returns
      (PChart (
         alt.encode [("x", alt.shorthand "sepalLength");
                     ("y", alt.shorthand "petalLength");
                     ("color", alt.Color "sepalWidth" purples);
                     ("tooltip", alt.shorthands iris_tooltip)] (
         alt.mark_point (alt.Chart (Some df) None))))
      s [].
Proof. intros Hdf. unfold irisScatter. runs. Qed.

(** X9.  The three scatterplot functions build on one another: the
    second [irisScatter] returns the chart of the first with a color
    and a tooltip channel added, and [irisBrushScatter] returns the
    chart of the second with a size channel and one selection
    parameter added.  All three keep the same data, mark, x and y, and
    draw every row of the table; only [irisBrushScatter] touches the
    session, by taking one fresh parameter name. *)
Theorem scatterplots_refine_each_other (s : Session) (df : pd.DataFrame) :
  globals s !! "irisDF" = Some (PDataFrame df) ->
  exists (plain styled brushed : alt.ChartSpec) (brush : alt.Param),
    irisScatter_plain s = Returns (PChart plain) s []
    /\ irisScatter s = Returns (PChart styled) s []
    /\ irisBrushScatter s
       = Returns (PChart brushed)
           (set_param_counter (S (param_counter s)) s) []
    /\ styled
       = alt.encode [("color", alt.Color "sepalWidth" purples);
                     ("tooltip", alt.shorthands iris_tooltip)] plain
    /\ brushed
       = alt.add_params [brush]
           (alt.encode [("size", alt.condition brush 50 1)] styled)
    /\ alt.pname brush = S (param_counter s)
    /\ dom (alt.encoding plain) = {["x"; "y"]}
    /\ dom (alt.encoding styled) = {["x"; "y"; "color"; "tooltip"]}
    /\ dom (alt.encoding brushed)
       = {["x"; "y"; "color"; "tooltip"; "size"]}
    /\ (forall sel,
          alt.rows sel plain = pd.records df
          /\ alt.rows sel styled = pd.records df
          /\ alt.rows sel brushed = pd.records df).
Proof.
  intros Hdf.
  eexists _, _, _,
    {| alt.pname := S (param_counter s); alt.select := alt.interval;
       alt.encodings := ["x"; "y"] |}.
  split; [by apply irisScatter_plain_run |].
  split; [by apply irisScatter_run |].
  split; [by apply irisBrushScatter_run |].
  split.
  { unfold alt.encode, alt.mark_point, alt.with_mark, alt.Chart.
    cbn [alt.data alt.title alt.mark alt.encoding alt.transform alt.params].
    f_equal. }
  split.
  { unfold alt.add_params, alt.encode, alt.mark_point, alt.with_mark,
      alt.Chart.
    cbn [alt.data alt.title alt.mark alt.encoding alt.transform alt.params].
    f_equal. }
  split; [reflexivity |].
  split; [reflexivity |].
  split; [reflexivity |].
  split; [reflexivity |].
  intros sel. split_and!; reflexivity.
Qed.

Lemma scatterplots_refine_each_other_witness :
  exists (plain styled brushed : alt.ChartSpec) (brush : alt.Param),
    irisScatter_plain Sample.session = Returns (PChart plain) Sample.session []
    /\ irisScatter Sample.session = Returns (PChart styled) Sample.session []
    /\ irisBrushScatter Sample.session
       = Returns (PChart brushed)
           (set_param_counter (S (param_counter Sample.session))
              Sample.session) []
    /\ styled
       = alt.encode [("color", alt.Color "sepalWidth" purples);
                     ("tooltip", alt.shorthands iris_tooltip)] plain
    /\ brushed
       = alt.add_params [brush]
           (alt.encode [("size", alt.condition brush 50 1)] styled)
    /\ alt.pname brush = S (param_counter Sample.session)
    /\ dom (alt.encoding plain) = {["x"; "y"]}
    /\ dom (alt.encoding styled) = {["x"; "y"; "color"; "tooltip"]}
    /\ dom (alt.encoding brushed)
       = {["x"; "y"; "color"; "tooltip"; "size"]}
    /\ (forall sel,
          alt.rows sel plain = pd.records Sample.iris
          /\ alt.rows sel styled = pd.records Sample.iris
          /\ alt.rows sel brushed = pd.records Sample.iris).
Proof.
  apply (scatterplots_refine_each_other Sample.session Sample.iris).
  vm_compute. reflexivity.
Defined.

(** ** The layered chart *)

Lemma cell_layered_run (s : Session) (df : pd.DataFrame) :
  globals s !! "irisDF" = Some (PDataFrame df) ->
  cell_layered s
  = let brush := {| alt.pname := S (param_counter s);
                    alt.select := alt.interval;
                    alt.encodings := ["x"; "y"] |} in
    let points :=
      alt.add_params [brush] (
      alt.encode [("x", alt.shorthand "sepalLength");
                  ("y", alt.shorthand "petalLength");
                  ("color", alt.Color "sepalWidth" purples);
                  ("size", alt.condition brush 50 1);
                  ("tooltip", alt.shorthands iris_tooltip)]
        (alt.mark_point (alt.Chart None None))) in
    let meanLine :=
      alt.transform_filter (alt.FilterParam brush) (
      alt.encode [("x", alt.X "median(sepalLength):Q"
                          {| alt.scheme := None; alt.zero := Some false |});
                  ("size", alt.SizeValue 3)] (
      alt.mark_rule "black" (1 # 2)%Q (alt.Chart None None))) in
    Returns tt
      (set_globals
         (<["meanLine" := PChart meanLine]>
            (<["points" := PChart points]>
               (<["irisChart" := PChart (alt.Chart None None)]>
                  (<["brush" := PParam brush]> (globals s)))))
         (set_param_counter (S (param_counter s)) s))
      [Displayed (PLayer (alt.layer [points; meanLine] (Some df)))].
Proof. intros Hdf. unfold cell_layered, selection_interval. runs. Qed.

(** X10.  In the last cell the two layers share one selection
    parameter: the points layer declares it and conditions its size on
    it, the rule layer filters on it and declares none.  Neither layer
    carries data of its own; the table is attached to the layered
    chart.  Run after [irisBrushScatter()], as in the notebook, the
    cell takes the next parameter name, so its brush is not the one of
    that call; apart from the parameter and the data, the points layer
    is the chart that call returned: same mark, same x, y, color and
    tooltip, and the same size condition, each on its own parameter.
    The cell binds [brush], [irisChart], [points] and [meanLine]. *)
Theorem layered_chart_shares_the_brush (s : Session) (df : pd.DataFrame) :
  globals s !! "irisDF" = Some (PDataFrame df) ->
  exists (earlier brush : alt.Param) (scatter points meanLine : alt.ChartSpec)
         (s1 s' : Session),
    irisBrushScatter s = Returns (PChart scatter) s1 []
    /\ cell_layered s1
       = Returns tt s'
           [Displayed (PLayer (alt.layer [points; meanLine] (Some df)))]
    /\ alt.pname earlier = S (param_counter s)
    /\ alt.pname brush = S (S (param_counter s))
    /\ alt.select brush = alt.select earlier
    /\ alt.encodings brush = ["x"; "y"]
    /\ alt.encodings earlier = ["x"; "y"]
    /\ alt.data scatter = Some df
    /\ alt.data points = None
    /\ alt.data meanLine = None
    /\ alt.params scatter = [earlier]
    /\ alt.params points = [brush]
    /\ alt.mark points = alt.mark scatter
    /\ alt.encoding scatter !! "size" = Some (alt.condition earlier 50 1)
    /\ alt.encoding points !! "size" = Some (alt.condition brush 50 1)
    /\ delete "size" (alt.encoding points)
       = delete "size" (alt.encoding scatter)
    /\ alt.params meanLine = []
    /\ alt.transform meanLine = [alt.FilterParam brush]
    /\ alt.mark meanLine = Some (alt.rule "black" (1 # 2)%Q)
    /\ alt.encoding meanLine !! "size" = Some (alt.SizeValue 3)
    /\ globals s' !! "brush" = Some (PParam brush)
    /\ globals s' !! "irisChart" = Some (PChart (alt.Chart None None))
    /\ globals s' !! "points" = Some (PChart points)
    /\ globals s' !! "meanLine" = Some (PChart meanLine)
    /\ param_counter s' = S (S (param_counter s)).
Proof.
  intros Hdf.
  pose proof (irisBrushScatter_run s df Hdf) as H1.
  assert (Hdf1 : globals (set_param_counter (S (param_counter s)) s)
                   !! "irisDF" = Some (PDataFrame df)) by lookup.
  pose proof (cell_layered_run _ df Hdf1) as H2.
  cbv zeta in H1, H2. cbn [param_counter set_param_counter] in H2.
  eexists {| alt.pname := S (param_counter s); alt.select := alt.interval;
             alt.encodings := ["x"; "y"] |},
          {| alt.pname := S (S (param_counter s)); alt.select := alt.interval;
             alt.encodings := ["x"; "y"] |}, _, _, _, _, _.
  split; [exact H1 |]. split; [exact H2 |]. clear H1 H2.
  do 10 (split; [reflexivity |]).
  split; [vm_compute; reflexivity |].
  do 2 (split; [reflexivity |]).
  split; [vm_compute; reflexivity |].
  do 4 (split; [reflexivity |]).
  split_and!; first [reflexivity | lookup].
Qed.

Lemma layered_chart_shares_the_brush_witness :
  exists (earlier brush : alt.Param) (scatter points meanLine : alt.ChartSpec)
         (s1 s' : Session),
    irisBrushScatter Sample.session = Returns (PChart scatter) s1 []
    /\ cell_layered s1
       = Returns tt s'
           [Displayed (PLayer (alt.layer [points; meanLine]
                                 (Some Sample.iris)))]
    /\ alt.pname earlier = S (param_counter Sample.session)
    /\ alt.pname brush = S (S (param_counter Sample.session))
    /\ alt.select brush = alt.select earlier
    /\ alt.encodings brush = ["x"; "y"]
    /\ alt.encodings earlier = ["x"; "y"]
    /\ alt.data scatter = Some Sample.iris
    /\ alt.data points = None
    /\ alt.data meanLine = None
    /\ alt.params scatter = [earlier]
    /\ alt.params points = [brush]
    /\ alt.mark points = alt.mark scatter
    /\ alt.encoding scatter !! "size" = Some (alt.condition earlier 50 1)
    /\ alt.encoding points !! "size" = Some (alt.condition brush 50 1)
    /\ delete "size" (alt.encoding points)
       = delete "size" (alt.encoding scatter)
    /\ alt.params meanLine = []
    /\ alt.transform meanLine = [alt.FilterParam brush]
    /\ alt.mark meanLine = Some (alt.rule "black" (1 # 2)%Q)
    /\ alt.encoding meanLine !! "size" = Some (alt.SizeValue 3)
    /\ globals s' !! "brush" = Some (PParam brush)
    /\ globals s' !! "irisChart" = Some (PChart (alt.Chart None None))
    /\ globals s' !! "points" = Some (PChart points)
    /\ globals s' !! "meanLine" = Some (PChart meanLine)
    /\ param_counter s' = S (S (param_counter Sample.session)).
Proof.
  apply (layered_chart_shares_the_brush Sample.session Sample.iris).
  vm_compute. reflexivity.
Defined.



(** ** The bar charts *)

(** X12.  The static cells and the callbacks draw one family of
    charts.  The titled cell (lines 151-159) displays exactly the
    chart [barChart('When__Phase_of_flight')] returns; the untitled
    cell (lines 142-145) displays that chart without its title; and
    for every column and range, [barChartRanges] returns the chart of
    [barChart] for that column with a subtitle and one filter added:
    data, mark, encoding, parameters and title text are the same. *)
Theorem bar_charts_are_one_family
    (s : Session) (df : pd.DataFrame) (xcol : string) (lo hi : Z) :
  globals s !! "birdStrikesDF" = Some (PDataFrame df) ->
  globals s !! "costCol" = Some (PStr "Cost__Total_$") ->
  exists (phase untitled plain ranged : alt.ChartSpec),
    barChart "When__Phase_of_flight" s = Returns (PChart phase) s []
    /\ cell_bar_titled s = Returns tt s [Displayed (PChart phase)]
    /\ cell_bar s = Returns tt s [Displayed (PChart untitled)]
    /\ alt.title untitled = None
    /\ alt.data untitled = alt.data phase
    /\ alt.mark untitled = alt.mark phase
    /\ alt.encoding untitled = alt.encoding phase
    /\ alt.transform untitled = alt.transform phase
    /\ barChart xcol s = Returns (PChart plain) s []
    /\ barChartRanges xcol (lo, hi) s = Returns (PChart ranged) s []
    /\ alt.data ranged = alt.data plain
    /\ alt.mark ranged = alt.mark plain
    /\ alt.encoding ranged = alt.encoding plain
    /\ alt.params ranged = alt.params plain
    /\ alt.text <$> alt.title ranged = alt.text <$> alt.title plain
    /\ alt.transform plain = []
    /\ alt.transform ranged = [cost_filter lo hi].
Proof.
  intros Hdf Hcol. do 4 eexists.
  split; [by apply barChart_run |].
  split; [unfold cell_bar_titled; runs |].
  split; [unfold cell_bar; runs |].
  do 5 (split; [reflexivity |]).
  split; [by apply barChart_run |].
  split; [by apply barChartRanges_run |].
  split_and!; reflexivity.
Qed.

Lemma bar_charts_are_one_family_witness :
  exists (phase untitled plain ranged : alt.ChartSpec),
    barChart "When__Phase_of_flight" Sample.session
    = Returns (PChart phase) Sample.session []
    /\ cell_bar_titled Sample.session
       = Returns tt Sample.session [Displayed (PChart phase)]
    /\ cell_bar Sample.session
       = Returns tt Sample.session [Displayed (PChart untitled)]
    /\ alt.title untitled = None
    /\ alt.data untitled = alt.data phase
    /\ alt.mark untitled = alt.mark phase
    /\ alt.encoding untitled = alt.encoding phase
    /\ alt.transform untitled = alt.transform phase
    /\ barChart "Cost__Total_$" Sample.session
       = Returns (PChart plain) Sample.session []
    /\ barChartRanges "Cost__Total_$" (1, 3) Sample.session
       = Returns (PChart ranged) Sample.session []
    /\ alt.data ranged = alt.data plain
    /\ alt.mark ranged = alt.mark plain
    /\ alt.encoding ranged = alt.encoding plain
    /\ alt.params ranged = alt.params plain
    /\ alt.text <$> alt.title ranged = alt.text <$> alt.title plain
    /\ alt.transform plain = []
    /\ alt.transform ranged = [cost_filter 1 3].
Proof.
  apply (bar_charts_are_one_family Sample.session Sample.birdstrikes);
    vm_compute; reflexivity.
Defined.

(** X13.  Running the cost-range cell again changes nothing: on the
    session it has left, it returns, displays the same range and
    leaves the session exactly as it is. *)
Theorem cost_range_cell_is_idempotent (s : Session) (df : pd.DataFrame) :
  globals s !! "birdStrikesDF" = Some (PDataFrame df) ->
  result (cell_costRange s) = inr tt ->
  cell_costRange (final (cell_costRange s))
  = Returns tt (final (cell_costRange s)) (output (cell_costRange s)).
Proof.
  intros Hdf Hok.
  destruct (cell_costRange_succeeds s df Hdf Hok) as (lo & hi & Hrange).
  rewrite (cell_costRange_run_gen s df Hdf), Hrange. cbn [final output].
  rewrite (cell_costRange_run_gen _ df) by lookup. rewrite Hrange.
  cbn [globals set_globals]. f_equal.
  unfold set_globals. cbn [catalog heap param_counter calls effects].
  f_equal.
  rewrite (insert_insert_ne _ "costCol" "costRangeInData") by done.
  by rewrite !insert_insert_eq.
Qed.

Lemma cost_range_cell_is_idempotent_witness :
  cell_costRange (final (cell_costRange (Sample.only_table Sample.birdstrikes)))
  = Returns tt (final (cell_costRange (Sample.only_table Sample.birdstrikes)))
      (output (cell_costRange (Sample.only_table Sample.birdstrikes))).
Proof.
  apply (cost_range_cell_is_idempotent
           (Sample.only_table Sample.birdstrikes) Sample.birdstrikes);
    vm_compute; reflexivity.
Defined.

(** ** The whole notebook *)



Lemma apply_barChartRanges
    (xcol : string) (lo hi : Z) (df : pd.DataFrame) (s : Session) :
  globals s !! "birdStrikesDF" = Some (PDataFrame df) ->
  globals s !! "costCol" = Some (PStr "Cost__Total_$") ->
  exists c,
    apply fn_barChartRanges
      [("xcol", PStr xcol); ("costRange", PInts [lo; hi])] s
    = Returns (PChart c) s []
    /\ barChartRanges xcol (lo, hi) s = Returns (PChart c) s [].
Proof.
  intros Hdf Hcol. eexists. split; [| by apply barChartRanges_run].
  cbn [apply].
  eapply returns_eq;
    [ eapply bind_returns; [reflexivity |];
      eapply bind_returns; [reflexivity | by apply barChartRanges_run]
    | reflexivity .. ].
Qed.
















